(** * dataviews.operation: view operations over views, overlays and stacks

    A shallow embedding of [dataviews/operation.py].  Python objects are
    records and inductive types, exceptions are values of an error monad,
    ordered dictionaries are association lists, and NumPy arrays are a shape
    together with the row-major list of their elements. *)

From Stdlib Require Import QArith.
From stdpp Require Import base list strings gmap.

Local Open Scope string_scope.
Local Open Scope list_scope.

(** ** Exceptions and the error monad *)

Inductive exn : Type :=
| NotImplementedError (msg : string)
| Exception (msg : string)
| TypeError
| IndexError
| KeyError
| ValueError
| AttributeError
| UnboundLocalError.

Inductive result (A : Type) : Type :=
| Ok (a : A)
| Raise (e : exn).
Arguments Ok {A} a.
Arguments Raise {A} e.

Global Instance result_ret : MRet result := @Ok.
Global Instance result_bind : MBind result :=
  λ A B f m, match m with Ok a => f a | Raise e => Raise e end.
Global Instance result_fmap : FMap result :=
  λ A B f m, match m with Ok a => Ok (f a) | Raise e => Raise e end.

Definition raises {A} (m : result A) : Prop := ∃ e, m = Raise e.

(** ** The classes imported by the module *)

Module Cls.
Inductive t : Type :=
| View | Overlay
| SheetLayer | SheetView | Contours | SheetOverlay
| DataLayer | Curve | DataOverlay
| Table
| Stack | SheetStack | DataStack | TableStack
| GridLayout | CoordinateGrid | DataGrid.

Global Instance eq_dec : EqDecision t.
Proof. solve_decision. Defined.
End Cls.

(** ** Ordered dictionaries

    An [OrderedDict] is an association list in insertion order; assigning to
    a key that is present replaces the value and keeps the position. *)

Section ordered_dict.
Context {K A : Type} `{EqDecision K}.

Fixpoint od_set (k : K) (v : A) (d : list (K * A)) : list (K * A) :=
  match d with
  | [] => [(k, v)]
  | (k', v') :: d' =>
      if decide (k = k') then (k', v) :: d' else (k', v') :: od_set k v d'
  end.

Fixpoint od_get (k : K) (d : list (K * A)) : option A :=
  match d with
  | [] => None
  | (k', v') :: d' => if decide (k = k') then Some v' else od_get k d'
  end.

(** [OrderedDict(pairs)]: the pairs are assigned one after the other. *)
Definition od_of_pairs (pairs : list (K * A)) : list (K * A) :=
  foldl (λ d kv, od_set kv.1 kv.2 d) [] pairs.

Lemma od_set_fresh k v d :
  k ∉ d.*1 → od_set k v d = d ++ [(k, v)].
Proof.
  induction d as [|[k' v'] d IH]; simpl; intros Hk; [done|].
  apply not_elem_of_cons in Hk as [Hne Hk].
  destruct (decide (k = k')); [done|]. by rewrite IH.
Qed.

Lemma od_get_lookup d j k v :
  NoDup d.*1 → d !! j = Some (k, v) → od_get k d = Some v.
Proof.
  revert j. induction d as [|[k' v'] d IH]; intros j Hnd Hj; [done|].
  simpl in *. apply NoDup_cons in Hnd as [Hk' Hnd].
  destruct j as [|j]; simpl in Hj.
  - injection Hj as -> ->. by rewrite decide_True.
  - destruct (decide (k = k')) as [->|_]; [|by eapply IH].
    exfalso. apply Hk'. apply list_elem_of_fmap.
    exists (k', v). split; [done|]. by eapply list_elem_of_lookup_2.
Qed.

Lemma od_of_pairs_nodup pairs :
  NoDup pairs.*1 → od_of_pairs pairs = pairs.
Proof.
  unfold od_of_pairs.
  enough (∀ acc, NoDup (acc ++ pairs).*1 →
    foldl (λ d kv, od_set kv.1 kv.2 d) acc pairs = acc ++ pairs) as Hgen
    by apply (Hgen []).
  induction pairs as [|[k v] pairs IH]; intros acc Hnd; simpl.
  - by rewrite app_nil_r.
  - rewrite od_set_fresh.
    + rewrite IH; rewrite <- app_assoc; done.
    + rewrite fmap_app in Hnd. apply NoDup_app in Hnd as (_ & Hdisj & _).
      intros Hin. apply (Hdisj k Hin). simpl. apply list_elem_of_here.
Qed.
End ordered_dict.

(** ** Stacks

    The container classes live in modules outside this file; only the parts
    the operations touch are represented. *)

Global Instance Q_eq_dec : EqDecision Q.
Proof. solve_decision. Defined.

(** Python values used as keys, table entries and metadata.  [PCoord] is a
    sheet coordinate [(x, y)], [PArray] a one-dimensional array. *)
Inductive pyval : Type :=
| PNone
| PInt (z : Z)
| PFloat (q : Q)
| PStr (s : string)
| PCoord (x y : Q)
| PArray (l : list Q).

Global Instance pyval_eq_dec : EqDecision pyval.
Proof. solve_decision. Defined.

Definition Metadata : Type := list (string * pyval).

Record Dimension : Type := mkDimension {
  dim_name : string;
  dim_cyclic : bool;
  dim_range : option (Q * Q)
}.

(** Modelled from the spec: the Stack class is not part of this module.  A
    stack is "an ordered mapping from an N-tuple key to a View or Overlay"
    that "carries a dimension list" and metadata; [stack_type] is its
    concrete class. *)
Record Stack (K A : Type) : Type := mkStack {
  stack_type : Cls.t;
  dimensions : list Dimension;
  metadata : Metadata;
  title : string;
  _data : list (K * A)
}.
Arguments mkStack {K A} _ _ _ _ _.
Arguments stack_type {K A} _.
Arguments dimensions {K A} _.
Arguments metadata {K A} _.
Arguments title {K A} _.
Arguments _data {K A} _.

(** The title a stack has when none is passed to its constructor. *)
Definition Stack_default_title : string := "".

(** Modelled from the spec: [stack_tp(dimensions=..., metadata=...)] builds
    an empty stack of class [stack_tp]. *)
Definition Stack_new {K A} (stack_tp : Cls.t) (dims : list Dimension)
    (meta : Metadata) : Stack K A :=
  mkStack stack_tp dims meta Stack_default_title [].

(** Modelled from the spec: [stack[k] = v], insertion into the ordered
    mapping. *)
Definition Stack_setitem {K A} `{EqDecision K}
    (s : Stack K A) (k : K) (v : A) : Stack K A :=
  mkStack (stack_type s) (dimensions s) (metadata s) (title s) (od_set k v (_data s)).

(** [stack.items()] and [stack.keys()]. *)
Definition Stack_items {K A} (s : Stack K A) : list (K * A) := _data s.
Definition Stack_keys {K A} (s : Stack K A) : list K := (_data s).*1.

(** [stack_mapping], keys in the order they are written. *)
Definition stack_mapping : list (Cls.t * Cls.t) :=
  [ (Cls.SheetLayer, Cls.SheetStack);
    (Cls.DataLayer, Cls.DataStack);
    (Cls.Table, Cls.TableStack) ].

(** ** ViewOperation *)

Section ViewOperation.
Context {K : Type} `{EqDecision K}.
(** [El]: what a stack entry or a bare argument is; [V]: what [_process]
    returns. *)
Context {El V : Type}.
(** [type(v)] and [issubclass], from the class declarations. *)
Variable type_of : V → Cls.t.
Variable issubclass : Cls.t → Cls.t → bool.
(** The abstract method. *)
Variable _process : El → result (list V).

(** The argument of [__call__]: [isinstance(view, Stack)] or not. *)
Inductive Input : Type :=
| InView (view : El)
| InStack (view : Stack K El).

Inductive Output : Type :=
| OutView (v : V)
| OutStack (s : Stack K V)
| GridLayout_views (views : list V)
| GridLayout_stacks (stacks : list (Stack K V)).

(** The inner loop of [_get_signature]: the signature of one view list. *)
Fixpoint view_signature (views : list V) : result (list Cls.t) :=
  match views with
  | [] => Ok []
  | v :: views' =>
      if bool_decide (type_of v ∈ [Cls.CoordinateGrid; Cls.DataGrid]) then
        Raise (NotImplementedError "CoordinateGrid and DataGrid not supported yet")
      else
        match filter (λ k, issubclass (type_of v) k = true) stack_mapping.*1 with
        | [] => Raise IndexError
        | stack_type :: _ =>
            view_signature' ← view_signature views';
            Ok (stack_type :: view_signature')
        end
  end.

Fixpoint _get_signature_from (signature : option (list Cls.t))
    (view_lists : list (list V)) : result (option (list Cls.t)) :=
  match view_lists with
  | [] => Ok signature
  | views :: view_lists' =>
      view_signature' ← view_signature views;
      let signature := match signature with
                       | None => view_signature'
                       | Some sg => sg
                       end in
      if bool_decide (signature ≠ view_signature') then
        Raise (Exception "The ViewOperation is returning inconsistent types.")
      else _get_signature_from (Some signature) view_lists'
  end.

Definition _get_signature (view_lists : list (list V))
    : result (option (list Cls.t)) :=
  _get_signature_from None view_lists.

(** [[(k, self._process(el)) for k, el in view.items()]] *)
Fixpoint mapped_items_of (items : list (K * El)) : result (list (K * list V)) :=
  match items with
  | [] => Ok []
  | (k, el) :: items' =>
      views ← _process el;
      rest ← mapped_items_of items';
      Ok ((k, views) :: rest)
  end.

(** [for ind, v in enumerate(views): stacks[ind][k] = v] *)
Fixpoint insert_views (k : K) (ind : nat) (views : list V)
    (stacks : list (Stack K V)) : result (list (Stack K V)) :=
  match views with
  | [] => Ok stacks
  | v :: views' =>
      match stacks !! ind with
      | None => Raise IndexError
      | Some s => insert_views k (S ind) views' (<[ind := Stack_setitem s k v]> stacks)
      end
  end.

Fixpoint fill_stacks (mapped_items : list (K * list V))
    (stacks : list (Stack K V)) : result (list (Stack K V)) :=
  match mapped_items with
  | [] => Ok stacks
  | (k, views) :: mapped_items' =>
      stacks' ← insert_views k 0 views stacks;
      fill_stacks mapped_items' stacks'
  end.

(** [[stack_mapping[tp] for tp in signature]] *)
Fixpoint stack_types_of (signature : list Cls.t) : result (list Cls.t) :=
  match signature with
  | [] => Ok []
  | tp :: signature' =>
      match od_get tp stack_mapping with
      | None => Raise KeyError
      | Some stack_tp =>
          rest ← stack_types_of signature';
          Ok (stack_tp :: rest)
      end
  end.

Definition ViewOperation_call (view : Input) : result Output :=
  match view with
  | InView view =>
      views ← _process view;
      if bool_decide (1 < length views) then Ok (GridLayout_views views)
      else match views !! 0 with
           | Some v => Ok (OutView v)
           | None => Raise IndexError
           end
  | InStack view =>
      mapped_items ← mapped_items_of (Stack_items view);
      signature ← _get_signature mapped_items.*2;
      match signature with
      | None => Raise TypeError
      | Some signature =>
          stack_types ← stack_types_of signature;
          let stacks : list (Stack K V) :=
            (λ stack_tp, Stack_new stack_tp (dimensions view) (metadata view))
              <$> stack_types in
          stacks ← fill_stacks mapped_items stacks;
          if bool_decide (length stacks = 1) then
            match stacks !! 0 with
            | Some s => Ok (OutStack s)
            | None => Raise IndexError
            end
          else Ok (GridLayout_stacks stacks)
      end
  end.

(** *** Facts about the signature *)

Lemma view_signature_length views sg :
  view_signature views = Ok sg → length sg = length views.
Proof.
  revert sg. induction views as [|v views IH]; intros sg; simpl.
  - by intros [= <-].
  - case_bool_decide; [done|].
    destruct (filter _ _) as [|tp ?]; [done|].
    destruct (view_signature views) as [sg'|]; simpl; [|done].
    intros [= <-]. simpl. by rewrite (IH sg').
Qed.

Lemma view_signature_keys views sg :
  view_signature views = Ok sg → Forall (λ tp, tp ∈ stack_mapping.*1) sg.
Proof.
  revert sg. induction views as [|v views IH]; intros sg; simpl.
  - intros [= <-]. constructor.
  - case_bool_decide; [done|].
    destruct (filter _ _) as [|tp l] eqn:Hf; [done|].
    destruct (view_signature views) as [sg'|]; simpl; [|done].
    intros [= <-]. constructor; [|by apply IH].
    pose proof (list_elem_of_here tp l) as Hin. rewrite <- Hf in Hin.
    by apply list_elem_of_filter in Hin as [_ ?].
Qed.

Lemma _get_signature_from_same sg view_lists :
  Forall (λ views, view_signature views = Ok sg) view_lists →
  _get_signature_from (Some sg) view_lists = Ok (Some sg).
Proof.
  induction 1 as [|views view_lists Hv _ IH]; simpl; [done|].
  rewrite Hv. simpl. by rewrite bool_decide_false by (intros Hne; by apply Hne).
Qed.

Lemma _get_signature_same sg view_lists :
  view_lists ≠ [] →
  Forall (λ views, view_signature views = Ok sg) view_lists →
  _get_signature view_lists = Ok (Some sg).
Proof.
  intros Hne Hall. destruct Hall as [|views view_lists Hv Hall]; [done|].
  unfold _get_signature. simpl. rewrite Hv. simpl.
  rewrite bool_decide_false by (intros Hn; by apply Hn).
  by apply _get_signature_from_same.
Qed.

(** Once a signature is fixed, a successful run means every list has it. *)
Lemma _get_signature_from_Ok sg view_lists r :
  _get_signature_from (Some sg) view_lists = Ok r →
  r = Some sg ∧ Forall (λ views, view_signature views = Ok sg) view_lists.
Proof.
  induction view_lists as [|views view_lists IH]; simpl.
  - intros [= <-]. by split.
  - destruct (view_signature views) as [sg'|] eqn:Hv; simpl; [|done].
    case_bool_decide as Hd; [done|].
    assert (sg = sg') as <- by (destruct (decide (sg = sg')); [done|by destruct Hd]).
    intros Hr. destruct (IH Hr) as [-> Hall]. split; [done|by constructor].
Qed.

Lemma _get_signature_Ok view_lists r :
  _get_signature view_lists = Ok r →
  match r with
  | None => view_lists = []
  | Some sg => Forall (λ views, view_signature views = Ok sg) view_lists
  end.
Proof.
  unfold _get_signature. destruct view_lists as [|views view_lists]; simpl.
  - by intros [= <-].
  - destruct (view_signature views) as [sg|] eqn:Hv; simpl; [|done].
    case_bool_decide as Hd; [done|].
    intros Hr. apply _get_signature_from_Ok in Hr as [-> Hall].
    by constructor.
Qed.

Lemma stack_types_of_keys sg :
  Forall (λ tp, tp ∈ stack_mapping.*1) sg →
  ∃ stack_types, stack_types_of sg = Ok stack_types ∧
    Forall2 (λ tp stack_tp, od_get tp stack_mapping = Some stack_tp) sg stack_types.
Proof.
  induction 1 as [|tp sg Htp _ (sts & Hsts & Hall)]; cbn [stack_types_of].
  - exists []. by split.
  - assert (∃ stack_tp, od_get tp stack_mapping = Some stack_tp) as [stack_tp Hg].
    { simpl in Htp. rewrite !elem_of_cons, elem_of_nil in Htp.
      destruct Htp as [->|[->|[->|[]]]]; by eexists. }
    rewrite Hg, Hsts. simpl. exists (stack_tp :: sts). split; [done|by constructor].
Qed.

(** *** Facts about the traversal of the stack *)

Lemma mapped_items_of_Ok items mapped_items :
  mapped_items_of items = Ok mapped_items →
  Forall2 (λ kel kvs, kel.1 = kvs.1 ∧ _process kel.2 = Ok kvs.2) items mapped_items.
Proof.
  revert mapped_items. induction items as [|[k el] items IH]; intros mapped_items; simpl.
  - intros [= <-]. constructor.
  - destruct (_process el) as [views|] eqn:Hp; simpl; [|done].
    destruct (mapped_items_of items) as [rest|]; simpl; [|done].
    intros [= <-]. constructor; [done|by apply IH].
Qed.

Lemma mapped_items_of_all items :
  (∀ k el, (k, el) ∈ items → ∃ views, _process el = Ok views) →
  ∃ mapped_items, mapped_items_of items = Ok mapped_items.
Proof.
  induction items as [|[k el] items IH]; intros Hall; simpl; [by eexists|].
  destruct (Hall k el) as [views ->]; [apply list_elem_of_here|]. simpl.
  destruct IH as [rest ->].
  { intros k' el' Hin. apply (Hall k' el'). by apply list_elem_of_further. }
  by eexists.
Qed.

Lemma insert_views_spec k views : ∀ pre stacks,
  length stacks = length views →
  insert_views k (length pre) views (pre ++ stacks) =
    Ok (pre ++ zip_with (λ s v, Stack_setitem s k v) stacks views).
Proof.
  induction views as [|v views IH]; intros pre stacks Hlen; simpl.
  - destruct stacks; [done|discriminate].
  - destruct stacks as [|s stacks]; [discriminate|]. simpl in Hlen.
    rewrite list_lookup_middle by done.
    rewrite (insert_app_r_alt pre) by done.
    rewrite Nat.sub_diag. cbn [insert list_insert].
    replace (pre ++ Stack_setitem s k v :: stacks)
      with ((pre ++ [Stack_setitem s k v]) ++ stacks) by (by rewrite <- app_assoc).
    replace (S (length pre)) with (length (pre ++ [Stack_setitem s k v]))
      by (rewrite length_app; simpl; lia).
    rewrite IH by lia. simpl. by rewrite <- app_assoc.
Qed.

Definition fill_step (stacks : list (Stack K V)) (kvs : K * list V)
    : list (Stack K V) :=
  zip_with (λ s v, Stack_setitem s kvs.1 v) stacks kvs.2.

Lemma fill_stacks_spec mapped_items : ∀ stacks,
  Forall (λ kvs, length kvs.2 = length stacks) mapped_items →
  fill_stacks mapped_items stacks = Ok (foldl fill_step stacks mapped_items).
Proof.
  induction mapped_items as [|[k views] mapped_items IH]; intros stacks Hall; [done|].
  apply Forall_cons in Hall as [Hlen Hall]. simpl in *.
  pose proof (insert_views_spec k views [] stacks (eq_sym Hlen)) as Hi.
  simpl in Hi. rewrite Hi. simpl.
  apply IH. unfold fill_step. simpl.
  eapply Forall_impl; [exact Hall|]. intros kvs Hk. simpl in *.
  rewrite length_zip_with. lia.
Qed.

(** [column_rel ind] relates an entry of the output stack at position [ind]
    to the mapped item it comes from. *)
Definition column_rel (ind : nat) (kv : K * V) (kvs : K * list V) : Prop :=
  kv.1 = kvs.1 ∧ kvs.2 !! ind = Some kv.2.

Definition stack_header (dims : list Dimension) (meta : Metadata)
    (s : Stack K V) (stack_tp : Cls.t) : Prop :=
  stack_type s = stack_tp ∧ dimensions s = dims ∧ metadata s = meta.

Lemma column_rel_keys ind d pre :
  Forall2 (column_rel ind) d pre → d.*1 = pre.*1.
Proof.
  induction 1 as [|kv kvs d pre [Hk _] _ IH]; [done|].
  rewrite !fmap_cons. by f_equal.
Qed.

Lemma fill_step_header dims meta stacks stack_types kvs :
  Forall2 (stack_header dims meta) stacks stack_types →
  length kvs.2 = length stacks →
  Forall2 (stack_header dims meta) (fill_step stacks kvs) stack_types.
Proof.
  destruct kvs as [k views]. unfold fill_step. simpl. intros Hh. revert views.
  induction Hh as [|s tp stacks stack_types Hs _ IH]; intros [|v views] Hlen;
    try discriminate; simpl; constructor.
  - exact Hs.
  - apply IH. simpl in Hlen. lia.
Qed.

Lemma foldl_fill_step_inv dims meta stack_types mapped_items : ∀ pre stacks,
  NoDup (pre ++ mapped_items).*1 →
  Forall (λ kvs, length kvs.2 = length stack_types) mapped_items →
  Forall2 (stack_header dims meta) stacks stack_types →
  (∀ ind s, stacks !! ind = Some s → Forall2 (column_rel ind) (_data s) pre) →
  Forall2 (stack_header dims meta) (foldl fill_step stacks mapped_items) stack_types ∧
  (∀ ind s, foldl fill_step stacks mapped_items !! ind = Some s →
     Forall2 (column_rel ind) (_data s) (pre ++ mapped_items)).
Proof.
  induction mapped_items as [|[k views] mapped_items IH];
    intros pre stacks Hnd Hlen Hh Hcol; simpl.
  - split; [done|]. intros ind s Hs. rewrite app_nil_r. by apply Hcol.
  - apply Forall_cons in Hlen as [Hlen1 Hlen].
    pose proof (Forall2_length _ _ _ Hh) as Hsl. simpl in Hlen1.
    replace (pre ++ (k, views) :: mapped_items)
      with ((pre ++ [(k, views)]) ++ mapped_items) in * by (by rewrite <- app_assoc).
    apply IH; [done|done| |].
    + apply fill_step_header; [done|]. simpl. lia.
    + intros ind s1 Hs1. unfold fill_step in Hs1. simpl in Hs1.
      apply lookup_zip_with_Some in Hs1 as (s & v & -> & Hs & Hv).
      simpl. specialize (Hcol ind s Hs).
      rewrite od_set_fresh.
      * apply Forall2_app; [done|]. constructor; [|constructor]. by split.
      * rewrite (column_rel_keys _ _ _ Hcol).
        rewrite !fmap_app in Hnd. apply NoDup_app in Hnd as [Hnd _].
        apply NoDup_app in Hnd as (_ & Hdisj & _).
        intros Hin. apply (Hdisj k Hin). simpl. apply list_elem_of_here.
Qed.

(** An empty stack has no signature, and iterating over [None] fails. *)
Lemma ViewOperation_call_empty stack_tp dims meta ttl :
  ViewOperation_call (InStack (mkStack stack_tp dims meta ttl [])) = Raise TypeError.
Proof. reflexivity. Qed.

(** C1 (as amended): applied to a non-empty stack whose entries are all
    processed successfully with one common category signature, the call
    returns one output stack per output position -- the stack itself when
    there is one position, a grid layout of the stacks otherwise -- and each
    output stack has the class chosen by [stack_mapping], the input stack's
    dimension list and metadata, and exactly the input's keys, in the input's
    order, the entry at each key being the output at that position of the
    input entry at the same key. *)
Theorem ViewOperation_call_stack (view : Stack K El) (sg : list Cls.t) :
  Stack_items view ≠ [] →
  NoDup (Stack_keys view) →
  (∀ k el, (k, el) ∈ Stack_items view →
     ∃ views, _process el = Ok views ∧ view_signature views = Ok sg) →
  ∃ stacks : list (Stack K V),
    ViewOperation_call (InStack view) =
      Ok (match stacks with [s] => OutStack s | _ => GridLayout_stacks stacks end) ∧
    length stacks = length sg ∧
    ∀ ind s, stacks !! ind = Some s →
      (∃ tp, sg !! ind = Some tp ∧ od_get tp stack_mapping = Some (stack_type s)) ∧
      dimensions s = dimensions view ∧
      metadata s = metadata view ∧
      length (Stack_items s) = length (Stack_items view) ∧
      Stack_keys s = Stack_keys view ∧
      ∀ j k el, Stack_items view !! j = Some (k, el) →
        ∃ views v, _process el = Ok views ∧ views !! ind = Some v ∧
                   Stack_items s !! j = Some (k, v).
Proof.
  intros Hne Hnd Hall. unfold Stack_items, Stack_keys in *.
  destruct (mapped_items_of_all (_data view)) as [mapped_items Hm].
  { intros k el Hin. destruct (Hall k el Hin) as (views & ? & _). by eexists. }
  pose proof (mapped_items_of_Ok _ _ Hm) as Hrel.
  assert (Forall (λ kvs, view_signature kvs.2 = Ok sg) mapped_items) as Hsig.
  { apply Forall_forall. intros [k views] Hin.
    apply list_elem_of_lookup in Hin as [j Hj].
    destruct (Forall2_lookup_r _ _ _ _ _ Hrel Hj) as ([k' el] & Hj' & Hk & Hp).
    simpl in *. destruct (Hall k' el) as (views' & Hp' & Hs').
    { by eapply list_elem_of_lookup_2. }
    congruence. }
  assert (mapped_items ≠ []) as Hmne.
  { intros ->. apply Forall2_nil_inv_r in Hrel. done. }
  assert (_get_signature mapped_items.*2 = Ok (Some sg)) as Hgs.
  { apply _get_signature_same.
    - by destruct mapped_items.
    - by apply Forall_fmap. }
  assert (Forall (λ tp, tp ∈ stack_mapping.*1) sg) as Hkeys.
  { destruct mapped_items as [|kvs ?]; [done|].
    apply Forall_cons in Hsig as [Hs _]. by eapply view_signature_keys. }
  destruct (stack_types_of_keys sg Hkeys) as (stack_types & Hst & Htps).
  set (stacks0 := (λ stack_tp, Stack_new stack_tp (dimensions view) (metadata view))
                    <$> stack_types : list (Stack K V)).
  assert (mapped_items.*1 = (_data view).*1) as Hk1.
  { clear -Hrel. induction Hrel as [|kel kvs items mapped [Hk _] _ IH]; [done|].
    rewrite !fmap_cons. by f_equal. }
  destruct (foldl_fill_step_inv (dimensions view) (metadata view) stack_types
              mapped_items [] stacks0) as [Hh Hcol].
  { simpl. by rewrite Hk1. }
  { eapply Forall_impl; [exact Hsig|]. intros kvs Hs. simpl in Hs.
    apply view_signature_length in Hs. rewrite <- Hs.
    by apply Forall2_length in Htps. }
  { subst stacks0. clear. induction stack_types; simpl; constructor; [done|done]. }
  { intros ind s Hs. subst stacks0. apply list_lookup_fmap_Some in Hs as (tp & -> & _).
    constructor. }
  simpl in Hcol.
  set (stacks := foldl fill_step stacks0 mapped_items) in *.
  assert (fill_stacks mapped_items stacks0 = Ok stacks) as Hfill.
  { apply fill_stacks_spec. eapply Forall_impl; [exact Hsig|].
    intros kvs Hs. simpl in Hs. apply view_signature_length in Hs.
    subst stacks0. rewrite length_fmap, <- Hs. by apply Forall2_length in Htps. }
  assert (length stacks = length sg) as Hlen.
  { apply Forall2_length in Hh. apply Forall2_length in Htps. lia. }
  exists stacks. split; [|split; [done|]].
  - unfold ViewOperation_call, Stack_items. rewrite Hm. simpl.
    rewrite Hgs. simpl. rewrite Hst. simpl. fold stacks0. rewrite Hfill. simpl.
    destruct stacks as [|s [|s' stacks']]; simpl; try done.
  - intros ind s Hs.
    destruct (Forall2_lookup_l _ _ _ _ _ Hh Hs) as (stack_tp & Htp & Hty & Hd & Hmeta).
    destruct (Forall2_lookup_r _ _ _ _ _ Htps Htp) as (tp & Hsg & Hget).
    specialize (Hcol ind s Hs).
    pose proof (column_rel_keys _ _ _ Hcol) as Hk2.
    split; [exists tp; by rewrite Hty|].
    split; [done|]. split; [done|].
    split; [by rewrite <- (length_fmap fst), Hk2, Hk1, length_fmap|].
    split; [by rewrite Hk2, Hk1|].
    intros j k el Hj.
    destruct (Forall2_lookup_l _ _ _ _ _ Hrel Hj) as ([k' views] & Hj' & Hk & Hp).
    destruct (Forall2_lookup_r _ _ _ _ _ Hcol Hj') as ([k'' v] & Hj'' & Hk' & Hv).
    simpl in *. subst. by exists views, v.
Qed.

(** C2: if two entries of a stack are processed into view lists with
    different category signatures, the call on the stack fails; a failed
    call returns no stack at all. *)
Theorem ViewOperation_call_inconsistent (view : Stack K El)
    k1 el1 views1 sg1 k2 el2 views2 sg2 :
  (k1, el1) ∈ Stack_items view →
  (k2, el2) ∈ Stack_items view →
  _process el1 = Ok views1 → view_signature views1 = Ok sg1 →
  _process el2 = Ok views2 → view_signature views2 = Ok sg2 →
  sg1 ≠ sg2 →
  raises (ViewOperation_call (InStack view)).
Proof.
  intros Hin1 Hin2 Hp1 Hs1 Hp2 Hs2 Hne. unfold raises, ViewOperation_call.
  destruct (mapped_items_of (Stack_items view)) as [mapped_items|e] eqn:Hm;
    simpl; [|by eexists].
  destruct (_get_signature mapped_items.*2) as [[sg|]|e] eqn:Hg; simpl;
    [|by eexists|by eexists].
  exfalso. apply _get_signature_Ok in Hg.
  pose proof (mapped_items_of_Ok _ _ Hm) as Hrel.
  assert (∀ k el views sg', (k, el) ∈ Stack_items view → _process el = Ok views →
            view_signature views = Ok sg' → sg' = sg) as Hsame.
  { intros k el views sg' Hin Hp Hs.
    apply list_elem_of_lookup in Hin as [j Hj].
    destruct (Forall2_lookup_l _ _ _ _ _ Hrel Hj) as ([k' views'] & Hj' & _ & Hp').
    simpl in Hp'. rewrite Hp in Hp'. injection Hp' as <-.
    rewrite Forall_fmap in Hg.
    rewrite Forall_lookup in Hg. specialize (Hg j _ Hj'). simpl in Hg.
    congruence. }
  apply Hne. rewrite (Hsame _ _ _ _ Hin1 Hp1 Hs1). symmetry. by eapply Hsame.
Qed.
End ViewOperation.

(** ** StackOperation *)

Section StackOperation.
(** [R]: what [_process] returns, Stacks as a rule. *)
Context {K El R : Type}.
Variable _process : Stack K El → result (list R).

(** The argument either is a Stack or is not. *)
Inductive StackInput : Type :=
| NotAStack
| AStack (stack : Stack K El).

Inductive StackOutput : Type :=
| OutOneStack (s : R)
| GridLayout_of (stacks : list R).

Definition StackOperation_call (stack : StackInput) : result StackOutput :=
  match stack with
  | NotAStack => Raise (Exception "StackOperation can only process Stacks.")
  | AStack stack =>
      stacks ← _process stack;
      if bool_decide (length stacks = 1) then
        match stacks !! 0 with
        | Some s => Ok (OutOneStack s)
        | None => Raise IndexError
        end
      else Ok (GridLayout_of stacks)
  end.
End StackOperation.

(** ** NumPy arrays

    An array is its shape and its elements in row-major order.  Elements are
    rationals: the operations below only compare, select and multiply them. *)

Record ndarray : Type := mkArr {
  shape : list nat;
  flat : list Q
}.

Definition prod_list (l : list nat) : nat := foldr Nat.mul 1%nat l.

Definition wf_array (a : ndarray) : Prop :=
  length (flat a) = prod_list (shape a).

Definition Qltb (x y : Q) : bool := negb (Qle_bool y x).
Definition Qmaxb (x y : Q) : Q := if Qle_bool x y then y else x.
Definition Qminb (x y : Q) : Q := if Qle_bool x y then x else y.

(** [a.max()] and [a.min()]: a reduction of an array without elements
    raises ValueError. *)
Definition ndarray_max (a : ndarray) : result Q :=
  match flat a with
  | [] => Raise ValueError
  | x :: xs => Ok (foldl Qmaxb x xs)
  end.

Definition ndarray_min (a : ndarray) : result Q :=
  match flat a with
  | [] => Raise ValueError
  | x :: xs => Ok (foldl Qminb x xs)
  end.

(** [a.clip(lo, hi)] without [out=]: a new array; [a] is left as it is. *)
Definition ndarray_clip (lo hi : Q) (a : ndarray) : ndarray :=
  mkArr (shape a) ((λ x, Qminb (Qmaxb x lo) hi) <$> flat a).

(** [a * c] for a scalar [c], and [np.ones(shape)]. *)
Definition ndarray_scale (c : Q) (a : ndarray) : ndarray :=
  mkArr (shape a) ((λ x, x * c)%Q <$> flat a).

Definition np_ones (sh : list nat) : ndarray :=
  mkArr sh (replicate (prod_list sh) 1%Q).

(** [np.atleast_3d] *)
Definition atleast_3d (a : ndarray) : ndarray :=
  match shape a with
  | [] => mkArr [1; 1; 1]%nat (flat a)
  | [n] => mkArr [1; n; 1]%nat (flat a)
  | [m; n] => mkArr [m; n; 1]%nat (flat a)
  | _ => a
  end.

(** The elements of [a] at position [p] of the first two axes, where each
    position holds [c] elements. *)
Definition cell (c p : nat) (a : ndarray) : list Q :=
  take c (drop (p * c) (flat a)).

(** Elements per position of the first two axes. *)
Definition cell_size (a : ndarray) : nat := prod_list (drop 2 (shape a)).

(** [np.concatenate(arrays, axis=2)] for arrays of at least three
    dimensions: the shapes must agree outside axis 2. *)
Definition concatenate_axis2 (arrays : list ndarray) : result ndarray :=
  match arrays with
  | [] => Raise ValueError
  | a0 :: _ =>
      match shape a0 with
      | m :: n :: _ :: trailing =>
          if forallb (λ a, bool_decide (take 2 (shape a) = [m; n] ∧
                                        drop 3 (shape a) = trailing ∧
                                        (3 ≤ length (shape a))%nat)) arrays
          then
            Ok (mkArr
                  (m :: n :: sum_list ((λ a, default 0%nat (shape a !! 2%nat)) <$> arrays)
                     :: trailing)
                  (concat ((λ p, concat ((λ a, cell (cell_size a) p a) <$> arrays))
                             <$> seq 0 (m * n))))
          else Raise ValueError
      | _ => Raise ValueError
      end
  end.

(** [np.dstack(arrays)] *)
Definition np_dstack (arrays : list ndarray) : result ndarray :=
  concatenate_axis2 (atleast_3d <$> arrays).

(** [a[:, :, i]] for [0 <= i] *)
Definition ndarray_channel (i : nat) (a : ndarray) : result ndarray :=
  match shape a with
  | m :: n :: d :: trailing =>
      if bool_decide (i < d)%nat then
        let t := prod_list trailing in
        Ok (mkArr (m :: n :: trailing)
              (concat ((λ p, take t (drop ((p * d + i) * t) (flat a))) <$> seq 0 (m * n))))
      else Raise IndexError
  | _ => Raise IndexError
  end.

(** ** Views

    Modelled from the spec: the view classes are declared outside this
    module.  A View wraps "a rectangular numeric array plus a bounding
    region, a depth, a mode tag, a label, and optional metadata"; an Overlay
    is "an ordered sequence of Views sharing a bounding region"; a Table is
    "an ordered mapping from sample identifier to a scalar value"; a Curve is
    "a sequence of (x, y) pairs plus axis labels and legend label". *)

Record BoundingBox : Type := mkBounds {
  bb_left : Q; bb_bottom : Q; bb_right : Q; bb_top : Q
}.

Definition lbrt (b : BoundingBox) : Q * Q * Q * Q :=
  (bb_left b, bb_bottom b, bb_right b, bb_top b).

Record SheetView : Type := mkSheetView {
  sv_data : ndarray;
  sv_bounds : BoundingBox;
  sv_label : string;
  sv_roi_bounds : option BoundingBox;
  sv_cyclic_range : option Q;
  sv_style : option string;
  sv_metadata : Metadata
}.

Record Contours : Type := mkContours {
  ct_data : list (list (Q * Q));
  ct_bounds : BoundingBox;
  ct_metadata : Metadata;
  ct_label : string
}.

Record Table : Type := mkTable {
  tb_data : list (pyval * pyval);
  tb_label : string;
  tb_metadata : Metadata
}.

Record Curve : Type := mkCurve {
  cv_data : list (pyval * pyval);
  cv_cyclic_range : option Q;
  cv_metadata : Metadata;
  cv_label : string;
  cv_legend_label : string;
  cv_xlabel : string;
  cv_ylabel : string
}.

Record OverlayOf (A : Type) : Type := mkOverlay {
  ov_data : list A;
  ov_bounds : BoundingBox;
  ov_roi_bounds : option BoundingBox;
  ov_label : string
}.
Arguments mkOverlay {A} _ _ _ _.
Arguments ov_data {A} _.
Arguments ov_bounds {A} _.
Arguments ov_roi_bounds {A} _.
Arguments ov_label {A} _.

#[warnings="-register-all"]
Inductive View : Type :=
| VSheetView (sv : SheetView)
| VContours (c : Contours)
| VSheetOverlay (o : OverlayOf View)
| VTable (t : Table)
| VCurve (c : Curve)
| VDataOverlay (curves : list Curve).

Definition Overlay : Type := OverlayOf View.

(** [type(v)] *)
Definition type_of (v : View) : Cls.t :=
  match v with
  | VSheetView _ => Cls.SheetView
  | VContours _ => Cls.Contours
  | VSheetOverlay _ => Cls.SheetOverlay
  | VTable _ => Cls.Table
  | VCurve _ => Cls.Curve
  | VDataOverlay _ => Cls.DataOverlay
  end.

(** Modelled from the spec: the direct base classes, after the import lines
    and the three container categories (sheet-like, general-data-like,
    tabular-like). *)
Definition bases (c : Cls.t) : list Cls.t :=
  match c with
  | Cls.Overlay | Cls.SheetLayer | Cls.DataLayer | Cls.Table => [Cls.View]
  | Cls.SheetView | Cls.Contours => [Cls.SheetLayer]
  | Cls.SheetOverlay => [Cls.SheetLayer; Cls.Overlay]
  | Cls.Curve => [Cls.DataLayer]
  | Cls.DataOverlay => [Cls.DataLayer; Cls.Overlay]
  | Cls.SheetStack | Cls.DataStack | Cls.TableStack => [Cls.Stack]
  | _ => []
  end.

Fixpoint issubclass_fuel (fuel : nat) (c k : Cls.t) : bool :=
  bool_decide (c = k) ||
  match fuel with
  | O => false
  | S fuel' => existsb (λ b, issubclass_fuel fuel' b k) (bases c)
  end.

Definition issubclass (c k : Cls.t) : bool := issubclass_fuel 3 c k.

Definition isinstance (v : View) (k : Cls.t) : bool := issubclass (type_of v) k.

(** [v.label] *)
Definition label (v : View) : string :=
  match v with
  | VSheetView sv => sv_label sv
  | VContours c => ct_label c
  | VSheetOverlay o => ov_label o
  | VTable t => tb_label t
  | VCurve c => cv_label c
  | VDataOverlay _ => ""
  end.

(** [s.endswith(pattern)] *)
Definition endswith (s pattern : string) : bool :=
  bool_decide (String.length pattern ≤ String.length s)%nat &&
  bool_decide (String.substring (String.length s - String.length pattern)
                 (String.length pattern) s = pattern).

(** [view.data] of an Overlay. *)
Definition overlay_data (view : View) : list View :=
  match view with
  | VSheetOverlay o => ov_data o
  | VDataOverlay curves => VCurve <$> curves
  | _ => []
  end.

(** ** ViewOperation.get_views

    [matches] is bound in two branches only; where neither is taken, reading
    it in the [return] statement raises UnboundLocalError. *)
Definition get_views (view : View) (pattern : string) (view_type : Cls.t)
    : result (list View) :=
  let matches : option (list View) :=
    if isinstance view Cls.Overlay then
      Some (filter (λ v, endswith (label v) pattern = true) (overlay_data view))
    else if isinstance view Cls.SheetView then
      Some (if endswith (label view) pattern then [view] else [])
    else None in
  match matches with
  | None => Raise UnboundLocalError
  | Some matches => Ok (filter (λ m, isinstance m view_type = true) matches)
  end.

(** C10: for an argument that is neither an Overlay nor a SheetView the call
    fails, [matches] being unbound, and no list is returned. *)
Theorem get_views_unbound view pattern view_type :
  isinstance view Cls.Overlay = false →
  isinstance view Cls.SheetView = false →
  get_views view pattern view_type = Raise UnboundLocalError ∧
  ∀ l, get_views view pattern view_type ≠ Ok l.
Proof. intros H1 H2. unfold get_views. rewrite H1, H2. by split. Qed.

(** A list comes back exactly for the two kinds of argument. *)
Lemma get_views_returns view pattern view_type :
  (∃ l, get_views view pattern view_type = Ok l) ↔
  isinstance view Cls.Overlay = true ∨ isinstance view Cls.SheetView = true.
Proof.
  unfold get_views.
  destruct (isinstance view Cls.Overlay), (isinstance view Cls.SheetView);
    split; eauto; try by intros [? [=]].
  intros [[=]|[=]].
Qed.

Lemma get_views_unbound_witness :
  isinstance (VTable (mkTable [] "T" [])) Cls.Overlay = false ∧
  isinstance (VTable (mkTable [] "T" [])) Cls.SheetView = false ∧
  get_views (VTable (mkTable [] "T" [])) "" Cls.SheetView = Raise UnboundLocalError.
Proof.
  split; [reflexivity|]. split; [reflexivity|].
  apply (get_views_unbound (VTable (mkTable [] "T" [])) "" Cls.SheetView); reflexivity.
Defined.

(** ** SheetView properties and construction *)

(** Modelled from the spec: "depth (number of channels: 1, 3, or 4)" of the
    view's array, a two-dimensional array having one channel. *)
Definition sv_depth (sv : SheetView) : result nat :=
  match shape (sv_data sv) with
  | [_; _] => Ok 1%nat
  | [_; _; d] => Ok d
  | _ => Raise IndexError
  end.

(** Modelled from the spec: "depth is consistent with mode (depth 1 =>
    scalar/cmap; depth 3/4 => rgb/rgba)". *)
Definition sv_mode (sv : SheetView) : result string :=
  depth ← sv_depth sv;
  if bool_decide (depth = 1%nat) then Ok "cmap"
  else if bool_decide (depth = 3%nat) then Ok "rgb"
  else if bool_decide (depth = 4%nat) then Ok "rgba"
  else Raise (Exception "Mode cannot be determined from the depth").

Definition sv_shape (sv : SheetView) : list nat := shape (sv_data sv).

(** [SheetView(data, bounds, label=..., roi_bounds=...)]; what is not passed
    takes its default. *)
Definition SheetView_new (data : ndarray) (bounds : BoundingBox)
    (label : string) (roi_bounds : option BoundingBox) : SheetView :=
  mkSheetView data bounds label roi_bounds None None [].

(** Attribute access that only a SheetView supports. *)
Definition as_SheetView (v : View) : result SheetView :=
  match v with
  | VSheetView sv => Ok sv
  | _ => Raise AttributeError
  end.

(** [all(f(x) for x in l)]: stops at the first false. *)
Fixpoint all_of {A} (f : A → result bool) (l : list A) : result bool :=
  match l with
  | [] => Ok true
  | x :: l' => b ← f x; if b : bool then all_of f l' else Ok false
  end.

(** ** RGBA *)

Definition RGBA_warning : string := "Clipping data into the interval [0, 1]".

(** [el.data.max() > 1.0 or el.data.min() < 0] *)
Definition out_of_range (a : ndarray) : result bool :=
  mx ← ndarray_max a;
  if Qltb 1 mx then Ok true
  else mn ← ndarray_min a; Ok (Qltb mn 0).

(** The loop over [overlay.data]: the arrays collected so far and the
    warnings logged so far are threaded through.  The statement
    [el.data.clip(0,1.0)] evaluates to a new array that is not bound to
    anything; [el.data] is what gets appended. *)
Fixpoint RGBA_loop (els : list View) (arrays : list ndarray) (log : list string)
    : result (list ndarray) * list string :=
  match els with
  | [] => (Ok arrays, log)
  | el :: els' =>
      match as_SheetView el with
      | Raise e => (Raise e, log)
      | Ok el =>
          match out_of_range (sv_data el) with
          | Raise e => (Raise e, log)
          | Ok true =>
              let log := log ++ [RGBA_warning] in
              let _clipped := ndarray_clip 0 1 (sv_data el) in
              RGBA_loop els' (arrays ++ [sv_data el]) log
          | Ok false => RGBA_loop els' (arrays ++ [sv_data el]) log
          end
      end
  end.

Definition RGBA_process (overlay : Overlay) : result (list SheetView) * list string :=
  if negb (bool_decide (length (ov_data overlay) ∈ [3; 4]%nat)) then
    (Raise (Exception "Requires 3 or 4 layers to convert to RGB(A)"), [])
  else if negb (forallb (λ el, isinstance el Cls.SheetView) (ov_data overlay)) then
    (Raise (Exception "All layers must be SheetViews to convert to RGB(A) format"), [])
  else
    match all_of (λ el, el ← as_SheetView el; depth ← sv_depth el;
                        Ok (bool_decide (depth = 1%nat))) (ov_data overlay) with
    | Raise e => (Raise e, [])
    | Ok false =>
        (Raise (Exception
           "All SheetViews must have a depth of one for conversion to RGB(A) format"), [])
    | Ok true =>
        let '(arrays, log) := RGBA_loop (ov_data overlay) [] [] in
        (arrays ← arrays;
         rgba ← np_dstack arrays;
         Ok [SheetView_new rgba (ov_bounds overlay) "RGBA" (ov_roi_bounds overlay)],
         log)
    end.

(** ** split *)

(** [[f(i) for i in range(n)]] with [i] counted from [i0]. *)
Fixpoint for_range {A} (f : nat → result A) (i0 n : nat) : result (list A) :=
  match n with
  | O => Ok []
  | S n' => x ← f i0; rest ← for_range f (S i0) n'; Ok (x :: rest)
  end.

Definition split_process (sheetview : SheetView) : result (list SheetView) :=
  mode ← sv_mode sheetview;
  if negb (bool_decide (mode ∈ ["rgb"; "rgba"])) then
    Raise (Exception "Can only split SheetViews with a depth of 3 or 4")
  else
    depth ← sv_depth sheetview;
    for_range (λ i,
      channel ← ndarray_channel i (sv_data sheetview);
      match String.get i "RGBA" with
      | None => Raise IndexError
      | Some c =>
          Ok (SheetView_new channel (sv_bounds sheetview)
                (String c "" ++ " Channel") None)
      end) 0 depth.

(** *** Arrays: slicing out the channels and stacking them again *)

Definition in_unit_interval (x : Q) : Prop := (0 <= x)%Q ∧ (x <= 1)%Q.

Lemma foldl_Qmaxb_le (xs : list Q) : ∀ x,
  (x <= 1)%Q → Forall (λ y, (y <= 1)%Q) xs → (foldl Qmaxb x xs <= 1)%Q.
Proof.
  induction xs as [|y xs IH]; intros x Hx Hxs; simpl; [done|].
  apply Forall_cons in Hxs as [Hy Hxs].
  apply IH; [|done]. unfold Qmaxb. by destruct (Qle_bool x y).
Qed.

Lemma foldl_Qminb_ge (xs : list Q) : ∀ x,
  (0 <= x)%Q → Forall (λ y, (0 <= y)%Q) xs → (0 <= foldl Qminb x xs)%Q.
Proof.
  induction xs as [|y xs IH]; intros x Hx Hxs; simpl; [done|].
  apply Forall_cons in Hxs as [Hy Hxs].
  apply IH; [|done]. unfold Qminb. by destruct (Qle_bool x y).
Qed.

Lemma out_of_range_unit (a : ndarray) :
  flat a ≠ [] → Forall in_unit_interval (flat a) → out_of_range a = Ok false.
Proof.
  unfold out_of_range, ndarray_max, ndarray_min.
  destruct (flat a) as [|x xs]; [done|]. intros _ Hall.
  apply Forall_cons in Hall as [[Hx0 Hx1] Hall]. simpl.
  assert (foldl Qmaxb x xs <= 1)%Q as Hmax.
  { apply foldl_Qmaxb_le; [done|]. eapply Forall_impl; [exact Hall|]. by intros ? []. }
  assert (0 <= foldl Qminb x xs)%Q as Hmin.
  { apply foldl_Qminb_ge; [done|]. eapply Forall_impl; [exact Hall|]. by intros ? []. }
  apply Qle_bool_iff in Hmax, Hmin. unfold Qltb. rewrite Hmax. simpl. by rewrite Hmin.
Qed.

(** The element at row-major index [k], read as a one-element slice. *)
Definition elem (l : list Q) (k : nat) : Q := default 0%Q (l !! k).

Lemma take_drop_elems (l : list Q) (d : nat) : ∀ k,
  (k + d ≤ length l)%nat →
  take d (drop k l) = (λ i, elem l (k + i)) <$> seq 0 d.
Proof.
  induction d as [|d IH]; intros k Hk; [done|].
  destruct (lookup_lt_is_Some_2 l k) as [x Hx]; [lia|].
  rewrite (drop_S _ _ _ Hx). cbn [take seq fmap list_fmap].
  unfold elem at 1. rewrite Nat.add_0_r, Hx. simpl. f_equal.
  rewrite IH by lia. rewrite <- fmap_S_seq, <- list_fmap_compose.
  apply list_fmap_ext. intros _ i _. simpl. f_equal. lia.
Qed.

Lemma concat_cells (c : nat) (cnt : nat) : ∀ l : list Q,
  length l = (cnt * c)%nat →
  concat ((λ p, take c (drop (p * c) l)) <$> seq 0 cnt) = l.
Proof.
  induction cnt as [|cnt IH]; intros l Hl.
  - simpl in *. by destruct l.
  - cbn [seq fmap list_fmap concat]. change (0 * c)%nat with 0%nat. rewrite drop_0.
    rewrite <- fmap_S_seq, <- list_fmap_compose.
    transitivity (take c l ++ drop c l); [|apply take_drop].
    f_equal.
    rewrite (list_fmap_ext _ (λ p, take c (drop (p * c) (drop c l)))).
    + apply IH. rewrite length_drop. lia.
    + intros _ p _. simpl. by rewrite drop_drop.
Qed.

Lemma concat_singletons {A B} (f : A → list B) (g : A → B) (l : list A) :
  (∀ x, x ∈ l → f x = [g x]) → concat (f <$> l) = g <$> l.
Proof.
  induction l as [|x l IH]; intros Hf; [done|].
  rewrite !fmap_cons. simpl. rewrite (Hf x) by apply list_elem_of_here.
  simpl. f_equal. apply IH. intros y Hy. apply Hf. by apply list_elem_of_further.
Qed.

Lemma take_1_drop (l : list Q) (k : nat) :
  (k < length l)%nat → take 1 (drop k l) = [elem l k].
Proof.
  intros Hk. rewrite (take_drop_elems _ 1) by lia. simpl.
  by rewrite Nat.add_0_r.
Qed.

(** Channel [i] of a three-dimensional array with [d] channels. *)
Definition channel_of (m n d : nat) (l : list Q) (i : nat) : ndarray :=
  mkArr [m; n] ((λ p, elem l (p * d + i)) <$> seq 0 (m * n)).

Lemma ndarray_channel_3d (a : ndarray) m n d i :
  shape a = [m; n; d] → wf_array a → (i < d)%nat →
  ndarray_channel i a = Ok (channel_of m n d (flat a) i).
Proof.
  intros Hs Hwf Hi. unfold ndarray_channel, wf_array in *. rewrite Hs in *.
  rewrite bool_decide_true by done. unfold channel_of. do 2 f_equal.
  simpl in Hwf. apply concat_singletons. intros p Hp.
  apply elem_of_seq in Hp. simpl. rewrite Nat.mul_1_r.
  apply take_1_drop. nia.
Qed.

Lemma channel_of_elems m n d (l : list Q) i :
  length l = prod_list [m; n; d] → (i < d)%nat →
  Forall (λ x, x ∈ l) (flat (channel_of m n d l i)).
Proof.
  intros Hl Hi. simpl in *. apply Forall_fmap, Forall_forall. intros p Hp.
  apply elem_of_seq in Hp. simpl. unfold elem.
  destruct (lookup_lt_is_Some_2 l (p * d + i)) as [x Hx]; [nia|].
  rewrite Hx. simpl. by eapply list_elem_of_lookup_2.
Qed.

Lemma concatenate_axis2_unit (arrays : list ndarray) m n :
  arrays ≠ [] →
  Forall (λ a, shape a = [m; n; 1]%nat) arrays →
  concatenate_axis2 arrays =
    Ok (mkArr [m; n; length arrays]
          (concat ((λ p, concat ((λ a, take 1 (drop p (flat a))) <$> arrays))
                     <$> seq 0 (m * n)))).
Proof.
  intros Hne Hall. destruct arrays as [|a0 rest]; [done|].
  pose proof Hall as Hall'. apply Forall_cons in Hall' as [Ha0 _].
  unfold concatenate_axis2. rewrite Ha0. cbv beta iota.
  match goal with
  | |- context [forallb ?f ?l] => assert (forallb f l = true) as ->
  end.
  { apply forallb_forall. intros a Hin. apply list_elem_of_In in Hin.
    rewrite Forall_forall in Hall. specialize (Hall a Hin).
    apply bool_decide_eq_true. rewrite Hall. simpl. repeat split; lia. }
  do 2 f_equal.
  - do 2 f_equal. clear -Hall.
    enough (sum_list ((λ a, default 0%nat (shape a !! 2%nat)) <$> a0 :: rest)
            = length (a0 :: rest)) as -> by done.
    induction Hall as [|a l Ha _ IH]; [done|].
    rewrite fmap_cons. cbn [sum_list sum_list_with length]. by rewrite Ha, IH.
  - f_equal. apply list_fmap_ext. intros _ p _. f_equal.
    apply list_fmap_ext. intros j a Hj.
    rewrite Forall_lookup in Hall. specialize (Hall j a Hj).
    unfold cell, cell_size. rewrite Hall. simpl. by rewrite Nat.mul_1_r.
Qed.

(** Stacking the [d] channels of an array gives the array back. *)
Lemma np_dstack_channels m n d (l : list Q) :
  length l = prod_list [m; n; d] → (0 < d)%nat →
  np_dstack (channel_of m n d l <$> seq 0 d) = Ok (mkArr [m; n; d] l).
Proof.
  intros Hl Hd. unfold np_dstack. rewrite <- list_fmap_compose.
  rewrite (concatenate_axis2_unit _ m n).
  - rewrite length_fmap, length_seq. do 2 f_equal.
    etrans; [|apply (concat_cells d (m * n) l); simpl in Hl; lia].
    f_equal. apply list_fmap_ext. intros j p Hp.
    apply lookup_seq in Hp as [-> Hp]. simpl in Hp |- *.
    rewrite take_drop_elems by (simpl in Hl; nia).
    rewrite <- list_fmap_compose.
    apply concat_singletons.
    intros i Hi. apply elem_of_seq in Hi. simpl.
    rewrite take_1_drop by (rewrite length_fmap, length_seq; lia).
    unfold elem at 1. rewrite list_lookup_fmap, lookup_seq_lt by lia. done.
  - destruct d; [lia|]. by rewrite <- cons_seq.
  - apply Forall_fmap, Forall_forall. by intros i _.
Qed.

(** *** split followed by RGBA *)

Lemma for_range_Ok {A} (f : nat → result A) (g : nat → A) n : ∀ i0,
  (∀ i, (i0 ≤ i < i0 + n)%nat → f i = Ok (g i)) →
  for_range f i0 n = Ok (g <$> seq i0 n).
Proof.
  induction n as [|n IH]; intros i0 Hf; [done|].
  simpl. rewrite Hf by lia. simpl. rewrite IH by (intros; apply Hf; lia). done.
Qed.

Lemma RGBA_loop_in_range (svs : list SheetView) : ∀ arrays log,
  Forall (λ sv, out_of_range (sv_data sv) = Ok false) svs →
  RGBA_loop (VSheetView <$> svs) arrays log = (Ok (arrays ++ (sv_data <$> svs)), log).
Proof.
  induction svs as [|sv svs IH]; intros arrays log Hall; simpl.
  - by rewrite app_nil_r.
  - apply Forall_cons in Hall as [Hsv Hall]. rewrite Hsv.
    rewrite IH by done. by rewrite <- app_assoc.
Qed.

Lemma sv_mode_channels (sheetview : SheetView) mode :
  sv_mode sheetview = Ok mode → mode ∈ ["rgb"; "rgba"] →
  ∃ m n d, shape (sv_data sheetview) = [m; n; d] ∧ sv_depth sheetview = Ok d ∧
           (mode = "rgb" ∧ d = 3%nat ∨ mode = "rgba" ∧ d = 4%nat).
Proof.
  unfold sv_mode, sv_depth.
  destruct (shape (sv_data sheetview)) as [|m [|n [|d [|? ?]]]]; simpl; try done.
  - intros [= <-] Hin. rewrite !elem_of_cons, elem_of_nil in Hin.
    by destruct Hin as [?|[?|[]]].
  - intros Hm Hin. exists m, n, d. split; [done|]. split; [done|].
    repeat case_bool_decide; simplify_eq; try by eauto.
    rewrite !elem_of_cons, elem_of_nil in Hin. by destruct Hin as [?|[?|[]]].
Qed.

Definition channel_labels : list string :=
  ["R Channel"; "G Channel"; "B Channel"; "A Channel"].

(** What [split] returns for a view whose array has [d] channels. *)
Definition split_views (sheetview : SheetView) (m n d : nat) : list SheetView :=
  (λ i, SheetView_new (channel_of m n d (flat (sv_data sheetview)) i)
          (sv_bounds sheetview)
          (default "" (channel_labels !! i)) None) <$> seq 0 d.

Lemma split_process_channels (sheetview : SheetView) mode m n d :
  sv_mode sheetview = Ok mode → mode ∈ ["rgb"; "rgba"] →
  shape (sv_data sheetview) = [m; n; d] →
  wf_array (sv_data sheetview) →
  split_process sheetview = Ok (split_views sheetview m n d).
Proof.
  intros Hmode Hin Hs Hwf.
  destruct (sv_mode_channels _ _ Hmode Hin) as (m' & n' & d' & Hs' & Hd & Hcase).
  rewrite Hs in Hs'. injection Hs' as <- <- <-.
  unfold split_process. rewrite Hmode. simpl.
  rewrite bool_decide_true by done. simpl. rewrite Hd. simpl.
  apply for_range_Ok. intros i Hi.
  rewrite (ndarray_channel_3d _ m n d) by (done || lia). simpl.
  assert (i < 4)%nat as Hi4 by (destruct Hcase as [[_ ->]|[_ ->]]; lia).
  destruct i as [|[|[|[|i]]]]; [done..|lia].
Qed.

Lemma forallb_isinstance_SheetView (svs : list SheetView) :
  forallb (λ el, isinstance el Cls.SheetView) (VSheetView <$> svs) = true.
Proof. induction svs as [|sv svs IH]; [done|]. rewrite fmap_cons. simpl. exact IH. Qed.

Lemma all_of_depth_one (svs : list SheetView) :
  Forall (λ sv, sv_depth sv = Ok 1%nat) svs →
  all_of (λ el, el ← as_SheetView el; depth ← sv_depth el;
                Ok (bool_decide (depth = 1%nat))) (VSheetView <$> svs) = Ok true.
Proof.
  induction 1 as [|sv svs Hsv _ IH]; [done|].
  rewrite fmap_cons. simpl. rewrite Hsv. simpl. exact IH.
Qed.

(** RGBA on layers that need no clipping: the arrays are stacked as they
    are and nothing is logged. *)
Lemma RGBA_process_in_range (svs : list SheetView) bounds roi_bounds lbl rgba :
  length svs ∈ [3; 4]%nat →
  Forall (λ sv, sv_depth sv = Ok 1%nat) svs →
  Forall (λ sv, out_of_range (sv_data sv) = Ok false) svs →
  np_dstack (sv_data <$> svs) = Ok rgba →
  RGBA_process (mkOverlay (VSheetView <$> svs) bounds roi_bounds lbl) =
    (Ok [SheetView_new rgba bounds "RGBA" roi_bounds], []).
Proof.
  intros Hlen Hdepth Hrange Hstack. unfold RGBA_process. simpl.
  rewrite length_fmap, bool_decide_true by done. simpl.
  rewrite forallb_isinstance_SheetView. simpl.
  rewrite all_of_depth_one by done.
  rewrite RGBA_loop_in_range by done. simpl. rewrite Hstack. done.
Qed.

(** C4 (as amended): splitting an RGB (or RGBA) view that has at least one
    element and whose values lie in [0,1], and composing the channels again
    with RGBA, gives a view with the original array; the channels are
    labelled "R Channel", "G Channel", "B Channel" (and "A Channel" for
    four channels).  [wf_array] says that the elements fill the shape. *)
Theorem split_RGBA_roundtrip (sheetview : SheetView) (mode : string) :
  wf_array (sv_data sheetview) →
  flat (sv_data sheetview) ≠ [] →
  sv_mode sheetview = Ok mode → mode ∈ ["rgb"; "rgba"] →
  Forall in_unit_interval (flat (sv_data sheetview)) →
  ∃ channels,
    split_process sheetview = Ok channels ∧
    sv_label <$> channels =
      take (if decide (mode = "rgb") then 3 else 4)%nat channel_labels ∧
    ∀ bounds roi_bounds lbl, ∃ rgba,
      RGBA_process (mkOverlay (VSheetView <$> channels) bounds roi_bounds lbl)
        = (Ok [rgba], []) ∧
      sv_data rgba = sv_data sheetview.
Proof.
  intros Hwf Hne Hmode Hin Hunit.
  destruct (sv_mode_channels _ _ Hmode Hin) as (m & n & d & Hs & Hd & Hcase).
  exists (split_views sheetview m n d). split; [|split].
  - by eapply split_process_channels.
  - destruct Hcase as [[-> ->]|[-> ->]]; reflexivity.
  - intros bounds roi_bounds lbl. eexists. split.
    + assert (0 < m * n ∧ 0 < d)%nat as [Hmn Hd0].
      { unfold wf_array in Hwf. rewrite Hs in Hwf. simpl in Hwf.
        destruct (flat (sv_data sheetview)); [done|]. simpl in Hwf. nia. }
      apply RGBA_process_in_range.
      * unfold split_views. rewrite length_fmap, length_seq.
        destruct Hcase as [[_ ->]|[_ ->]]; rewrite !elem_of_cons; auto.
      * apply Forall_fmap, Forall_forall. by intros i _.
      * apply Forall_fmap, Forall_forall. intros i Hi. apply elem_of_seq in Hi.
        simpl. apply out_of_range_unit.
        -- simpl. destruct (seq 0 (m * n)) eqn:Hseq; [|done].
           apply (f_equal length) in Hseq. rewrite length_seq in Hseq. simpl in Hseq. lia.
        -- eapply Forall_impl.
           ++ apply channel_of_elems; [|lia].
              unfold wf_array in Hwf. by rewrite Hs in Hwf.
           ++ intros x Hx. simpl in Hx. rewrite Forall_forall in Hunit. by apply Hunit.
      * unfold split_views. rewrite <- list_fmap_compose.
        apply (np_dstack_channels m n d); [|done].
        unfold wf_array in Hwf. by rewrite Hs in Hwf.
    + simpl. destruct (sv_data sheetview) as [sh fl]. simpl in *. by subst.
Qed.

Lemma split_RGBA_roundtrip_witness :
  let sheetview :=
    SheetView_new (mkArr [1; 2; 3]%nat [0; 1 # 2; 1; 1 # 3; 1 # 4; 1 # 5]%Q)
      (mkBounds 0 0 1 1) "image" None in
  ∃ channels,
    split_process sheetview = Ok channels ∧
    sv_label <$> channels = ["R Channel"; "G Channel"; "B Channel"] ∧
    ∀ bounds roi_bounds lbl, ∃ rgba,
      RGBA_process (mkOverlay (VSheetView <$> channels) bounds roi_bounds lbl)
        = (Ok [rgba], []) ∧
      sv_data rgba = sv_data sheetview.
Proof.
  intros sheetview.
  apply (split_RGBA_roundtrip sheetview "rgb").
  - reflexivity.
  - discriminate.
  - reflexivity.
  - apply list_elem_of_here.
  - repeat constructor; discriminate.
Defined.

(** An RGB view without elements: zero rows and columns, three channels. *)
Definition empty_image : SheetView :=
  SheetView_new (mkArr [0; 0; 3]%nat []) (mkBounds 0 0 1 1) "image" None.

(** C4 as stated fails: the view without elements is in mode "rgb" and all
    of its values (there are none) lie in [0,1]; split returns its three
    channels, each an array without elements, and RGBA on them raises
    ValueError, taking the maximum of an array without elements. *)
Lemma split_RGBA_roundtrip_counterexample :
  sv_mode empty_image = Ok "rgb" ∧
  sv_depth empty_image = Ok 3%nat ∧
  wf_array (sv_data empty_image) ∧
  Forall in_unit_interval (flat (sv_data empty_image)) ∧
  split_process empty_image =
    Ok [ SheetView_new (mkArr [0; 0]%nat []) (mkBounds 0 0 1 1) "R Channel" None;
         SheetView_new (mkArr [0; 0]%nat []) (mkBounds 0 0 1 1) "G Channel" None;
         SheetView_new (mkArr [0; 0]%nat []) (mkBounds 0 0 1 1) "B Channel" None ] ∧
  RGBA_process
    (mkOverlay
       [ VSheetView (SheetView_new (mkArr [0; 0]%nat []) (mkBounds 0 0 1 1)
                       "R Channel" None);
         VSheetView (SheetView_new (mkArr [0; 0]%nat []) (mkBounds 0 0 1 1)
                       "G Channel" None);
         VSheetView (SheetView_new (mkArr [0; 0]%nat []) (mkBounds 0 0 1 1)
                       "B Channel" None) ]
       (mkBounds 0 0 1 1) None "")
  = (Raise ValueError, []).
Proof. repeat split; constructor. Qed.

(** *** RGBA on a layer with values outside [0,1] *)

(** Three single-channel layers, the first holding the value 2. *)
Definition overlay_out_of_range : Overlay :=
  let layer q := VSheetView (SheetView_new (mkArr [1; 1]%nat [q]) (mkBounds 0 0 1 1) "" None) in
  mkOverlay [layer 2%Q; layer (1 # 2)%Q; layer (1 # 2)%Q] (mkBounds 0 0 1 1) None "".

(** C3: on this overlay RGBA logs the warning and succeeds, but the array it
    returns holds the value 2 of the first layer, not the clipped value 1:
    the result of [clip] is dropped. *)
Theorem RGBA_process_not_clipped :
  ∃ rgba,
    RGBA_process overlay_out_of_range = (Ok [rgba], [RGBA_warning]) ∧
    sv_data rgba = mkArr [1; 1; 3]%nat [2; 1 # 2; 1 # 2]%Q ∧
    sv_data rgba ≠ mkArr [1; 1; 3]%nat [1; 1 # 2; 1 # 2]%Q.
Proof. eexists. split; [reflexivity|]. split; [reflexivity|discriminate]. Qed.


(** *** ViewOperation on concrete stacks *)

(** Keys of a stack: one value per dimension. *)
Abbreviation Key := (list pyval).

(** [ViewOperation._process] itself: the abstract method. *)
Definition ViewOperation_process (view : View) : result (list View) :=
  Raise (NotImplementedError "").

(** An operation that returns its argument as its only output. *)
Definition identity_process (view : View) : result (list View) := Ok [view].

Definition image_view (q : Q) : SheetView :=
  SheetView_new (mkArr [1; 1; 3]%nat [q; q; q]) (mkBounds 0 0 1 1) "image" None.

Definition image_stack : Stack Key SheetView :=
  mkStack Cls.SheetStack [mkDimension "time" false None] [] ""
    [ ([PInt 0], image_view 0%Q); ([PInt 1], image_view 1%Q) ].

Definition mixed_stack : Stack Key View :=
  mkStack Cls.SheetStack [mkDimension "time" false None] [] ""
    [ ([PInt 0], VSheetView (image_view 0%Q)); ([PInt 1], VTable (mkTable [] "T" [])) ].

Definition empty_stack : Stack Key View :=
  mkStack Cls.SheetStack [mkDimension "time" false None] [] "" [].

Definition single_stack : Stack Key View :=
  mkStack Cls.SheetStack [mkDimension "time" false None] [] ""
    [ ([PInt 0], VSheetView (image_view 0%Q)) ].

(** C1 as stated fails: on a stack without entries the call raises TypeError
    whatever the operation is, and an operation whose per-layer step raises
    (the abstract [_process] does) makes the call on any entry raise. *)
Lemma ViewOperation_call_stack_counterexample :
  ViewOperation_call type_of issubclass identity_process (InStack empty_stack)
    = Raise TypeError ∧
  ViewOperation_call type_of issubclass ViewOperation_process (InStack single_stack)
    = Raise (NotImplementedError "").
Proof. split; reflexivity. Qed.

Lemma ViewOperation_call_stack_witness :
  ∃ r g b : Stack Key SheetView,
    ViewOperation_call (λ _, Cls.SheetView) issubclass split_process (InStack image_stack)
      = Ok (GridLayout_stacks [r; g; b]) ∧
    Stack_keys r = [[PInt 0]; [PInt 1]] ∧
    Stack_keys g = [[PInt 0]; [PInt 1]] ∧
    Stack_keys b = [[PInt 0]; [PInt 1]] ∧
    dimensions r = dimensions image_stack.
Proof.
  destruct (ViewOperation_call_stack (λ _, Cls.SheetView) issubclass split_process
              image_stack [Cls.SheetLayer; Cls.SheetLayer; Cls.SheetLayer])
    as (stacks & Hcall & Hlen & Hstacks).
  - discriminate.
  - unfold Stack_keys. simpl. apply NoDup_cons. split; [|apply NoDup_singleton].
    rewrite list_elem_of_singleton. discriminate.
  - intros k el Hin. unfold Stack_items in Hin. simpl in Hin.
    rewrite !elem_of_cons, elem_of_nil in Hin.
    destruct Hin as [[= -> ->]|[[= -> ->]|[]]]; eexists; split; reflexivity.
  - destruct stacks as [|r [|g [|b [|? ?]]]]; try discriminate.
    exists r, g, b. split; [exact Hcall|].
    destruct (Hstacks 0%nat r eq_refl) as (_ & Hd & _ & _ & Hr & _).
    destruct (Hstacks 1%nat g eq_refl) as (_ & _ & _ & _ & Hg & _).
    destruct (Hstacks 2%nat b eq_refl) as (_ & _ & _ & _ & Hb & _).
    auto.
Defined.

Lemma ViewOperation_call_inconsistent_witness :
  raises (ViewOperation_call type_of issubclass identity_process (InStack mixed_stack)).
Proof.
  apply (ViewOperation_call_inconsistent type_of issubclass identity_process mixed_stack
           [PInt 0] (VSheetView (image_view 0%Q)) [VSheetView (image_view 0%Q)]
           [Cls.SheetLayer]
           [PInt 1] (VTable (mkTable [] "T" [])) [VTable (mkTable [] "T" [])]
           [Cls.Table]).
  - apply list_elem_of_here.
  - apply list_elem_of_further, list_elem_of_here.
  - reflexivity.
  - reflexivity.
  - reflexivity.
  - reflexivity.
  - discriminate.
Defined.

(** ** sample *)

(** [a[r, c]]: a negative index counts from the end of its axis. *)
Definition wrap_index (i : Z) (n : nat) : result nat :=
  if bool_decide (0 ≤ i < Z.of_nat n)%Z then Ok (Z.to_nat i)
  else if bool_decide (- Z.of_nat n ≤ i < 0)%Z then Ok (Z.to_nat (i + Z.of_nat n))
  else Raise IndexError.

Definition ndarray_getitem (a : ndarray) (idx : Z * Z) : result pyval :=
  match shape a with
  | [m; n] =>
      r ← wrap_index idx.1 m; c ← wrap_index idx.2 n;
      Ok (PFloat (elem (flat a) (r * n + c)))
  | [m; n; d] =>
      r ← wrap_index idx.1 m; c ← wrap_index idx.2 n;
      Ok (PArray (take d (drop ((r * n + c) * d) (flat a))))
  | _ => Raise IndexError
  end.

Definition as_Table (v : View) : result Table :=
  match v with
  | VTable t => Ok t
  | _ => Raise AttributeError
  end.

(** [Table(data, label=..., metadata=...)] *)
Definition Table_new (data : list (pyval * pyval)) (label : string)
    (metadata : Metadata) : Table :=
  mkTable data label metadata.

(** [[f(x) for x in l]] where [f] may raise. *)
Fixpoint for_each {A B} (f : A → result B) (l : list A) : result (list B) :=
  match l with
  | [] => Ok []
  | x :: l' => y ← f x; rest ← for_each f l'; Ok (y :: rest)
  end.

Section sample.
(** [sv.sheet2matrixidx(x, y)], a method of the sheet coordinate system. *)
Variable sheet2matrixidx : SheetView → Q → Q → Z * Z.
(** The parameter [samples]. *)
Variable samples : list pyval.

Definition sample_process (view : View) : result (list View) :=
  if negb (isinstance view Cls.SheetLayer || isinstance view Cls.Table) then
    Raise (Exception "sample_sheet can only sample SheetLayers.")
  else if isinstance view Cls.Table then
    view ← as_Table view;
    let data := od_of_pairs (filter (λ kv, kv.1 ∈ samples) (tb_data view)) in
    Ok [VTable (Table_new data (tb_label view) (tb_metadata view))]
  else
    sheetviews ← get_views view "" Cls.SheetView;
    if bool_decide (length sheetviews ≠ 1%nat) then
      Raise (Exception "Can only sample, Overlays containing a single SheetView")
    else
      match sheetviews !! 0%nat with
      | None => Raise IndexError
      | Some sv =>
          sv ← as_SheetView sv;
          sample_inds ← for_each (λ s, match s with
                                       | PCoord x y => Ok (s, sheet2matrixidx sv x y)
                                       | _ => Raise TypeError
                                       end) samples;
          data ← for_each (λ si, v ← ndarray_getitem (sv_data sv) si.2; Ok (si.1, v))
                   sample_inds;
          Ok [VTable (Table_new (od_of_pairs data) (sv_label sv) (sv_metadata sv))]
      end.

(** [sample(view)] for a view or a stack of views. *)
Definition sample_call (view : @Input Key View) : result (@Output Key View) :=
  ViewOperation_call type_of issubclass sample_process view.

(** C8: sampling a Table returns the sub-table of the entries whose key is
    among the requested samples, in the table's own order; a requested key
    that the table lacks is left out, and nothing is raised. *)
Theorem sample_Table (t : Table) :
  NoDup (tb_data t).*1 →
  ∃ t',
    sample_process (VTable t) = Ok [VTable t'] ∧
    sample_call (InView (VTable t)) = Ok (OutView (VTable t')) ∧
    tb_data t' = filter (λ kv, kv.1 ∈ samples) (tb_data t) ∧
    (tb_data t').*1 = filter (λ k, k ∈ samples) (tb_data t).*1 ∧
    tb_label t' = tb_label t ∧ tb_metadata t' = tb_metadata t.
Proof.
  intros Hnd.
  assert ((filter (λ kv : pyval * pyval, kv.1 ∈ samples) (tb_data t)).*1
          = filter (λ k, k ∈ samples) (tb_data t).*1) as Hkeys.
  { clear Hnd. induction (tb_data t) as [|[k v] d IH]; [done|].
    rewrite fmap_cons, !filter_cons. simpl.
    destruct (decide (k ∈ samples)); [rewrite fmap_cons|]; by rewrite IH. }
  assert (od_of_pairs (filter (λ kv : pyval * pyval, kv.1 ∈ samples) (tb_data t))
          = filter (λ kv : pyval * pyval, kv.1 ∈ samples) (tb_data t)) as Hod.
  { apply od_of_pairs_nodup. rewrite Hkeys. by apply NoDup_filter. }
  eexists. split; [|split; [|split; [|split; [|split]]]].
  - unfold sample_process. simpl. rewrite Hod. reflexivity.
  - unfold sample_call, ViewOperation_call, sample_process. simpl. rewrite Hod. reflexivity.
  - reflexivity.
  - exact Hkeys.
  - reflexivity.
  - reflexivity.
Qed.
End sample.

Lemma sample_Table_witness :
  ∃ t',
    sample_process (λ _ _ _, (0, 0)%Z) [PStr "c"; PStr "a"; PStr "zz"]
      (VTable (mkTable [(PStr "a", PInt 1); (PStr "b", PInt 2); (PStr "c", PInt 3)] "T" []))
      = Ok [VTable t'] ∧
    tb_data t' = [(PStr "a", PInt 1); (PStr "c", PInt 3)].
Proof.
  destruct (sample_Table (λ _ _ _, (0, 0)%Z) [PStr "c"; PStr "a"; PStr "zz"]
              (mkTable [(PStr "a", PInt 1); (PStr "b", PInt 2); (PStr "c", PInt 3)] "T" []))
    as (t' & Hp & _ & Hd & _).
  - apply (bool_decide_unpack _). vm_compute. exact I.
  - exists t'. split; [exact Hp|]. rewrite Hd. reflexivity.
Defined.

(** ** Overlays built by multiplication *)

(** Modelled from the spec: "multiplication ([*]) to build overlays".  The
    product of two layers is the overlay of the two, with the bounds of the
    first; an overlay on either side contributes its layers. *)
Definition layers_of (v : View) : list View :=
  match v with
  | VSheetOverlay o => ov_data o
  | _ => [v]
  end.

Definition view_bounds (v : View) : BoundingBox :=
  match v with
  | VSheetView sv => sv_bounds sv
  | VContours c => ct_bounds c
  | VSheetOverlay o => ov_bounds o
  | _ => mkBounds 0 0 0 0
  end.

Definition view_roi_bounds (v : View) : option BoundingBox :=
  match v with
  | VSheetView sv => sv_roi_bounds sv
  | VSheetOverlay o => ov_roi_bounds o
  | _ => None
  end.

Definition View_mul (a b : View) : Overlay :=
  mkOverlay (layers_of a ++ layers_of b) (view_bounds a) (view_roi_bounds a) "".

(** [SheetOverlay(layers, bounds)] *)
Definition SheetOverlay_new (layers : list View) (bounds : BoundingBox) : Overlay :=
  mkOverlay layers bounds None "".

(** ** contours

    The plotting backend keeps a registry of open figures; [plt.figure()]
    opens one and returns its handle, [plt.close(handle)] removes it. *)

Record Backend : Type := mkBackend {
  open_figures : list nat;
  next_figure : nat
}.

Definition plt_figure (st : Backend) : nat * Backend :=
  (next_figure st,
   mkBackend (open_figures st ++ [next_figure st]) (S (next_figure st))).

Definition plt_close (figure_handle : nat) (st : Backend) : Backend :=
  mkBackend (filter (λ h, h ≠ figure_handle) (open_figures st)) (next_figure st).

(** The vertices of the paths of one contour level. *)
Definition Paths : Type := list (list (Q * Q)).

Section contours.
(** The backend's contouring computation on a two-dimensional array, one
    collection of paths per level; it may raise. *)
Variable contour_paths : ndarray → Q * Q * Q * Q → list Q → result (list Paths).
(** The parameter [levels]. *)
Variable levels : list Q.

(** [plt.contour(z, extent=..., levels=...)]: the backend refuses an input
    that is not a two-dimensional array of at least 2 x 2 elements. *)
Definition plt_contour (z : ndarray) (extent : Q * Q * Q * Q) (levels : list Q)
    : result (list Paths) :=
  match shape z with
  | [m; n] =>
      if bool_decide (m < 2 ∨ n < 2)%nat then Raise TypeError
      else contour_paths z extent levels
  | _ => Raise TypeError
  end.

(** The operation threads the backend's state; an exception leaves the
    state as it is where it is raised. *)
Definition contours_process (sheetview : SheetView) (st : Backend)
    : result (list View) * Backend :=
  let '(figure_handle, st) := plt_figure st in
  let '(l, b, r, t) := lbrt (sv_bounds sheetview) in
  match plt_contour (sv_data sheetview) (l, r, t, b) levels with
  | Raise e => (Raise e, st)
  | Ok collections =>
      let contours :=
        (λ lc : Q * Paths,
           VContours (mkContours lc.2 (sv_bounds sheetview)
                        [("level", PFloat lc.1)]
                        (sv_label sheetview ++ " Level")))
          <$> zip levels collections in
      let st := plt_close figure_handle st in
      if bool_decide (length contours = 1%nat) then
        match contours !! 0%nat with
        | Some c => (Ok [VSheetOverlay (View_mul (VSheetView sheetview) c)], st)
        | None => (Raise IndexError, st)
        end
      else
        (Ok [VSheetOverlay
               (View_mul (VSheetView sheetview)
                  (VSheetOverlay (SheetOverlay_new contours (sv_bounds sheetview))))],
         st)
  end.

(** When the contouring call returns, the figure opened for it is closed
    again and the registry is as before. *)
Lemma contours_process_closes sheetview st collections :
  next_figure st ∉ open_figures st →
  plt_contour (sv_data sheetview)
    (bb_left (sv_bounds sheetview), bb_right (sv_bounds sheetview),
     bb_top (sv_bounds sheetview), bb_bottom (sv_bounds sheetview)) levels
    = Ok collections →
  open_figures (contours_process sheetview st).2 = open_figures st.
Proof.
  intros Hfresh Hc. unfold contours_process. simpl. rewrite Hc.
  assert (filter (λ h, h ≠ next_figure st) (open_figures st ++ [next_figure st])
          = open_figures st) as Hf.
  { rewrite filter_app, filter_cons_False, filter_nil, app_nil_r by (intros Hn; by apply Hn).
    clear -Hfresh. induction (open_figures st) as [|h l IH]; [done|].
    apply not_elem_of_cons in Hfresh as [Hne Hl].
    rewrite filter_cons_True by done. by rewrite IH. }
  case_bool_decide; [destruct (_ !! _)|]; simpl; exact Hf.
Qed.

(** When the contouring call raises, the exception propagates and the figure
    stays open. *)
Lemma contours_process_leaks sheetview st e :
  plt_contour (sv_data sheetview)
    (bb_left (sv_bounds sheetview), bb_right (sv_bounds sheetview),
     bb_top (sv_bounds sheetview), bb_bottom (sv_bounds sheetview)) levels
    = Raise e →
  contours_process sheetview st =
    (Raise e, mkBackend (open_figures st ++ [next_figure st]) (S (next_figure st))).
Proof. intros Hc. unfold contours_process. simpl. by rewrite Hc. Qed.

(** C9: on a view whose array is a single element the contouring call
    raises; the operation fails with that exception and the figure it opened
    is still in the registry: nothing closes it on this path. *)
Theorem contours_process_figure_leak (st : Backend) bounds lbl :
  let sheetview := SheetView_new (mkArr [1; 1]%nat [0%Q]) bounds lbl None in
  contours_process sheetview st =
    (Raise TypeError, mkBackend (open_figures st ++ [next_figure st]) (S (next_figure st))) ∧
  next_figure st ∈ open_figures (contours_process sheetview st).2.
Proof.
  intros sheetview.
  assert (contours_process sheetview st =
    (Raise TypeError, mkBackend (open_figures st ++ [next_figure st]) (S (next_figure st))))
    as Hr by (by apply contours_process_leaks).
  split; [exact Hr|]. rewrite Hr. simpl.
  apply elem_of_app. right. apply list_elem_of_here.
Qed.
End contours.

(** ** HCS and Colorize *)

(** [overlay[i]] for [0 <= i] *)
Definition Overlay_getitem (overlay : Overlay) (i : nat) : result View :=
  match ov_data overlay !! i with
  | Some v => Ok v
  | None => Raise IndexError
  end.

(** [a.size]: the number of elements an array has by its shape. *)
Definition ndarray_size (a : ndarray) : nat := prod_list (shape a).

(** NumPy broadcasting of two shapes, both given last axis first: the axes
    are matched from the last one on, two lengths go together when they are
    equal or one of them is 1, and an axis that one shape lacks is taken
    from the other. *)
Fixpoint broadcast_rev (s1 s2 : list nat) : option (list nat) :=
  match s1, s2 with
  | [], _ => Some s2
  | _, [] => Some s1
  | d1 :: s1', d2 :: s2' =>
      rest ← broadcast_rev s1' s2';
      if decide (d1 = d2) then Some (d1 :: rest)
      else if decide (d1 = 1%nat) then Some (d2 :: rest)
      else if decide (d2 = 1%nat) then Some (d1 :: rest)
      else None
  end.

Definition broadcast_shapes (s1 s2 : list nat) : option (list nat) :=
  reverse <$> broadcast_rev (reverse s1) (reverse s2).

(** The elements, in row-major order, of the array with shape [sh] and
    elements [l] when it is broadcast to the shape [target], which has as
    many axes: along an axis of the same length the sub-arrays follow one
    another, along an axis of length 1 the one sub-array is repeated. *)
Fixpoint broadcast_elems (target sh : list nat) (l : list Q) : list Q :=
  match target, sh with
  | t :: target', d :: sh' =>
      if decide (d = t) then
        concat ((λ i, broadcast_elems target' sh'
                        (take (prod_list sh') (drop (i * prod_list sh') l)))
                  <$> seq 0 t)
      else concat (replicate t (broadcast_elems target' sh' l))
  | _, _ => l
  end.

(** [np.broadcast_to(a, target)]: axes that [a] lacks are added in front
    with length 1. *)
Definition broadcast_to (target : list nat) (a : ndarray) : list Q :=
  broadcast_elems target
    (replicate (length target - length (shape a)) 1%nat ++ shape a) (flat a).

(** [np.vectorize(f)(h, s, v)] for a function of three scalars returning
    three scalars, built without [otypes]: an input without elements is
    refused with ValueError; otherwise the inputs are broadcast to one
    shape, which fails with ValueError when the shapes do not go together,
    and [f] is applied element by element. *)
Definition vectorize3 (f : Q → Q → Q → Q * Q * Q) (h s v : ndarray)
    : result (ndarray * ndarray * ndarray) :=
  if bool_decide (ndarray_size h = 0 ∨ ndarray_size s = 0 ∨ ndarray_size v = 0)%nat then
    Raise ValueError
  else
    match sh ← broadcast_shapes (shape h) (shape s); broadcast_shapes sh (shape v) with
    | None => Raise ValueError
    | Some sh =>
        let out := (λ x : Q * (Q * Q), f x.1 x.2.1 x.2.2)
                     <$> zip (broadcast_to sh h)
                           (zip (broadcast_to sh s) (broadcast_to sh v)) in
        Ok (mkArr sh ((λ o : Q * Q * Q, o.1.1) <$> out),
            mkArr sh ((λ o : Q * Q * Q, o.1.2) <$> out),
            mkArr sh ((λ o : Q * Q * Q, o.2) <$> out))
    end.

Lemma broadcast_rev_same (sh : list nat) : broadcast_rev sh sh = Some sh.
Proof.
  induction sh as [|d sh IH]; [done|].
  cbn [broadcast_rev]. rewrite IH. cbn [mbind option_bind]. by rewrite decide_True.
Qed.

(** A shape goes together with itself. *)
Lemma broadcast_shapes_same (sh : list nat) : broadcast_shapes sh sh = Some sh.
Proof.
  unfold broadcast_shapes. rewrite broadcast_rev_same. cbn [fmap option_fmap option_map].
  by rewrite reverse_involutive.
Qed.

(** On arrays of one shape that have elements the vectorised function
    returns three arrays of that shape. *)
Lemma vectorize3_same_shape f (h s v : ndarray) (sh : list nat) :
  shape h = sh → shape s = sh → shape v = sh → prod_list sh ≠ 0%nat →
  ∃ r g b, vectorize3 f h s v = Ok (r, g, b) ∧
           shape r = sh ∧ shape g = sh ∧ shape b = sh.
Proof.
  intros Hh Hs Hv Hsize. unfold vectorize3, ndarray_size. rewrite Hh, Hs, Hv.
  rewrite bool_decide_false by (intros [?|[?|?]]; done).
  rewrite broadcast_shapes_same. cbn [mbind option_bind].
  rewrite broadcast_shapes_same. by do 3 eexists.
Qed.

(** Stacking three two-dimensional arrays of one shape gives an array with
    three channels. *)
Lemma np_dstack_rgb (r g b : ndarray) (m n : nat) :
  shape r = [m; n] → shape g = [m; n] → shape b = [m; n] →
  ∃ rgb, np_dstack [r; g; b] = Ok rgb ∧ shape rgb = [m; n; 3]%nat.
Proof.
  intros Hr Hg Hb. unfold np_dstack. eexists.
  rewrite (concatenate_axis2_unit _ m n).
  - split; reflexivity.
  - done.
  - unfold atleast_3d. repeat constructor; simpl; by rewrite ?Hr, ?Hg, ?Hb.
Qed.

Section Colorize.
(** [view.N]: the normalised version of a view. *)
Variable N : SheetView → SheetView.
(** [colorsys.hsv_to_rgb] *)
Variable hsv_to_rgb : Q → Q → Q → Q * Q * Q.
(** The label of a SheetView constructed without one. *)
Variable default_label : string.

Definition HCS_process (S_multiplier C_multiplier : Q) (flipSC : bool)
    (overlay : Overlay) : result (list SheetView) :=
  hue ← Overlay_getitem overlay 0;
  confidence ← Overlay_getitem overlay 1;
  strength_data ←
    (if bool_decide (length (ov_data overlay) = 3%nat) then
       strength ← Overlay_getitem overlay 2;
       strength ← as_SheetView strength;
       Ok (sv_data strength)
     else
       hue ← as_SheetView hue;
       Ok (np_ones (sv_shape hue)));
  hue ← as_SheetView hue;
  confidence ← as_SheetView confidence;
  if bool_decide (sv_shape hue ≠ sv_shape confidence) then
    Raise (Exception "Cannot combine plots with different shapes")
  else
    let h := ndarray_clip 0 1 (sv_data (N hue)) in
    let s := ndarray_clip 0 1 (ndarray_scale C_multiplier (sv_data confidence)) in
    let v := ndarray_clip 0 1 (ndarray_scale S_multiplier strength_data) in
    let '(h, s, v) := if flipSC then (h, v, ndarray_clip 0 1 s) else (h, s, v) in
    '(r, g, b) ← vectorize3 hsv_to_rgb h s v;
    rgb ← np_dstack [r; g; b];
    Ok [SheetView_new rgb (sv_bounds hue) (sv_label hue ++ " HCS")
          (ov_roi_bounds overlay)].

(** [HCS(overlay)] with the default parameters. *)
Definition HCS_call (overlay : Overlay) : result (@Output Key SheetView) :=
  ViewOperation_call (λ _, Cls.SheetView) issubclass (HCS_process 1 1 false)
    (InView overlay).

(** [len(overlay) != 2 and overlay[0].mode != 'cmap'] *)
Definition Colorize_refuses (overlay : Overlay) : result bool :=
  if bool_decide (length (ov_data overlay) ≠ 2%nat) then
    first ← Overlay_getitem overlay 0;
    first ← as_SheetView first;
    mode ← sv_mode first;
    Ok (bool_decide (mode ≠ "cmap"))
  else Ok false.

Definition Colorize_process (overlay : Overlay) : result (list SheetView) :=
  refuses ← Colorize_refuses overlay;
  if refuses : bool then
    Raise (Exception "Can only colorize grayscale overlayed with colour map.")
  else
    first ← Overlay_getitem overlay 0; first ← as_SheetView first;
    depth0 ← sv_depth first;
    second ← Overlay_getitem overlay 1; second ← as_SheetView second;
    depth1 ← sv_depth second;
    if bool_decide ([depth0; depth1] ≠ [1; 1]%nat) then
      Raise (Exception "Depth one layers required.")
    else if bool_decide (sv_shape first ≠ sv_shape second) then
      Raise (Exception "Shapes don't match.")
    else
      let C := SheetView_new (np_ones (shape (sv_data second))) (ov_bounds overlay)
                 default_label None in
      hcs ← HCS_call (View_mul (VSheetOverlay (View_mul (VSheetView second) (VSheetView C)))
                        (VSheetView (N first)));
      match hcs with
      | OutView hcs =>
          Ok [SheetView_new (sv_data hcs) (sv_bounds hcs)
                (sv_label first ++ " Colorize") (sv_roi_bounds hcs)]
      | _ => Raise AttributeError
      end.
End Colorize.

(** Three single-channel layers of one shape. *)
Definition overlay_three_layers : Overlay :=
  let layer lbl q :=
    VSheetView (SheetView_new (mkArr [1; 1]%nat [q]) (mkBounds 0 0 1 1) lbl None) in
  mkOverlay [layer "gray" (1 # 2)%Q; layer "hue" (1 # 4)%Q; layer "extra" (3 # 4)%Q]
    (mkBounds 0 0 1 1) None "".

(** C5: Colorize accepts an overlay of three layers whose first two are
    single-channel layers of one shape: the first test only raises when the
    overlay has not two layers and, besides, its first layer is not in
    colormap mode.  The third layer is ignored. *)
Theorem Colorize_process_three_layers N hsv_to_rgb default_label :
  (∀ sv, shape (sv_data (N sv)) = shape (sv_data sv)) →
  length (ov_data overlay_three_layers) = 3%nat ∧
  ∃ out, Colorize_process N hsv_to_rgb default_label overlay_three_layers = Ok [out] ∧
         sv_label out = "gray Colorize".
Proof.
  intros HN. split; [reflexivity|].
  unfold Colorize_process, HCS_call, ViewOperation_call, HCS_process. simpl.
  match goal with
  | |- context [vectorize3 ?f ?h ?s ?v] =>
      destruct (vectorize3_same_shape f h s v [1; 1]%nat)
        as (r & g & b & -> & Hr & Hg & Hb)
  end; [simpl; by rewrite ?HN..|done|].
  simpl. destruct (np_dstack_rgb r g b 1 1 Hr Hg Hb) as (rgb & -> & _).
  simpl. eexists. split; reflexivity.
Qed.

Lemma Colorize_process_three_layers_witness :
  ∃ out, Colorize_process (λ sv, sv) (λ h s v, (h, s, v)) "" overlay_three_layers = Ok [out] ∧
         sv_label out = "gray Colorize".
Proof.
  apply (Colorize_process_three_layers (λ sv, sv) (λ h s v, (h, s, v)) "").
  reflexivity.
Defined.

(** ** curve_collapse *)

(** Python types of table entries, as [_type_map] records them. *)
Inductive pytype : Type :=
| TInt | TFloat | TNpFloat | TNpInt | TStr | TNoneType | TTuple | TNdarray.

Global Instance pytype_eq_dec : EqDecision pytype.
Proof. solve_decision. Defined.

(** [tp.__name__] *)
Definition pytype_name (tp : pytype) : string :=
  match tp with
  | TInt => "int" | TFloat => "float" | TNpFloat => "float64" | TNpInt => "int64"
  | TStr => "str" | TNoneType => "NoneType" | TTuple => "tuple" | TNdarray => "ndarray"
  end.

(** [[int, float] + np.sctypes['float'] + np.sctypes['int']] *)
Definition sample_types : list pytype := [TInt; TFloat; TNpFloat; TNpInt].

(** A loop that threads a state and may raise. *)
Fixpoint for_fold {A S} (f : S → A → result S) (l : list A) (s : S) : result S :=
  match l with
  | [] => Ok s
  | x :: l' => s' ← f s x; for_fold f l' s'
  end.

(** [list(OrderedDict.fromkeys(l))]: the elements of [l] without
    repetitions, each at its first occurrence. *)
Definition fromkeys {A} `{EqDecision A} (l : list A) : list A :=
  (od_of_pairs ((λ x, (x, tt)) <$> l)).*1.

(** Modelled from the spec: "dimension introspection (name -> index, name ->
    declared range/cyclic flag)". *)
Definition dimension_labels {K A} (stack : Stack K A) : list string :=
  dim_name <$> dimensions stack.

Definition dim_dict {K A} (stack : Stack K A) (name : string) : result Dimension :=
  match filter (λ d, dim_name d = name) (dimensions stack) with
  | d :: _ => Ok d
  | [] => Raise KeyError
  end.

Fixpoint index_of (name : string) (l : list string) : option nat :=
  match l with
  | [] => None
  | x :: l' => if decide (x = name) then Some 0%nat else S <$> index_of name l'
  end.

Definition dim_index {K A} (stack : Stack K A) (name : string) : result nat :=
  match index_of name (dimension_labels stack) with
  | Some i => Ok i
  | None => Raise ValueError
  end.

(** Modelled from the spec: keyed lookup, [stack[key]] for a full key. *)
Definition Stack_getitem {K A} `{EqDecision K} (stack : Stack K A) (key : K) : result A :=
  match od_get key (_data stack) with
  | Some v => Ok v
  | None => Raise KeyError
  end.

(** [table[sample]] *)
Definition Table_getitem (t : Table) (sample : pyval) : result pyval :=
  match od_get sample (tb_data t) with
  | Some v => Ok v
  | None => Raise KeyError
  end.

(** What [_generate_curves] collects for one sample: nothing yet, a curve,
    an overlay of curves, or a stack of overlays. *)
Inductive DataView : Type :=
| DVNone
| DVCurve (c : Curve)
| DVOverlay (curves : list Curve)
| DVStack (s : Stack Key View).

(** The split mapping: shortened key -> (x value -> view). *)
Definition SplitData : Type := list (Key * list (pyval * View)).

Section curve_collapse.
Variable sheet2matrixidx : SheetView → Q → Q → Z * Z.
(** [stack._type_map]: the type of each column of a stack of tables, [None]
    for a column of mixed types. *)
Variable _type_map : Stack Key View → list (pyval * option pytype).
(** [repr(v)], [str(v)], [s.capitalize()], [s.title()] and
    [dimension.pprint_value(v)]. *)
Variable repr : pyval → string.
Variable str : pyval → string.
Variable capitalize : string → string.
Variable str_title : string → string.
Variable pprint_value : Dimension → pyval → string.
(** The parameters. *)
Variable x_axis : option string.
Variable group_by : list string.
Variable samples : list pyval.

Definition _check_table_stack (stack : Stack Key View) : result unit :=
  if negb (forallb (λ h, bool_decide (h ∈ (_type_map stack).*1)) samples) then
    Raise (Exception "Invalid list of heading samples.")
  else
    _ ← for_each (λ sample,
           match od_get sample (_type_map stack) with
           | None => Raise KeyError
           | Some None =>
               Raise (Exception ("Cannot sample inhomogenous type " ++ repr sample))
           | Some (Some tp) =>
               if bool_decide (tp ∉ sample_types) then
                 Raise (Exception ("Cannot sample from type "
                                   ++ repr (PStr (pytype_name tp))))
               else Ok tt
           end) samples;
    match x_axis with
    | None => Raise (Exception "x_axis None not found in stack")
    | Some _ => Ok tt
    end.

Definition _split_keys_by_axis (stack : Stack Key View) (keys : list Key)
    (x_axis : string) : result (list pyval * list Key) :=
  x_ndim ← dim_index stack x_axis;
  xvals ← for_each (λ k : Key, match k !! x_ndim with
                               | Some x => Ok x
                               | None => Raise IndexError
                               end) keys;
  let dim_vals := (λ k : Key, take x_ndim k ++ drop (S x_ndim) k) <$> keys in
  Ok (fromkeys xvals, fromkeys dim_vals).

(** The key of the stack that [k] and [x] come from. *)
Definition expanded_key (x_ndim : nat) (k : Key) (x : pyval) : Key :=
  take x_ndim k ++ [x] ++ drop x_ndim k.

(** The body of the loop over the x values: [split_data[k][x] = ...]. *)
Definition split_axis_x (stack : Stack Key View) (x_ndim : nat) (keys : list Key)
    (k : Key) (x_axis_data : list (pyval * View)) (x : pyval)
    : result (list (pyval * View)) :=
  if bool_decide (expanded_key x_ndim k x ∈ keys) then
    view ← Stack_getitem stack (expanded_key x_ndim k x);
    Ok (od_set x view x_axis_data)
  else Ok x_axis_data.

(** The body of the loop over the shortened keys. *)
Definition split_axis_key (stack : Stack Key View) (x_ndim : nat) (keys : list Key)
    (x_vals : list pyval) (split_data : SplitData) (k : Key) : result SplitData :=
  x_axis_data ← for_fold (split_axis_x stack x_ndim keys k) x_vals [];
  Ok (od_set k x_axis_data split_data).

Definition split_axis (stack : Stack Key View) (x_axis : string) : result SplitData :=
  x_ndim ← dim_index stack x_axis;
  let keys := Stack_keys stack in
  '(x_vals, dim_values) ← _split_keys_by_axis stack keys x_axis;
  for_fold (split_axis_key stack x_ndim keys x_vals) dim_values [].

Definition _curve_labels (self_stack_type : Cls.t) (x_axis sample ylabel : string)
    : result (string * string * string * string) :=
  if bool_decide (self_stack_type = Cls.SheetStack) then
    let title_prefix := ("Coord: " ++ sample ++ " ")%string in
    let curve_label := (capitalize x_axis ++ " " ++ ylabel)%string in
    Ok (title_prefix, str_title curve_label, str_title x_axis, str_title ylabel)
  else if bool_decide (self_stack_type = Cls.TableStack) then
    Ok ((ylabel ++ " ")%string, str_title sample, str_title x_axis, str_title sample)
  else Raise TypeError.

(** [[(x, view[sample]) for x, view in x_axis_data.items()]] *)
Definition sampled_curve_data_of (sample : pyval) (x_axis_data : list (pyval * View))
    : result (list (pyval * pyval)) :=
  for_each (λ xv : pyval * View,
              t ← as_Table xv.2; y ← Table_getitem t sample; Ok (xv.1, y))
    x_axis_data.

(** One pass of the inner loop of [_generate_curves]. *)
Definition _generate_curve (self_stack_type : Cls.t) (stack : Stack Key View)
    (stack_dims : list Dimension) (overlay_inds : list nat)
    (cyclic_range : option Q) (x_axis : string) (sample : pyval)
    (dataview : DataView) (item : Key * list (pyval * View)) : result DataView :=
  let '(key, x_axis_data) := item in
  sampled_curve_data ← sampled_curve_data_of sample x_axis_data;
  overlay_items ← for_each (λ ni : string * nat,
                     match key !! ni.2 with
                     | Some val => Ok (ni.1, val)
                     | None => Raise IndexError
                     end) (zip group_by overlay_inds);
  legend_labels ← for_each (λ nv : string * pyval,
                     d ← dim_dict stack nv.1; Ok (pprint_value d nv.2)) overlay_items;
  let legend_label := String.concat ", " legend_labels in
  ylabel ← match x_axis_data.*2 !! 0%nat with
           | Some v => Ok (label v)
           | None => Raise IndexError
           end;
  '(title_prefix, lbl, xlabel, ylabel) ← _curve_labels self_stack_type x_axis (str sample) ylabel;
  let curve := mkCurve sampled_curve_data cyclic_range (metadata stack) lbl
                 legend_label xlabel ylabel in
  match stack_dims with
  | [] =>
      match dataview with
      | DVNone => Ok (DVCurve curve)
      | DVCurve c => Ok (DVOverlay [c; curve])
      | DVOverlay curves => Ok (DVOverlay (curves ++ [curve]))
      | DVStack _ => Raise TypeError
      end
  | _ =>
      match dataview with
      | DVStack dataview =>
          let dataview := mkStack (stack_type dataview) (dimensions dataview)
                            (metadata dataview) (title_prefix ++ title dataview)%string
                            (_data dataview) in
          let stack_key : Key :=
            (filter (λ ik : nat * pyval, ik.1 ∉ overlay_inds)
               (imap (λ ind kval, (ind, kval)) key)).*2 in
          if bool_decide (stack_key ∉ Stack_keys dataview) then
            Ok (DVStack (Stack_setitem dataview stack_key (VDataOverlay [curve])))
          else
            overlay ← Stack_getitem dataview stack_key;
            match overlay with
            | VDataOverlay curves =>
                Ok (DVStack (Stack_setitem dataview stack_key
                               (VDataOverlay (curves ++ [curve]))))
            | _ => Raise TypeError
            end
      | _ => Raise AttributeError
      end
  end.

Definition _generate_curves (self_stack_type : Cls.t) (stack : Stack Key View)
    (stack_dims : list Dimension) (split_data : SplitData)
    (overlay_inds : list nat) (cyclic_range : option Q) (x_axis : string)
    : result (list DataView) :=
  for_each (λ sample,
      let dataview :=
        match stack_dims with
        | [] => DVNone
        | _ => DVStack (mkStack Cls.DataStack stack_dims (metadata stack) (title stack) [])
        end in
      for_fold (_generate_curve self_stack_type stack stack_dims overlay_inds cyclic_range
                  x_axis sample) split_data dataview) samples.

(** The arguments [_process] passes to [_generate_curves]. *)
Record CurveArgs : Type := mkCurveArgs {
  ca_stack_type : Cls.t;
  ca_stack : Stack Key View;
  ca_stack_dims : list Dimension;
  ca_split_data : SplitData;
  ca_overlay_inds : list nat;
  ca_cyclic_range : option Q;
  ca_x_axis : string
}.

(** [_process] up to the call of [_generate_curves]: sampling, validation
    and the computation of the arguments. *)
Definition curve_collapse_prepare (stack : Stack Key View) : result CurveArgs :=
  let self_stack_type := stack_type stack in
  sampled ← sample_call sheet2matrixidx samples (InStack stack);
  sampled_stack ← match sampled with
                  | OutStack s => Ok s
                  | _ => Raise AttributeError
                  end;
  _ ← _check_table_stack sampled_stack;
  x_name ← match x_axis with Some x => Ok x | None => Raise KeyError end;
  x_dim ← dim_dict sampled_stack x_name;
  let specified_dims := x_name :: group_by in
  let specified_dims_set : gset string := list_to_set specified_dims in
  if bool_decide (length specified_dims ≠ size specified_dims_set) then
    Raise (Exception "X axis cannot be included in grouped dimensions.")
  else
    let stack_dims := filter (λ d, dim_name d ∉ specified_dims_set)
                        (dimensions sampled_stack) in
    split_data ← split_axis sampled_stack x_name;
    let output_dims := filter (λ d, d ≠ x_name) (dimension_labels sampled_stack) in
    let overlay_inds :=
      (filter (λ ix : nat * string, ix.2 ∈ group_by)
         (imap (λ i name, (i, name)) output_dims)).*1 in
    cyclic_range ← (if dim_cyclic x_dim then
                      match dim_range x_dim with
                      | Some rng => Ok (Some rng.2)
                      | None => Raise TypeError
                      end
                    else Ok None);
    Ok (mkCurveArgs self_stack_type sampled_stack stack_dims split_data overlay_inds
          cyclic_range x_name).

Definition curve_collapse_process (stack : Stack Key View) : result (list DataView) :=
  args ← curve_collapse_prepare stack;
  _generate_curves (ca_stack_type args) (ca_stack args) (ca_stack_dims args)
    (ca_split_data args) (ca_overlay_inds args) (ca_cyclic_range args) (ca_x_axis args).

(** [curve_collapse(stack)] *)
Definition curve_collapse_call (stack : @StackInput Key View)
    : result (@StackOutput DataView) :=
  StackOperation_call curve_collapse_process stack.

Lemma size_list_to_set_le (l : list string) :
  (size (list_to_set l : gset string) ≤ length l)%nat.
Proof.
  induction l as [|x l IH].
  - rewrite list_to_set_nil, size_empty. done.
  - rewrite list_to_set_cons, size_union_alt, size_singleton. simpl.
    pose proof (subseteq_size (list_to_set l ∖ {[x]}) (list_to_set l : gset string)) as Hs.
    assert ((list_to_set l : gset string) ∖ {[x]} ⊆ list_to_set l) as Hsub
      by (by apply subseteq_difference_l).
    specialize (Hs Hsub). lia.
Qed.

Lemma size_list_to_set_dup (x : string) (l : list string) :
  x ∈ l → (size (list_to_set (x :: l) : gset string) < length (x :: l))%nat.
Proof.
  intros Hin. rewrite list_to_set_cons.
  assert ({[x]} ∪ (list_to_set l : gset string) = list_to_set l) as ->.
  { apply set_eq. intros y. rewrite elem_of_union, elem_of_singleton.
    split; [intros [->|?]|]; auto. by apply elem_of_list_to_set. }
  pose proof (size_list_to_set_le l). simpl. lia.
Qed.

(** C6: when the x-axis name is also one of the group-by names, [_process]
    fails during the preparation -- in sampling, in the checks, or at the
    test for duplicates at the latest -- whatever the stack holds; the
    curves are never generated. *)
Theorem curve_collapse_x_axis_in_group_by (stack : Stack Key View) (x : string) :
  x_axis = Some x → x ∈ group_by →
  ∃ e, curve_collapse_prepare stack = Raise e ∧
       curve_collapse_process stack = Raise e ∧
       curve_collapse_call (AStack stack) = Raise e.
Proof.
  intros Hx Hin.
  assert (∃ e, curve_collapse_prepare stack = Raise e) as [e He].
  { unfold curve_collapse_prepare. rewrite Hx.
    destruct (sample_call _ _ _) as [[| s | |]|e]; simpl; try by eexists.
    destruct (_check_table_stack s) as [[]|e]; simpl; [|by eexists].
    destruct (dim_dict s x) as [x_dim|e]; simpl; [|by eexists].
    rewrite bool_decide_true; [by eexists|].
    pose proof (size_list_to_set_dup x group_by Hin) as Hlt.
    rewrite list_to_set_cons in Hlt. simpl in Hlt. lia. }
  exists e. split; [exact He|].
  unfold curve_collapse_call, StackOperation_call, curve_collapse_process.
  rewrite He. done.
Qed.

(** *** Axis splitting *)

Lemma od_set_keys {K A} `{EqDecision K} (k : K) (v : A) (d : list (K * A)) :
  (od_set k v d).*1 = if decide (k ∈ d.*1) then d.*1 else d.*1 ++ [k].
Proof.
  induction d as [|[k' v'] d IH].
  - cbn [od_set fmap list_fmap]. rewrite decide_False by apply not_elem_of_nil. done.
  - cbn [od_set]. rewrite fmap_cons. cbn [fst].
    destruct (decide (k = k')) as [->|Hne].
    + rewrite decide_True by apply list_elem_of_here. done.
    + rewrite fmap_cons. cbn [fst]. rewrite IH.
      destruct (decide (k ∈ d.*1)) as [Hin|Hnin].
      * rewrite decide_True by (by apply list_elem_of_further). done.
      * rewrite decide_False; [done|].
        intros Hin. apply elem_of_cons in Hin as [?|?]; done.
Qed.

Lemma od_get_Some_elem {K A} `{EqDecision K} (k : K) (d : list (K * A)) :
  k ∈ d.*1 ↔ is_Some (od_get k d).
Proof.
  induction d as [|[k' v'] d IH]; simpl.
  - split; [by intros ?%not_elem_of_nil|by intros [? ?]].
  - destruct (decide (k = k')) as [->|Hne].
    + split; [by eexists|]. intros _. apply list_elem_of_here.
    + rewrite <- IH. rewrite elem_of_cons.
      split; [by intros [?|?]|by right].
Qed.

Lemma fromkeys_spec {A} `{EqDecision A} (l : list A) :
  NoDup (fromkeys l) ∧ ∀ x, x ∈ fromkeys l ↔ x ∈ l.
Proof.
  unfold fromkeys, od_of_pairs.
  enough (∀ acc : list (A * unit), NoDup acc.*1 →
    NoDup (foldl (λ d kv, od_set kv.1 kv.2 d) acc ((λ x, (x, tt)) <$> l)).*1 ∧
    ∀ x, x ∈ (foldl (λ d kv, od_set kv.1 kv.2 d) acc ((λ x, (x, tt)) <$> l)).*1
         ↔ x ∈ acc.*1 ∨ x ∈ l) as Hgen.
  { destruct (Hgen [] NoDup_nil_2) as [Hnd Hiff]. split; [done|].
    intros x. rewrite Hiff. simpl. rewrite elem_of_nil.
    split; [by intros [[]|?]|by right]. }
  induction l as [|y l IH]; intros acc Hacc.
  - simpl. split; [done|]. intros x. rewrite elem_of_nil.
    split; [by left|by intros [?|[]]].
  - rewrite fmap_cons. simpl.
    assert (NoDup (od_set y tt acc).*1) as Hnd'.
    { rewrite od_set_keys. destruct (decide (y ∈ acc.*1)); [done|].
      apply NoDup_app. split; [done|]. split; [|apply NoDup_singleton].
      intros z Hz Hz'. apply list_elem_of_singleton in Hz'. by subst. }
    destruct (IH _ Hnd') as [Hnd Hiff]. split; [done|].
    intros x. rewrite Hiff, od_set_keys, elem_of_cons.
    destruct (decide (y ∈ acc.*1)) as [Hy|Hy].
    + split; [intros [?|?]; auto|]. intros [?|[->|?]]; auto.
    + rewrite elem_of_app, list_elem_of_singleton.
      split; [intros [[?|?]|?]; auto|intros [?|[?|?]]; auto].
Qed.

Lemma for_each_total {A B} (f : A → result B) (l : list A) :
  Forall (λ x, ∃ y, f x = Ok y) l → ∃ ys, for_each f l = Ok ys.
Proof.
  induction 1 as [|x l [y Hy] _ [ys Hys]]; simpl; [by eexists|].
  rewrite Hy. simpl. rewrite Hys. by eexists.
Qed.

(** The inner mapping for a shortened key [k]: one entry for each x value
    whose expanded key is a key of the stack. *)
Definition x_axis_data_of (stack : Stack Key View) (x_ndim : nat)
    (x_vals : list pyval) (k : Key) : list (pyval * View) :=
  omap (λ x, (λ view, (x, view)) <$> od_get (expanded_key x_ndim k x) (_data stack))
    x_vals.

Lemma x_axis_data_of_keys stack x_ndim x_vals k :
  (x_axis_data_of stack x_ndim x_vals k).*1 =
    filter (λ x, expanded_key x_ndim k x ∈ Stack_keys stack) x_vals.
Proof.
  unfold x_axis_data_of, Stack_keys.
  induction x_vals as [|x x_vals IH]; [done|].
  rewrite filter_cons. cbn [omap list_omap].
  destruct (od_get (expanded_key x_ndim k x) (_data stack)) as [view|] eqn:Hg; simpl.
  - rewrite decide_True by (apply od_get_Some_elem; by rewrite Hg).
    f_equal. exact IH.
  - rewrite decide_False; [done|].
    intros Hin%od_get_Some_elem. rewrite Hg in Hin. by destruct Hin.
Qed.

Lemma x_axis_data_of_values stack x_ndim x_vals k x view :
  (x, view) ∈ x_axis_data_of stack x_ndim x_vals k →
  x ∈ x_vals ∧ od_get (expanded_key x_ndim k x) (_data stack) = Some view.
Proof.
  unfold x_axis_data_of. rewrite list_elem_of_omap. intros (x' & Hin & Hx).
  destruct (od_get (expanded_key x_ndim k x') (_data stack)) eqn:Hg; simpl in Hx; [|done].
  injection Hx as -> ->. done.
Qed.

Lemma split_axis_x_step stack x_ndim k x_axis_data x :
  split_axis_x stack x_ndim (Stack_keys stack) k x_axis_data x =
    Ok (match od_get (expanded_key x_ndim k x) (_data stack) with
        | Some view => od_set x view x_axis_data
        | None => x_axis_data
        end).
Proof.
  unfold split_axis_x, Stack_getitem, Stack_keys.
  destruct (od_get (expanded_key x_ndim k x) (_data stack)) as [view|] eqn:Hg.
  - rewrite bool_decide_true by (apply od_get_Some_elem; by rewrite Hg). done.
  - rewrite bool_decide_false; [done|].
    intros Hin%od_get_Some_elem. rewrite Hg in Hin. by destruct Hin.
Qed.

Lemma split_axis_x_fold stack x_ndim k (x_vals : list pyval) : ∀ x_axis_data,
  NoDup x_vals →
  (∀ x, x ∈ x_vals → x ∉ x_axis_data.*1) →
  for_fold (split_axis_x stack x_ndim (Stack_keys stack) k) x_vals x_axis_data
    = Ok (x_axis_data ++ x_axis_data_of stack x_ndim x_vals k).
Proof.
  induction x_vals as [|x x_vals IH]; intros data Hnd Hfresh.
  - simpl. by rewrite app_nil_r.
  - apply NoDup_cons in Hnd as [Hx Hnd].
    cbn [for_fold]. rewrite split_axis_x_step. unfold x_axis_data_of.
    cbn [omap list_omap mbind result_bind].
    destruct (od_get (expanded_key x_ndim k x) (_data stack)) as [view|] eqn:Hg.
    + rewrite od_set_fresh by (apply Hfresh, list_elem_of_here).
      rewrite IH; [simpl; by rewrite <- app_assoc|done|].
      intros x' Hx'. rewrite fmap_app, elem_of_app. simpl.
      rewrite list_elem_of_singleton. intros [Hin| ->]; [|done].
      by apply (Hfresh x'); [apply list_elem_of_further|].
    + simpl. apply IH; [done|]. intros x' Hx'. by apply Hfresh, list_elem_of_further.
Qed.

Lemma split_axis_key_step stack x_ndim x_vals (split_data : SplitData) k :
  NoDup x_vals →
  split_axis_key stack x_ndim (Stack_keys stack) x_vals split_data k =
    Ok (od_set k (x_axis_data_of stack x_ndim x_vals k) split_data).
Proof.
  intros Hx. unfold split_axis_key.
  rewrite split_axis_x_fold by (done || intros ? _; apply not_elem_of_nil).
  done.
Qed.

Lemma split_axis_key_fold stack x_ndim x_vals (dim_values : list Key) :
  ∀ split_data : SplitData,
  NoDup x_vals → NoDup dim_values →
  (∀ k, k ∈ dim_values → k ∉ split_data.*1) →
  for_fold (split_axis_key stack x_ndim (Stack_keys stack) x_vals) dim_values split_data
    = Ok (split_data ++ ((λ k, (k, x_axis_data_of stack x_ndim x_vals k)) <$> dim_values)).
Proof.
  induction dim_values as [|k dim_values IH]; intros split_data Hx Hnd Hfresh.
  - simpl. by rewrite app_nil_r.
  - apply NoDup_cons in Hnd as [Hk Hnd].
    cbn [for_fold]. rewrite split_axis_key_step by done.
    cbn [mbind result_bind].
    rewrite od_set_fresh by (apply Hfresh, list_elem_of_here).
    rewrite IH; [simpl; by rewrite <- app_assoc|done|done|].
    intros k' Hk'. rewrite fmap_app, elem_of_app. simpl.
    rewrite list_elem_of_singleton. intros [Hin| ->]; [|done].
    by apply (Hfresh k'); [apply list_elem_of_further|].
Qed.

Lemma sampled_curve_data_of_keys sample (x_axis_data : list (pyval * View)) pts :
  sampled_curve_data_of sample x_axis_data = Ok pts → pts.*1 = x_axis_data.*1.
Proof.
  unfold sampled_curve_data_of. revert pts.
  induction x_axis_data as [|[x view] d IH]; intros pts; simpl.
  - by intros [= <-].
  - destruct (as_Table view) as [t|]; simpl; [|done].
    destruct (Table_getitem t sample) as [y|]; simpl; [|done].
    destruct (for_each _ d) as [rest|]; simpl; [|done].
    intros [= <-]. simpl. f_equal. by apply IH.
Qed.

(** C7: splitting a stack along an axis succeeds, and under each shortened
    key the split mapping has one entry for each observed x value whose
    expanded key is a key of the stack -- the stack's own entry at that key
    -- in the order of the x values, and no entry for the other x values; a
    curve drawn from it has one point for each entry. *)
Theorem split_axis_sparse (stack : Stack Key View) (x_name : string) (x_ndim : nat) :
  dim_index stack x_name = Ok x_ndim →
  Forall (λ k : Key, x_ndim < length k)%nat (Stack_keys stack) →
  ∃ x_vals dim_values split_data,
    _split_keys_by_axis stack (Stack_keys stack) x_name = Ok (x_vals, dim_values) ∧
    split_axis stack x_name = Ok split_data ∧
    split_data.*1 = dim_values ∧
    ∀ k x_axis_data, (k, x_axis_data) ∈ split_data →
      x_axis_data.*1 =
        filter (λ x, expanded_key x_ndim k x ∈ Stack_keys stack) x_vals ∧
      (∀ x, x ∈ x_vals → expanded_key x_ndim k x ∉ Stack_keys stack →
            od_get x x_axis_data = None) ∧
      (∀ x view, (x, view) ∈ x_axis_data →
            Stack_getitem stack (expanded_key x_ndim k x) = Ok view) ∧
      (∀ sample pts, sampled_curve_data_of sample x_axis_data = Ok pts →
            pts.*1 = x_axis_data.*1).
Proof.
  intros Hdim Hkeys.
  destruct (for_each_total (λ k : Key, match k !! x_ndim with
                                       | Some x => Ok x
                                       | None => Raise IndexError
                                       end) (Stack_keys stack)) as [xvals Hxvals].
  { eapply Forall_impl; [exact Hkeys|]. intros k Hk. simpl in Hk.
    destruct (lookup_lt_is_Some_2 k x_ndim Hk) as [x Hx]. exists x. by rewrite Hx. }
  set (dim_vals := (λ k : Key, take x_ndim k ++ drop (S x_ndim) k) <$> Stack_keys stack).
  destruct (fromkeys_spec xvals) as [Hndx _].
  destruct (fromkeys_spec dim_vals) as [Hndk _].
  exists (fromkeys xvals), (fromkeys dim_vals).
  eexists. split; [|split; [|split]].
  - unfold _split_keys_by_axis. rewrite Hdim. simpl. rewrite Hxvals. done.
  - unfold split_axis, _split_keys_by_axis. rewrite Hdim. simpl. rewrite Hxvals. simpl.
    apply (split_axis_key_fold stack x_ndim (fromkeys xvals) (fromkeys dim_vals) []);
      [done|done|]. intros ? _. apply not_elem_of_nil.
  - simpl. rewrite <- list_fmap_compose. apply list_fmap_id.
  - intros k x_axis_data Hin. simpl in Hin.
    apply list_elem_of_fmap in Hin as (k' & Heq & _). injection Heq as -> ->.
    split; [apply x_axis_data_of_keys|]. split; [|split].
    + intros x _ Hx. destruct (od_get x _) eqn:Hg; [|done]. exfalso.
      assert (x ∈ (x_axis_data_of stack x_ndim (fromkeys xvals) k').*1) as Hin
        by (apply od_get_Some_elem; by rewrite Hg).
      rewrite x_axis_data_of_keys in Hin. by apply list_elem_of_filter in Hin as [? _].
    + intros x view Hin. apply x_axis_data_of_values in Hin as [_ Hg].
      unfold Stack_getitem. by rewrite Hg.
    + intros sample pts. apply sampled_curve_data_of_keys.
Qed.
End curve_collapse.

(** *** A sparse stack of tables keyed by (time, trial) *)

Definition weather_table (temp : Q) : View :=
  VTable (mkTable [(PStr "temp", PFloat temp); (PStr "humidity", PFloat 1)] "Weather" []).

Definition weather_stack : Stack Key View :=
  mkStack Cls.TableStack
    [mkDimension "time" false None; mkDimension "trial" false None] [] ""
    [ ([PInt 0; PInt 0], weather_table 1); ([PInt 0; PInt 1], weather_table 2);
      ([PInt 1; PInt 0], weather_table 3); ([PInt 2; PInt 1], weather_table 4) ].

Definition weather_type_map (stack : Stack Key View) : list (pyval * option pytype) :=
  [(PStr "temp", Some TFloat)].

Definition show (v : pyval) : string :=
  match v with
  | PStr s => s
  | _ => ""
  end.

(** Trial 0 has times 0 and 1, trial 1 has times 0 and 2: each curve has two
    of the three observed times. *)
Example split_axis_weather :
  fmap (M := list) (λ kd : Key * list (pyval * View), (kd.1, kd.2.*1))
    <$> split_axis weather_stack "time"
  = Ok [ ([PInt 0], [PInt 0; PInt 1]); ([PInt 1], [PInt 0; PInt 2]) ].
Proof. reflexivity. Qed.

Lemma split_axis_sparse_witness :
  ∃ x_vals dim_values split_data,
    _split_keys_by_axis weather_stack (Stack_keys weather_stack) "time"
      = Ok (x_vals, dim_values) ∧
    split_axis weather_stack "time" = Ok split_data ∧
    split_data.*1 = dim_values.
Proof.
  destruct (split_axis_sparse weather_stack "time" 0%nat)
    as (x_vals & dim_values & split_data & H1 & H2 & H3 & _).
  - reflexivity.
  - unfold Stack_keys. simpl. repeat constructor.
  - by exists x_vals, dim_values, split_data.
Defined.

Lemma curve_collapse_x_axis_in_group_by_witness :
  ∃ e,
    curve_collapse_process (λ _ _ _, (0, 0)%Z) weather_type_map show show id id
      (λ _ v, show v) (Some "time") ["trial"; "time"] [PStr "temp"] weather_stack
    = Raise e.
Proof.
  destruct (curve_collapse_x_axis_in_group_by (λ _ _ _, (0, 0)%Z) weather_type_map
              show show id id (λ _ v, show v) (Some "time") ["trial"; "time"]
              [PStr "temp"] weather_stack "time")
    as (e & _ & He & _).
  - reflexivity.
  - apply list_elem_of_further, list_elem_of_here.
  - by exists e.
Defined.

(** * Further properties of the operations *)

(** ** Calls on stacks: when they return *)

Section ViewOperation_returns.
Context {K : Type} `{EqDecision K} {El V : Type}.
Variable type_of : V → Cls.t.
Variable issubclass : Cls.t → Cls.t → bool.
Variable _process : El → result (list V).

(** A view list has a signature only if none of its views is a grid and each
    one falls under a key of [stack_mapping]; the signature lists, for each
    view, the first such key. *)
Lemma view_signature_Ok_inv views sg :
  view_signature type_of issubclass views = Ok sg →
  Forall2 (λ v tp,
      (type_of v ∉ [Cls.CoordinateGrid; Cls.DataGrid]) ∧
      head (filter (λ k, issubclass (type_of v) k = true) stack_mapping.*1) = Some tp)
    views sg.
Proof.
  revert sg. induction views as [|v views IH]; intros sg; cbn [view_signature].
  - intros [= <-]. constructor.
  - case_bool_decide as Hg; [done|].
    destruct (filter _ _) as [|tp l] eqn:Hf; [done|].
    destruct (view_signature type_of issubclass views) as [sg'|] eqn:Hv;
      cbn [mbind result_bind]; [|done].
    intros [= <-]. constructor; [|by apply IH]. split; [done|]. by rewrite Hf.
Qed.

Lemma stack_types_of_length sg stack_types :
  stack_types_of sg = Ok stack_types → length stack_types = length sg.
Proof.
  revert stack_types. induction sg as [|tp sg IH]; intros stack_types; cbn [stack_types_of].
  - by intros [= <-].
  - destruct (od_get tp stack_mapping); [|done].
    destruct (stack_types_of sg) as [rest|]; simpl; [|done].
    intros [= <-]. simpl. by rewrite (IH rest).
Qed.

Lemma insert_views_length (k : K) (views : list V) : ∀ ind stacks stacks',
  insert_views k ind views stacks = Ok stacks' → length stacks' = length stacks.
Proof.
  induction views as [|v views IH]; intros ind stacks stacks'; cbn [insert_views].
  - by intros [= <-].
  - destruct (stacks !! ind); [|done]. intros Hi%IH. by rewrite length_insert in Hi.
Qed.

Lemma fill_stacks_length (mapped_items : list (K * list V)) : ∀ stacks stacks',
  fill_stacks mapped_items stacks = Ok stacks' → length stacks' = length stacks.
Proof.
  induction mapped_items as [|[k views] mapped_items IH]; intros stacks stacks';
    cbn [fill_stacks].
  - by intros [= <-].
  - destruct (insert_views k 0 views stacks) as [stacks1|] eqn:Hi; simpl; [|done].
    intros Hf%IH. apply insert_views_length in Hi. lia.
Qed.

(** The steps of a call on a stack that returns. *)
Lemma ViewOperation_call_stack_Ok (view : Stack K El) out :
  ViewOperation_call type_of issubclass _process (InStack view) = Ok out →
  ∃ mapped_items sg stacks,
    mapped_items_of _process (Stack_items view) = Ok mapped_items ∧
    mapped_items ≠ [] ∧
    Forall (λ kvs, view_signature type_of issubclass kvs.2 = Ok sg) mapped_items ∧
    length stacks = length sg ∧
    out = match stacks with [s] => OutStack s | _ => GridLayout_stacks stacks end.
Proof.
  unfold ViewOperation_call.
  destruct (mapped_items_of _process (Stack_items view)) as [mapped_items|] eqn:Hm;
    simpl; [|done].
  destruct (_get_signature type_of issubclass mapped_items.*2) as [[sg|]|] eqn:Hg;
    simpl; [|done|done].
  destruct (stack_types_of sg) as [stack_types|] eqn:Hst; simpl; [|done].
  destruct (fill_stacks mapped_items _) as [stacks|] eqn:Hfill; simpl; [|done].
  intros Hout. exists mapped_items, sg, stacks.
  assert (mapped_items ≠ []) as Hne by (by intros ->).
  apply _get_signature_Ok in Hg. apply fill_stacks_length in Hfill.
  apply stack_types_of_length in Hst. rewrite length_fmap in Hfill.
  split; [done|]. split; [|split; [|split]].
  - done.
  - by apply Forall_fmap in Hg.
  - lia.
  - destruct stacks as [|s [|s' stacks']]; simpl in *.
    + by injection Hout as <-.
    + by injection Hout as <-.
    + by injection Hout as <-.
Qed.

(** X1: a call on a stack returns only if the stack has entries and every
    entry is processed into a view list with one and the same category
    signature; what comes back is a single stack when the signature has one
    position and a grid layout with one stack per position otherwise. *)
Theorem ViewOperation_call_stack_returns (view : Stack K El) out :
  ViewOperation_call type_of issubclass _process (InStack view) = Ok out →
  Stack_items view ≠ [] ∧
  ∃ sg,
    (∀ k el, (k, el) ∈ Stack_items view →
       ∃ views, _process el = Ok views ∧
                view_signature type_of issubclass views = Ok sg) ∧
    match out with
    | OutStack _ => length sg = 1%nat
    | GridLayout_stacks stacks => length stacks = length sg ∧ length sg ≠ 1%nat
    | _ => False
    end.
Proof.
  intros (mapped_items & sg & stacks & Hm & Hne & Hsig & Hlen & ->)
    %ViewOperation_call_stack_Ok.
  pose proof (mapped_items_of_Ok _ _ _ Hm) as Hrel.
  split.
  - intros Hnil. rewrite Hnil in Hrel. by apply Forall2_nil_inv_l in Hrel.
  - exists sg. split.
    + intros k el Hin. apply list_elem_of_lookup in Hin as [j Hj].
      destruct (Forall2_lookup_l _ _ _ _ _ Hrel Hj) as ([k' views] & Hj' & _ & Hp).
      exists views. split; [done|].
      rewrite Forall_lookup in Hsig. apply (Hsig j _ Hj').
    + destruct stacks as [|s [|s' stacks']]; simpl in *; [split| |split]; lia.
Qed.

(** X2: an operation whose step returns the empty list behaves differently
    on a view and on a stack: on a view the call raises IndexError, reading
    the first of no views, while on a stack with entries it returns a grid
    layout of no stacks. *)
Theorem ViewOperation_call_no_outputs (view : Stack K El) (el0 : El) :
  Stack_items view ≠ [] →
  (∀ k el, (k, el) ∈ Stack_items view → _process el = Ok []) →
  _process el0 = Ok [] →
  ViewOperation_call type_of issubclass _process (InView (K:=K) el0) = Raise IndexError ∧
  ViewOperation_call type_of issubclass _process (InStack view)
    = Ok (GridLayout_stacks []).
Proof.
  intros Hne Hall Hel0. split.
  - unfold ViewOperation_call. by rewrite Hel0.
  - destruct (mapped_items_of_all _process (Stack_items view)) as [mapped_items Hm].
    { intros k el Hin. exists []. by eapply Hall. }
    pose proof (mapped_items_of_Ok _ _ _ Hm) as Hrel.
    assert (Forall (λ kvs : K * list V, kvs.2 = []) mapped_items) as Hnil.
    { apply Forall_lookup. intros j [k views] Hj.
      destruct (Forall2_lookup_r _ _ _ _ _ Hrel Hj) as ([k' el] & Hj' & _ & Hp).
      simpl in *. rewrite (Hall k' el) in Hp by (by eapply list_elem_of_lookup_2).
      by injection Hp. }
    assert (mapped_items ≠ []) as Hmne.
    { intros ->. by apply Forall2_nil_inv_r in Hrel. }
    unfold ViewOperation_call. rewrite Hm. cbn [mbind result_bind].
    rewrite (_get_signature_same _ _ []).
    + cbn [mbind result_bind stack_types_of fmap list_fmap].
      rewrite fill_stacks_spec.
      * cbn [mbind result_bind].
        assert (foldl fill_step [] mapped_items = ([] : list (Stack K V))) as ->; [|done].
        clear. by induction mapped_items.
      * eapply Forall_impl; [exact Hnil|]. intros kvs ->. done.
    + by destruct mapped_items.
    + apply Forall_fmap. eapply Forall_impl; [exact Hnil|].
      intros kvs Hk. simpl. by rewrite Hk.
Qed.

(** X3: a call on a stack never returns when the step yields, for some
    entry, a view that is a CoordinateGrid or a DataGrid, or a view that
    falls under none of the keys of [stack_mapping]. *)
Theorem ViewOperation_call_stack_unsupported (view : Stack K El) k el views v :
  (k, el) ∈ Stack_items view →
  _process el = Ok views →
  v ∈ views →
  type_of v ∈ [Cls.CoordinateGrid; Cls.DataGrid] ∨
    (∀ c, c ∈ stack_mapping.*1 → issubclass (type_of v) c = false) →
  raises (ViewOperation_call type_of issubclass _process (InStack view)).
Proof.
  intros Hin Hp Hv Hbad.
  destruct (ViewOperation_call type_of issubclass _process (InStack view))
    as [out|e] eqn:Hcall; [|by exists e].
  exfalso.
  apply ViewOperation_call_stack_Ok in Hcall
    as (mapped_items & sg & stacks & Hm & _ & Hsig & _).
  pose proof (mapped_items_of_Ok _ _ _ Hm) as Hrel.
  apply list_elem_of_lookup in Hin as [j Hj].
  destruct (Forall2_lookup_l _ _ _ _ _ Hrel Hj) as ([k' views'] & Hj' & _ & Hp').
  simpl in Hp'. rewrite Hp in Hp'. injection Hp' as <-.
  rewrite Forall_lookup in Hsig. specialize (Hsig j _ Hj'). simpl in Hsig.
  apply view_signature_Ok_inv in Hsig.
  apply list_elem_of_lookup in Hv as [i Hi].
  destruct (Forall2_lookup_l _ _ _ _ _ Hsig Hi) as (tp & _ & Hgrid & Hhead).
  destruct Hbad as [Hbad|Hbad]; [done|].
  destruct (filter _ _) as [|tp' l] eqn:Hf; [done|].
  pose proof (list_elem_of_here tp' l) as Htp. rewrite <- Hf in Htp.
  apply list_elem_of_filter in Htp as [Hsub Hkey].
  rewrite (Hbad tp' Hkey) in Hsub. done.
Qed.

(** An operation with one output per entry maps over the stack: the output
    stack has the entries' outputs under the entries' keys. *)
Lemma ViewOperation_call_single_output (view : Stack K El) (f : El → V) tp stack_tp :
  Stack_items view ≠ [] →
  NoDup (Stack_keys view) →
  (∀ k el, (k, el) ∈ Stack_items view →
     _process el = Ok [f el] ∧ view_signature type_of issubclass [f el] = Ok [tp]) →
  od_get tp stack_mapping = Some stack_tp →
  ViewOperation_call type_of issubclass _process (InStack view) =
    Ok (OutStack (mkStack stack_tp (dimensions view) (metadata view) Stack_default_title
                    ((λ kel, (kel.1, f kel.2)) <$> Stack_items view))).
Proof.
  intros Hne Hnd Hall Htp. unfold Stack_items, Stack_keys in *.
  assert (mapped_items_of _process (_data view)
          = Ok ((λ kel, (kel.1, [f kel.2])) <$> _data view)) as Hm.
  { clear Hne Hnd. revert Hall. generalize (_data view).
    induction l as [|[k el] items IH]; intros Hall; [done|].
    cbn [mapped_items_of]. destruct (Hall k el) as [-> _]; [apply list_elem_of_here|].
    cbn [mbind result_bind]. rewrite IH; [done|].
    intros k' el' Hin. apply (Hall k'). by apply list_elem_of_further. }
  unfold ViewOperation_call, Stack_items. rewrite Hm. cbn [mbind result_bind].
  rewrite (_get_signature_same _ _ [tp]).
  - cbn [mbind result_bind stack_types_of]. rewrite Htp.
    cbn [mbind result_bind stack_types_of fmap list_fmap].
    rewrite fill_stacks_spec.
    + cbn [mbind result_bind].
      assert (∀ acc (items : list (K * El)), NoDup (acc.*1 ++ items.*1) →
        foldl fill_step [mkStack stack_tp (dimensions view) (metadata view)
                           Stack_default_title acc]
          ((λ kel, (kel.1, [f kel.2])) <$> items)
        = [mkStack stack_tp (dimensions view) (metadata view) Stack_default_title
             (acc ++ ((λ kel, (kel.1, f kel.2)) <$> items))]) as Hfold.
      { clear. intros acc items. revert acc.
        induction items as [|[k el] items IH]; intros acc Hnd.
        - simpl. by rewrite app_nil_r.
        - rewrite !fmap_cons. cbn [foldl fill_step zip_with fst snd].
          unfold Stack_setitem. cbn [stack_type dimensions metadata title _data].
          rewrite od_set_fresh.
          + rewrite IH; [by rewrite <- app_assoc|].
            rewrite fmap_app, <- app_assoc. exact Hnd.
          + apply NoDup_app in Hnd as (_ & Hdisj & _).
            intros Hin. apply (Hdisj k Hin). apply list_elem_of_here. }
      unfold Stack_new. rewrite (Hfold [] (_data view)) by done. done.
    + apply Forall_fmap, Forall_forall. by intros kel _.
  - destruct (_data view); done.
  - apply Forall_fmap, Forall_fmap, Forall_forall. intros [k el] Hin.
    simpl. by destruct (Hall k el Hin) as [_ ?].
Qed.
End ViewOperation_returns.

Lemma ViewOperation_call_stack_returns_witness :
  ∃ out,
    ViewOperation_call (λ _, Cls.SheetView) issubclass split_process (InStack image_stack)
      = Ok out ∧
    Stack_items image_stack ≠ [] ∧
    ∃ sg, ∀ k el, (k, el) ∈ Stack_items image_stack →
      ∃ views, split_process el = Ok views ∧
               view_signature (λ _, Cls.SheetView) issubclass views = Ok sg.
Proof.
  eexists. split; [vm_compute; reflexivity|].
  edestruct (ViewOperation_call_stack_returns (λ _, Cls.SheetView) issubclass
               split_process image_stack) as [Hne (sg & Hall & _)].
  - vm_compute. reflexivity.
  - split; [exact Hne|]. exists sg. exact Hall.
Defined.

Lemma ViewOperation_call_no_outputs_witness :
  ViewOperation_call type_of issubclass (λ _ : View, Ok [])
    (InView (K:=Key) (VSheetView (image_view 0%Q))) = Raise IndexError ∧
  ViewOperation_call type_of issubclass (λ _ : View, Ok []) (InStack single_stack)
    = Ok (GridLayout_stacks []).
Proof.
  apply (ViewOperation_call_no_outputs type_of issubclass (λ _ : View, Ok [])
           single_stack (VSheetView (image_view 0%Q))).
  - discriminate.
  - reflexivity.
  - reflexivity.
Defined.

Lemma ViewOperation_call_stack_unsupported_witness :
  raises (ViewOperation_call (λ _ : View, Cls.DataGrid) issubclass identity_process
            (InStack single_stack)).
Proof.
  apply (ViewOperation_call_stack_unsupported (λ _ : View, Cls.DataGrid) issubclass
           identity_process single_stack [PInt 0] (VSheetView (image_view 0%Q))
           [VSheetView (image_view 0%Q)] (VSheetView (image_view 0%Q))).
  - apply list_elem_of_here.
  - reflexivity.
  - apply list_elem_of_here.
  - left. apply list_elem_of_further, list_elem_of_here.
Defined.

(** ** Lists built by comprehensions and ordered dictionaries *)

Lemma for_each_Ok {A B} (f : A → result B) (l : list A) (ys : list B) :
  for_each f l = Ok ys → Forall2 (λ x y, f x = Ok y) l ys.
Proof.
  revert ys. induction l as [|x l IH]; intros ys; cbn [for_each].
  - intros [= <-]. constructor.
  - destruct (f x) as [y|] eqn:Hy; cbn [mbind result_bind]; [|done].
    destruct (for_each f l) as [rest|]; cbn [mbind result_bind]; [|done].
    intros [= <-]. constructor; [done|by apply IH].
Qed.

Lemma for_each_fmap {A B} (f : A → result B) (g : A → B) (l : list A) :
  (∀ x, x ∈ l → f x = Ok (g x)) → for_each f l = Ok (g <$> l).
Proof.
  induction l as [|x l IH]; intros Hf; [done|].
  cbn [for_each]. rewrite Hf by apply list_elem_of_here. cbn [mbind result_bind].
  rewrite IH; [done|]. intros y Hy. apply Hf. by apply list_elem_of_further.
Qed.

Lemma od_set_elem {K A} `{EqDecision K} (k k' : K) (v v' : A) (d : list (K * A)) :
  (k, v) ∈ od_set k' v' d → (k, v) = (k', v') ∨ (k, v) ∈ d.
Proof.
  induction d as [|[k0 v0] d IH]; cbn [od_set].
  - intros ->%list_elem_of_singleton. by left.
  - destruct (decide (k' = k0)) as [->|Hne].
    + intros [->|Hin]%elem_of_cons; [by left|]. right. by apply list_elem_of_further.
    + intros [->|Hin]%elem_of_cons; [right; apply list_elem_of_here|].
      destruct (IH Hin) as [?|?]; [by left|]. right. by apply list_elem_of_further.
Qed.

(** The pairs of [OrderedDict(pairs)] are among the pairs given. *)
Lemma od_of_pairs_elem {K A} `{EqDecision K} (pairs : list (K * A)) k v :
  (k, v) ∈ od_of_pairs pairs → (k, v) ∈ pairs.
Proof.
  unfold od_of_pairs.
  enough (∀ acc, (k, v) ∈ foldl (λ d kv, od_set kv.1 kv.2 d) acc pairs →
                 (k, v) ∈ acc ∨ (k, v) ∈ pairs) as Hgen.
  { intros Hin. destruct (Hgen [] Hin) as [Hn|?]; [|done]. by apply elem_of_nil in Hn. }
  induction pairs as [|[k' v'] pairs IH]; intros acc; cbn [foldl].
  - by left.
  - intros Hin. destruct (IH _ Hin) as [Hs|Hp].
    + apply od_set_elem in Hs as [->|?]; [right; apply list_elem_of_here|by left].
    + right. by apply list_elem_of_further.
Qed.

(** The keys of [OrderedDict(pairs)] are the keys given, each at its first
    occurrence. *)
Lemma od_of_pairs_keys {K A} `{EqDecision K} (pairs : list (K * A)) :
  (od_of_pairs pairs).*1 = fromkeys pairs.*1.
Proof.
  unfold fromkeys, od_of_pairs.
  enough (∀ (acc : list (K * A)) (acc' : list (K * unit)), acc.*1 = acc'.*1 →
    (foldl (λ d kv, od_set kv.1 kv.2 d) acc pairs).*1 =
    (foldl (λ d kv, od_set kv.1 kv.2 d) acc' ((λ x, (x, tt)) <$> pairs.*1)).*1) as Hgen
    by (by apply Hgen).
  induction pairs as [|[k v] pairs IH]; intros acc acc' Hacc; [done|].
  rewrite !fmap_cons. cbn [foldl fst snd]. apply IH.
  rewrite !od_set_keys, Hacc. done.
Qed.

(** ** get_views with the empty pattern *)

Lemma substring_empty (n : nat) (s : string) : String.substring n 0 s = "".
Proof. revert n. induction s as [|c s IH]; intros [|n]; simpl; auto. Qed.

Lemma endswith_empty (s : string) : endswith s "" = true.
Proof.
  unfold endswith. simpl. rewrite substring_empty.
  rewrite !bool_decide_true by (done || lia). done.
Qed.

Lemma filter_endswith_empty (l : list View) :
  filter (λ v, endswith (label v) "" = true) l = l.
Proof.
  induction l as [|v l IH]; [done|].
  rewrite filter_cons_True by apply endswith_empty. by rewrite IH.
Qed.

Lemma get_views_SheetView_empty (sv : SheetView) :
  get_views (VSheetView sv) "" Cls.SheetView = Ok [VSheetView sv].
Proof.
  unfold get_views.
  change (isinstance (VSheetView sv) Cls.Overlay) with false.
  change (isinstance (VSheetView sv) Cls.SheetView) with true.
  cbv beta iota. by rewrite endswith_empty.
Qed.

Lemma get_views_SheetOverlay_empty (o : Overlay) (view_type : Cls.t) :
  get_views (VSheetOverlay o) "" view_type =
    Ok (filter (λ m, isinstance m view_type = true) (ov_data o)).
Proof.
  unfold get_views.
  change (isinstance (VSheetOverlay o) Cls.Overlay) with true.
  cbv beta iota. by rewrite filter_endswith_empty.
Qed.

(** X4: with the empty pattern every label matches, so [get_views] selects
    by type alone: from an overlay it returns the layers of the requested
    type, all of them and in the overlay's order, and from a SheetView the
    view itself if it is of that type. *)
Theorem get_views_empty_pattern (view : View) (view_type : Cls.t) :
  isinstance view Cls.Overlay = true ∨ isinstance view Cls.SheetView = true →
  get_views view "" view_type =
    Ok (filter (λ m, isinstance m view_type = true)
          (if isinstance view Cls.Overlay then overlay_data view else [view])).
Proof.
  intros Hkind. unfold get_views.
  destruct (isinstance view Cls.Overlay).
  - by rewrite filter_endswith_empty.
  - destruct Hkind as [Hk | Hk]; [done|]. rewrite Hk. by rewrite endswith_empty.
Qed.

Lemma get_views_empty_pattern_witness :
  get_views (VSheetOverlay overlay_three_layers) "" Cls.SheetView
    = Ok (ov_data overlay_three_layers).
Proof.
  rewrite (get_views_empty_pattern (VSheetOverlay overlay_three_layers) Cls.SheetView).
  - reflexivity.
  - left. reflexivity.
Defined.

(** ** sample: which views it accepts and what it returns *)

(** The sub-table [sample] builds from a table. *)
Definition sampled_table (samples : list pyval) (t : Table) : Table :=
  Table_new (filter (λ kv, kv.1 ∈ samples) (tb_data t)) (tb_label t) (tb_metadata t).

Lemma filter_samples_keys (l : list pyval) (d : list (pyval * pyval)) :
  (filter (λ kv : pyval * pyval, kv.1 ∈ l) d).*1 = filter (λ k, k ∈ l) d.*1.
Proof.
  induction d as [|[k v] d IH]; [done|].
  rewrite fmap_cons, !filter_cons. simpl.
  destruct (decide (k ∈ l)); [rewrite fmap_cons|]; by rewrite IH.
Qed.

Lemma sampled_table_nodup (samples : list pyval) (t : Table) :
  NoDup (tb_data t).*1 → NoDup (tb_data (sampled_table samples t)).*1.
Proof.
  intros Hnd. unfold sampled_table. simpl.
  rewrite filter_samples_keys. by apply NoDup_filter.
Qed.

Lemma sample_process_Table sheet2matrixidx (samples : list pyval) (t : Table) :
  NoDup (tb_data t).*1 →
  sample_process sheet2matrixidx samples (VTable t) = Ok [VTable (sampled_table samples t)].
Proof.
  intros Hnd. unfold sample_process.
  change (isinstance (VTable t) Cls.SheetLayer) with false.
  change (isinstance (VTable t) Cls.Table) with true.
  cbv beta iota delta [negb orb]. cbn [as_Table mbind result_bind].
  rewrite od_of_pairs_nodup; [done|]. by apply (sampled_table_nodup samples).
Qed.

Section sample_properties.
Variable sheet2matrixidx : SheetView → Q → Q → Z * Z.
Variable samples : list pyval.

Local Ltac destruct_for_each l ys :=
  match goal with
  | |- context [for_each ?f l] => destruct (for_each f l) as [ys|]
  end.

Lemma isinstance_SheetView_inv (v : View) :
  isinstance v Cls.SheetView = true → ∃ sv, v = VSheetView sv.
Proof. destruct v; try discriminate. by eexists. Qed.

(** X5: [sample] returns only for a Table, for a SheetView, or for an
    overlay with exactly one SheetView among its layers, and what it returns
    is always a single Table.  In particular it never returns for a Contours
    layer, although that is a SheetLayer. *)
Theorem sample_process_returns (view : View) out :
  sample_process sheet2matrixidx samples view = Ok out →
  (∃ t', out = [VTable t']) ∧
  ((∃ t, view = VTable t) ∨
   (∃ sv, view = VSheetView sv) ∨
   (∃ o sv, view = VSheetOverlay o ∧
            filter (λ m, isinstance m Cls.SheetView = true) (ov_data o) = [VSheetView sv])).
Proof.
  destruct view as [sv|c|o|t|c|curves]; try discriminate.
  - unfold sample_process.
    change (isinstance (VSheetView sv) Cls.SheetLayer) with true.
    change (isinstance (VSheetView sv) Cls.Table) with false.
    cbv beta iota delta [negb orb].
    rewrite get_views_SheetView_empty.
    cbn [mbind result_bind length lookup list_lookup as_SheetView].
    rewrite bool_decide_false by (intros Hn; by apply Hn).
    destruct_for_each samples sample_inds; cbn [mbind result_bind]; [|done].
    destruct_for_each sample_inds data; cbn [mbind result_bind]; [|done].
    intros [= <-]. split; [by eexists|]. right. left. by eexists.
  - unfold sample_process.
    change (isinstance (VSheetOverlay o) Cls.SheetLayer) with true.
    change (isinstance (VSheetOverlay o) Cls.Table) with false.
    cbv beta iota delta [negb orb].
    rewrite get_views_SheetOverlay_empty. cbn [mbind result_bind].
    destruct (filter _ (ov_data o)) as [|m [|m' l]] eqn:Hf;
      [by rewrite bool_decide_true by done| |by rewrite bool_decide_true by done].
    pose proof (list_elem_of_here m []) as Hm. rewrite <- Hf in Hm.
    apply list_elem_of_filter in Hm as [[sv ->]%isinstance_SheetView_inv _].
    rewrite bool_decide_false by (intros Hn; by apply Hn).
    cbn [mbind result_bind length lookup list_lookup as_SheetView].
    destruct_for_each samples sample_inds; cbn [mbind result_bind]; [|done].
    destruct_for_each sample_inds data; cbn [mbind result_bind]; [|done].
    intros [= <-]. split; [by eexists|]. right. right. by exists o, sv.
  - unfold sample_process.
    change (isinstance (VTable t) Cls.SheetLayer) with false.
    change (isinstance (VTable t) Cls.Table) with true.
    cbv beta iota delta [negb orb]. cbn [as_Table mbind result_bind]. intros [= <-].
    split; [by eexists|]. left. by eexists.
Qed.

(** X6: on a Contours layer [sample] passes its own type test, a Contours
    being a SheetLayer, and then fails in [get_views] with
    UnboundLocalError; on a Curve or an overlay of curves it raises its own
    exception. *)
Theorem sample_process_not_sampled (c : Contours) (cv : Curve) (curves : list Curve) :
  sample_process sheet2matrixidx samples (VContours c) = Raise UnboundLocalError ∧
  sample_process sheet2matrixidx samples (VCurve cv)
    = Raise (Exception "sample_sheet can only sample SheetLayers.") ∧
  sample_process sheet2matrixidx samples (VDataOverlay curves)
    = Raise (Exception "sample_sheet can only sample SheetLayers.").
Proof. repeat split. Qed.

(** X7: sampling a SheetView at sheet coordinates that all fall inside the
    array returns a Table with the view's label and metadata, whose keys are
    the requested coordinates without repetitions, in the order of their
    first occurrence, and whose value at each coordinate is the array entry
    at the matrix index of that coordinate. *)
Theorem sample_SheetView (sv : SheetView) :
  Forall (λ s, ∃ x y v, s = PCoord x y ∧
                        ndarray_getitem (sv_data sv) (sheet2matrixidx sv x y) = Ok v)
    samples →
  ∃ t,
    sample_process sheet2matrixidx samples (VSheetView sv) = Ok [VTable t] ∧
    tb_label t = sv_label sv ∧
    tb_metadata t = sv_metadata sv ∧
    (tb_data t).*1 = fromkeys samples ∧
    ∀ s v, (s, v) ∈ tb_data t →
      s ∈ samples ∧
      ∃ x y, s = PCoord x y ∧
             ndarray_getitem (sv_data sv) (sheet2matrixidx sv x y) = Ok v.
Proof.
  intros Hall.
  set (index_of_sample := λ s : pyval,
         match s with
         | PCoord x y => Ok (s, sheet2matrixidx sv x y)
         | _ => Raise TypeError
         end).
  set (idx := λ s : pyval, match s with
                           | PCoord x y => sheet2matrixidx sv x y
                           | _ => (0, 0)%Z
                           end).
  assert (for_each index_of_sample samples = Ok ((λ s, (s, idx s)) <$> samples)) as Hinds.
  { apply for_each_fmap. intros s Hs. rewrite Forall_forall in Hall.
    destruct (Hall s Hs) as (x & y & v & -> & _). done. }
  destruct (for_each_total
              (λ si : pyval * (Z * Z), v ← ndarray_getitem (sv_data sv) si.2; Ok (si.1, v))
              ((λ s, (s, idx s)) <$> samples)) as [data Hdata].
  { apply Forall_fmap. eapply Forall_impl; [exact Hall|].
    intros s (x & y & v & -> & Hv). simpl. rewrite Hv. by eexists. }
  pose proof (for_each_Ok _ _ _ Hdata) as Hrel.
  assert (data.*1 = samples) as Hkeys.
  { clear -Hrel. apply Forall2_fmap_l in Hrel.
    induction Hrel as [|s [s' v] l d Hs _ IH]; [done|].
    rewrite fmap_cons. f_equal; [|exact IH]. simpl in *.
    destruct (ndarray_getitem _ _); simpl in Hs; [|done]. by injection Hs as -> _. }
  exists (Table_new (od_of_pairs data) (sv_label sv) (sv_metadata sv)).
  split; [|split; [done|split; [done|split]]].
  - unfold sample_process.
    change (isinstance (VSheetView sv) Cls.SheetLayer) with true.
    change (isinstance (VSheetView sv) Cls.Table) with false.
    cbv beta iota delta [negb orb].
    rewrite get_views_SheetView_empty.
    cbn [mbind result_bind length lookup list_lookup as_SheetView].
    rewrite bool_decide_false by (intros Hn; by apply Hn).
    fold index_of_sample. rewrite Hinds. cbn [mbind result_bind].
    rewrite Hdata. done.
  - simpl. by rewrite od_of_pairs_keys, Hkeys.
  - intros s v Hin. simpl in Hin. apply od_of_pairs_elem in Hin.
    apply list_elem_of_lookup in Hin as [j Hj].
    destruct (Forall2_lookup_r _ _ _ _ _ Hrel Hj) as ([s' ix] & Hj' & Hv).
    apply list_lookup_fmap_Some in Hj' as (s0 & Heq & Hs0).
    injection Heq as -> ->. simpl in Hv.
    destruct (ndarray_getitem (sv_data sv) (idx s0)) as [v'|] eqn:Hg; simpl in Hv; [|done].
    injection Hv as -> ->.
    split; [by eapply list_elem_of_lookup_2|].
    rewrite Forall_lookup in Hall. destruct (Hall _ _ Hs0) as (x & y & _ & -> & _).
    by exists x, y.
Qed.

(** X8: sampling a table twice, first at one list of headings and then at
    another, gives the entries whose heading is in both lists, whichever
    list comes first; sampling again at the same list changes nothing. *)
Theorem sample_Table_twice (samples' : list pyval) (t : Table) :
  NoDup (tb_data t).*1 →
  ∃ t1 t2 t12,
    sample_process sheet2matrixidx samples (VTable t) = Ok [VTable t1] ∧
    sample_process sheet2matrixidx samples' (VTable t) = Ok [VTable t2] ∧
    sample_process sheet2matrixidx samples' (VTable t1) = Ok [VTable t12] ∧
    sample_process sheet2matrixidx samples (VTable t2) = Ok [VTable t12] ∧
    tb_data t12 = filter (λ kv, kv.1 ∈ samples ∧ kv.1 ∈ samples') (tb_data t) ∧
    sample_process sheet2matrixidx samples (VTable t1) = Ok [VTable t1].
Proof.
  intros Hnd.
  pose proof (λ l, sampled_table_nodup l t Hnd) as Hnd'.
  exists (sampled_table samples t), (sampled_table samples' t),
    (sampled_table samples' (sampled_table samples t)).
  rewrite !sample_process_Table by auto.
  split; [done|]. split; [done|]. split; [done|]. split; [|split].
  - do 3 f_equal. unfold sampled_table, Table_new. simpl. f_equal.
    rewrite !list_filter_filter. apply list_filter_iff. intros kv. tauto.
  - unfold sampled_table, Table_new. simpl. rewrite list_filter_filter.
    apply list_filter_iff. intros kv. tauto.
  - do 3 f_equal. unfold sampled_table, Table_new. simpl. f_equal.
    apply list_filter_filter_r. by intros kv.
Qed.

(** The single view [sample] returns for a table entry of a stack. *)
Definition sampled_entry (samples : list pyval) (v : View) : View :=
  match v with
  | VTable t => VTable (sampled_table samples t)
  | _ => v
  end.

(** X9: sampling a stack of tables returns a TableStack with the input's
    dimensions, metadata and keys, in the input's order, holding under each
    key the sub-table of the table under that key; the title of the input
    stack is not passed on. *)
Theorem sample_call_TableStack (stack : Stack Key View) :
  Stack_items stack ≠ [] →
  NoDup (Stack_keys stack) →
  (∀ k v, (k, v) ∈ Stack_items stack → ∃ t, v = VTable t ∧ NoDup (tb_data t).*1) →
  sample_call sheet2matrixidx samples (InStack stack) =
    Ok (OutStack
          (mkStack Cls.TableStack (dimensions stack) (metadata stack) Stack_default_title
             ((λ kv, (kv.1, sampled_entry samples kv.2)) <$> Stack_items stack))).
Proof.
  intros Hne Hnd Hall. unfold sample_call.
  apply (ViewOperation_call_single_output type_of issubclass
           (sample_process sheet2matrixidx samples) stack (sampled_entry samples)
           Cls.Table); [done|done| |done].
  intros k v Hin. destruct (Hall k v Hin) as (t & -> & Ht).
  split; [by apply sample_process_Table|reflexivity].
Qed.
End sample_properties.

Lemma sample_process_returns_witness :
  ∃ t',
    sample_process (λ _ _ _, (0, 0)%Z) [PStr "a"]
      (VTable (mkTable [(PStr "a", PInt 1); (PStr "b", PInt 2)] "T" []))
    = Ok [VTable t'].
Proof.
  edestruct (sample_process_returns (λ _ _ _, (0, 0)%Z) [PStr "a"]
               (VTable (mkTable [(PStr "a", PInt 1); (PStr "b", PInt 2)] "T" [])))
    as [[t' Ht'] _].
  - reflexivity.
  - exists t'. by rewrite <- Ht'.
Defined.

Lemma sample_SheetView_witness :
  ∃ t,
    sample_process (λ _ x y, (Qnum x, Qnum y)) [PCoord 1 0; PCoord 0 1; PCoord 1 0]
      (VSheetView (SheetView_new (mkArr [2; 2]%nat [1; 2; 3; 4]%Q) (mkBounds 0 0 2 2)
                     "activity" None))
    = Ok [VTable t] ∧
    tb_label t = "activity" ∧
    (tb_data t).*1 = [PCoord 1 0; PCoord 0 1].
Proof.
  destruct (sample_SheetView (λ _ x y, (Qnum x, Qnum y))
              [PCoord 1 0; PCoord 0 1; PCoord 1 0]
              (SheetView_new (mkArr [2; 2]%nat [1; 2; 3; 4]%Q) (mkBounds 0 0 2 2)
                 "activity" None))
    as (t & Ht & Hl & _ & Hk & _).
  - repeat constructor; do 3 eexists; (split; [reflexivity|]); vm_compute; reflexivity.
  - exists t. split; [exact Ht|]. split; [exact Hl|]. rewrite Hk. reflexivity.
Defined.

Lemma sample_Table_twice_witness :
  ∃ t12,
    sample_process (λ _ _ _, (0, 0)%Z) [PStr "b"; PStr "a"]
      (VTable (sampled_table [PStr "a"; PStr "c"]
                 (mkTable [(PStr "a", PInt 1); (PStr "b", PInt 2); (PStr "c", PInt 3)]
                    "T" [])))
    = Ok [VTable t12] ∧
    tb_data t12 = [(PStr "a", PInt 1)].
Proof.
  destruct (sample_Table_twice (λ _ _ _, (0, 0)%Z) [PStr "a"; PStr "c"] [PStr "b"; PStr "a"]
              (mkTable [(PStr "a", PInt 1); (PStr "b", PInt 2); (PStr "c", PInt 3)] "T" []))
    as (t1 & t2 & t12 & H1 & _ & H12 & _ & Hd & _).
  - apply (bool_decide_unpack _). vm_compute. exact I.
  - exists t12. split.
    + rewrite <- H12. rewrite sample_process_Table in H1.
      * by injection H1 as <-.
      * apply (bool_decide_unpack _). vm_compute. exact I.
    + rewrite Hd. reflexivity.
Defined.

Lemma sample_call_TableStack_witness :
  ∃ sampled,
    sample_call (λ _ _ _, (0, 0)%Z) [PStr "temp"] (InStack weather_stack)
      = Ok (OutStack sampled) ∧
    stack_type sampled = Cls.TableStack ∧
    Stack_keys sampled = Stack_keys weather_stack.
Proof.
  eexists. split.
  - apply (sample_call_TableStack (λ _ _ _, (0, 0)%Z) [PStr "temp"] weather_stack).
    + discriminate.
    + apply (bool_decide_unpack _). vm_compute. exact I.
    + intros k v Hin. unfold Stack_items in Hin. simpl in Hin.
      rewrite !elem_of_cons, elem_of_nil in Hin.
      destruct Hin as [[= _ ->]|[[= _ ->]|[[= _ ->]|[[= _ ->]|[]]]]];
        eexists; (split; [reflexivity|]);
        apply (bool_decide_unpack _); vm_compute; exact I.
  - split; reflexivity.
Defined.

(** ** RGBA: what is stacked and what is logged *)

#[global] Instance Qle_decision (x y : Q) : Decision (x <= y)%Q :=
  match Qlt_le_dec y x with
  | left Hlt => right (Qlt_not_le _ _ Hlt)
  | right Hle => left Hle
  end.

#[global] Instance in_unit_interval_dec (x : Q) : Decision (in_unit_interval x).
Proof. unfold in_unit_interval. apply _. Defined.









(** *** Layers of different sizes *)

Lemma out_of_range_raises (a : ndarray) e :
  out_of_range a = Raise e → e = ValueError.
Proof.
  unfold out_of_range, ndarray_max, ndarray_min.
  destruct (flat a); cbn [mbind result_bind]; [by intros [= <-]|].
  by destruct (Qltb _ _).
Qed.

Lemma RGBA_loop_SheetViews (svs : list SheetView) : ∀ arrays log,
  (RGBA_loop (VSheetView <$> svs) arrays log).1 = Ok (arrays ++ (sv_data <$> svs)) ∨
  (RGBA_loop (VSheetView <$> svs) arrays log).1 = Raise ValueError.
Proof.
  induction svs as [|sv svs IH]; intros arrays log.
  - left. simpl. by rewrite app_nil_r.
  - rewrite !fmap_cons. cbn [RGBA_loop as_SheetView].
    replace (arrays ++ sv_data sv :: (sv_data <$> svs))
      with ((arrays ++ [sv_data sv]) ++ (sv_data <$> svs)) by (by rewrite <- app_assoc).
    destruct (out_of_range (sv_data sv)) as [[|]|e] eqn:Ho.
    + apply IH.
    + apply IH.
    + right. simpl. by rewrite (out_of_range_raises _ _ Ho).
Qed.

Lemma concatenate_axis2_raises (arrays : list ndarray) e :
  concatenate_axis2 arrays = Raise e → e = ValueError.
Proof.
  unfold concatenate_axis2. destruct arrays as [|a0 rest]; [by intros [= <-]|].
  destruct (shape a0) as [|m [|n [|d trailing]]]; try by intros [= <-].
  destruct (forallb _ _); [done|by intros [= <-]].
Qed.

Lemma concatenate_axis2_Ok_inv (arrays : list ndarray) r :
  concatenate_axis2 arrays = Ok r →
  ∃ m n, Forall (λ a, take 2 (shape a) = [m; n]) arrays.
Proof.
  unfold concatenate_axis2. destruct arrays as [|a0 rest]; [done|].
  destruct (shape a0) as [|m [|n [|d trailing]]]; try done.
  destruct (forallb _ _) eqn:Hall; [|done]. intros _. exists m, n.
  apply Forall_forall. intros a Hin. apply list_elem_of_In in Hin.
  rewrite forallb_forall in Hall. specialize (Hall a Hin).
  by apply bool_decide_eq_true in Hall as (? & _).
Qed.

Lemma atleast_3d_take_2 (sv : SheetView) d :
  sv_depth sv = Ok d →
  take 2 (shape (atleast_3d (sv_data sv))) = take 2 (sv_shape sv).
Proof.
  unfold sv_depth, sv_shape, atleast_3d.
  destruct (shape (sv_data sv)) as [|m [|n [|d' [|? ?]]]] eqn:Hs; try done.
  intros _. by rewrite Hs.
Qed.

(** X11: RGBA does not compare the sizes of its layers itself: when two of
    the single-channel layers differ in their number of rows or columns,
    the call fails with the ValueError of the array library. *)
Theorem RGBA_process_size_mismatch (svs : list SheetView) bounds roi_bounds lbl
    i j svi svj :
  length svs ∈ [3; 4]%nat →
  Forall (λ sv, sv_depth sv = Ok 1%nat) svs →
  svs !! i = Some svi → svs !! j = Some svj →
  take 2 (sv_shape svi) ≠ take 2 (sv_shape svj) →
  (RGBA_process (mkOverlay (VSheetView <$> svs) bounds roi_bounds lbl)).1
    = Raise ValueError.
Proof.
  intros Hlen Hdepth Hi Hj Hne. unfold RGBA_process. cbn [ov_data ov_bounds ov_roi_bounds].
  rewrite length_fmap, bool_decide_true by done. cbn [negb].
  rewrite forallb_isinstance_SheetView. cbn [negb].
  rewrite all_of_depth_one by done.
  pose proof (RGBA_loop_SheetViews svs [] []) as Hloop.
  destruct (RGBA_loop (VSheetView <$> svs) [] []) as [arrays log].
  cbn [fst] in *. destruct Hloop as [-> | ->]; [|done].
  cbn [mbind result_bind app].
  destruct (np_dstack (sv_data <$> svs)) as [rgba|e] eqn:Hst; cbn [mbind result_bind].
  - exfalso. unfold np_dstack in Hst.
    apply concatenate_axis2_Ok_inv in Hst as (m & n & Hall).
    rewrite <- list_fmap_compose in Hall. apply Forall_fmap in Hall.
    rewrite Forall_lookup in Hall, Hdepth.
    pose proof (Hall i svi Hi) as Hsi. pose proof (Hall j svj Hj) as Hsj.
    simpl in Hsi, Hsj.
    rewrite (atleast_3d_take_2 _ _ (Hdepth i svi Hi)) in Hsi.
    rewrite (atleast_3d_take_2 _ _ (Hdepth j svj Hj)) in Hsj.
    congruence.
  - f_equal. by eapply concatenate_axis2_raises.
Qed.


Lemma RGBA_process_size_mismatch_witness :
  let small := SheetView_new (mkArr [1; 1]%nat [0%Q]) (mkBounds 0 0 1 1) "" None in
  let tall := SheetView_new (mkArr [2; 1]%nat [0; 0]%Q) (mkBounds 0 0 1 1) "" None in
  (RGBA_process (mkOverlay (VSheetView <$> [small; small; tall]) (mkBounds 0 0 1 1) None "")).1
    = Raise ValueError.
Proof.
  intros small tall.
  apply (RGBA_process_size_mismatch [small; small; tall] (mkBounds 0 0 1 1) None ""
           0%nat 2%nat small tall).
  - apply list_elem_of_here.
  - repeat constructor.
  - reflexivity.
  - reflexivity.
  - discriminate.
Defined.

(** *** RGBA followed by split *)

Lemma lookup_concat_uniform {A} (d : nat) (ls : list (list A)) : ∀ p l i,
  Forall (λ l, length l = d) ls → ls !! p = Some l → (i < d)%nat →
  concat ls !! (p * d + i)%nat = l !! i.
Proof.
  induction ls as [|l0 ls IH]; intros p l i Hall Hp Hi; [done|].
  apply Forall_cons in Hall as [Hl0 Hall]. destruct p as [|p]; simpl in *.
  - injection Hp as ->. by rewrite lookup_app_l by lia.
  - rewrite lookup_app_r by lia. rewrite Hl0.
    replace (d + p * d + i - d)%nat with (p * d + i)%nat by lia. by apply IH.
Qed.

Lemma length_concat_uniform {A} (d : nat) (ls : list (list A)) :
  Forall (λ l, length l = d) ls → length (concat ls) = (length ls * d)%nat.
Proof.
  induction 1 as [|l ls Hl _ IH]; [done|].
  simpl. rewrite length_app, IH, Hl. done.
Qed.

Lemma elems_seq (l : list Q) : (λ p, elem l p) <$> seq 0 (length l) = l.
Proof.
  pose proof (take_drop_elems l (length l) 0) as Ht.
  rewrite drop_0, take_ge in Ht by lia. symmetry. by apply Ht.
Qed.

(** Stacking two-dimensional arrays of one shape: channel [i] of the stack
    is the [i]-th array. *)
Lemma np_dstack_layers (arrays : list ndarray) (m n : nat) :
  arrays ≠ [] →
  Forall (λ a, shape a = [m; n] ∧ wf_array a) arrays →
  ∃ L, np_dstack arrays = Ok (mkArr [m; n; length arrays] L) ∧
       length L = (m * n * length arrays)%nat ∧
       ∀ i a, arrays !! i = Some a → channel_of m n (length arrays) L i = a.
Proof.
  intros Hne Hall.
  set (row := λ p : nat, (λ a : ndarray, elem (flat a) p) <$> arrays).
  exists (concat (row <$> seq 0 (m * n))).
  assert (Forall (λ l : list Q, length l = length arrays) (row <$> seq 0 (m * n))) as Hrows.
  { apply Forall_fmap, Forall_forall. intros p _. simpl. unfold row. by rewrite length_fmap. }
  split; [|split].
  - unfold np_dstack. rewrite (concatenate_axis2_unit _ m n).
    + rewrite length_fmap. do 3 f_equal.
      apply list_fmap_ext. intros j p Hp. apply lookup_seq in Hp as [-> Hp]. simpl in Hp |- *.
      rewrite <- list_fmap_compose. apply concat_singletons.
      intros a Ha. simpl. rewrite Forall_forall in Hall.
      destruct (Hall a Ha) as [Hs Hwf]. unfold wf_array in Hwf. rewrite Hs in Hwf.
      simpl in Hwf. unfold atleast_3d. rewrite Hs. simpl.
      apply take_1_drop. lia.
    + by destruct arrays.
    + apply Forall_fmap. eapply Forall_impl; [exact Hall|].
      intros a [Hs _]. simpl. unfold atleast_3d. by rewrite Hs.
  - rewrite (length_concat_uniform (length arrays)) by done.
    by rewrite length_fmap, length_seq.
  - intros i a Hi. rewrite Forall_lookup in Hall. destruct (Hall i a Hi) as [Hs Hwf].
    unfold wf_array in Hwf. rewrite Hs in Hwf. simpl in Hwf.
    unfold channel_of. destruct a as [sh fl]. simpl in *. subst sh. f_equal.
    replace (m * n)%nat with (length fl) by lia.
    etrans; [|apply elems_seq].
    apply list_fmap_ext. intros j p Hp. apply lookup_seq in Hp as [-> Hp]. simpl in Hp |- *.
    unfold elem at 1.
    rewrite (lookup_concat_uniform (length arrays) _ j (row j)).
    + unfold row. rewrite list_lookup_fmap, Hi. done.
    + replace (length fl) with (m * n)%nat by lia. done.
    + rewrite list_lookup_fmap, lookup_seq_lt by lia. done.
    + by eapply lookup_lt_Some.
Qed.

Lemma out_of_range_nonempty (a : ndarray) :
  flat a ≠ [] → ∃ b, out_of_range a = Ok b.
Proof.
  unfold out_of_range, ndarray_max, ndarray_min.
  destruct (flat a) as [|x xs]; [done|]. intros _. cbn [mbind result_bind].
  destruct (Qltb _ _); by eexists.
Qed.

Lemma RGBA_loop_nonempty (svs : list SheetView) : ∀ arrays log,
  Forall (λ sv, flat (sv_data sv) ≠ []) svs →
  ∃ log', RGBA_loop (VSheetView <$> svs) arrays log
          = (Ok (arrays ++ (sv_data <$> svs)), log').
Proof.
  induction svs as [|sv svs IH]; intros arrays log Hall.
  - exists log. simpl. by rewrite app_nil_r.
  - apply Forall_cons in Hall as [Hsv Hall].
    rewrite !fmap_cons. cbn [RGBA_loop as_SheetView].
    replace (arrays ++ sv_data sv :: (sv_data <$> svs))
      with ((arrays ++ [sv_data sv]) ++ (sv_data <$> svs)) by (by rewrite <- app_assoc).
    destruct (out_of_range_nonempty _ Hsv) as [[|] ->]; by apply IH.
Qed.

(** X12: composing three or four single-channel layers of one size with
    RGBA and splitting the result returns channels that hold the layers'
    arrays, one for one and in order, whatever the values are; each channel
    has the bounds of the overlay. *)
Theorem RGBA_split_roundtrip (svs : list SheetView) (m n : nat) bounds roi_bounds lbl :
  length svs ∈ [3; 4]%nat →
  (0 < m * n)%nat →
  Forall (λ sv, shape (sv_data sv) = [m; n] ∧ wf_array (sv_data sv)) svs →
  ∃ rgba log channels,
    RGBA_process (mkOverlay (VSheetView <$> svs) bounds roi_bounds lbl)
      = (Ok [rgba], log) ∧
    split_process rgba = Ok channels ∧
    sv_data <$> channels = sv_data <$> svs ∧
    Forall (λ c, sv_bounds c = bounds) channels.
Proof.
  intros Hlen Hmn Hall.
  assert (Forall (λ sv, sv_depth sv = Ok 1%nat) svs) as Hdepth.
  { eapply Forall_impl; [exact Hall|]. intros sv [Hs _]. unfold sv_depth. by rewrite Hs. }
  assert (Forall (λ sv, flat (sv_data sv) ≠ []) svs) as Hflat.
  { eapply Forall_impl; [exact Hall|]. intros sv [Hs Hwf] Hnil.
    unfold wf_array in Hwf. rewrite Hs, Hnil in Hwf. simpl in Hwf. lia. }
  destruct (RGBA_loop_nonempty svs [] [] Hflat) as [log Hloop].
  destruct (np_dstack_layers (sv_data <$> svs) m n) as (L & Hst & HL & Hch).
  { destruct svs; [|done]. simpl in Hlen.
    rewrite !elem_of_cons, elem_of_nil in Hlen. by destruct Hlen as [?|[?|[]]]. }
  { by apply Forall_fmap. }
  rewrite length_fmap in Hst, HL, Hch.
  set (rgba := SheetView_new (mkArr [m; n; length svs] L) bounds "RGBA" roi_bounds).
  assert (∃ mode, sv_mode rgba = Ok mode ∧ mode ∈ ["rgb"; "rgba"]) as (mode & Hmode & Hin).
  { unfold sv_mode, sv_depth. simpl.
    rewrite !elem_of_cons, elem_of_nil in Hlen. destruct Hlen as [->|[->|[]]].
    - exists "rgb". split; [done|apply list_elem_of_here].
    - exists "rgba". split; [done|]. apply list_elem_of_further, list_elem_of_here. }
  exists rgba, log, (split_views rgba m n (length svs)).
  split; [|split; [|split]].
  - unfold RGBA_process. cbn [ov_data ov_bounds ov_roi_bounds].
    rewrite length_fmap, bool_decide_true by done. cbn [negb].
    rewrite forallb_isinstance_SheetView. cbn [negb].
    rewrite all_of_depth_one by done.
    rewrite Hloop. cbn [mbind result_bind app]. rewrite Hst. done.
  - apply (split_process_channels rgba mode); [done|done|done|].
    unfold wf_array. simpl. lia.
  - unfold split_views. rewrite <- list_fmap_compose.
    apply list_eq. intros i. rewrite !list_lookup_fmap.
    destruct (svs !! i) as [sv|] eqn:Hi.
    + rewrite lookup_seq_lt by (by eapply lookup_lt_Some). simpl. f_equal.
      apply Hch. by rewrite list_lookup_fmap, Hi.
    + rewrite lookup_seq_ge; [done|]. by apply lookup_ge_None.
  - unfold split_views. apply Forall_fmap, Forall_forall. by intros i _.
Qed.

Lemma RGBA_split_roundtrip_witness :
  let layer q := SheetView_new (mkArr [1; 2]%nat [q; 5%Q]) (mkBounds 0 0 1 1) "" None in
  ∃ rgba log channels,
    RGBA_process (mkOverlay (VSheetView <$> [layer 2%Q; layer (-1)%Q; layer 0%Q])
                    (mkBounds 0 0 1 1) None "") = (Ok [rgba], log) ∧
    split_process rgba = Ok channels ∧
    sv_data <$> channels = sv_data <$> [layer 2%Q; layer (-1)%Q; layer 0%Q].
Proof.
  intros layer.
  destruct (RGBA_split_roundtrip [layer 2%Q; layer (-1)%Q; layer 0%Q] 1 2
              (mkBounds 0 0 1 1) None "") as (rgba & log & channels & H1 & H2 & H3 & _).
  - apply list_elem_of_here.
  - simpl. lia.
  - repeat constructor.
  - by exists rgba, log, channels.
Defined.

(** ** split: which views it accepts and what the channels are *)


Lemma for_range_total {A} (f : nat → result A) (n : nat) : ∀ i0,
  (∀ i, (i0 ≤ i < i0 + n)%nat → ∃ x, f i = Ok x) →
  ∃ l, for_range f i0 n = Ok l.
Proof.
  induction n as [|n IH]; intros i0 Hf; cbn [for_range]; [by eexists|].
  destruct (Hf i0) as [x ->]; [lia|]. cbn [mbind result_bind].
  destruct (IH (S i0)) as [l ->]; [intros i Hi; apply Hf; lia|]. by eexists.
Qed.

Lemma split_process_Ok_shape (sheetview : SheetView) channels :
  split_process sheetview = Ok channels →
  ∃ m n d, shape (sv_data sheetview) = [m; n; d] ∧ d ∈ [3; 4]%nat ∧
           sv_depth sheetview = Ok d.
Proof.
  unfold split_process.
  destruct (sv_mode sheetview) as [mode|] eqn:Hmode; cbn [mbind result_bind]; [|done].
  case_bool_decide as Hin; cbn [negb]; [|done]. intros _.
  destruct (sv_mode_channels _ _ Hmode Hin) as (m & n & d & Hs & Hd & Hcase).
  exists m, n, d. split; [done|]. split; [|done].
  rewrite !elem_of_cons. destruct Hcase as [[_ ->]|[_ ->]]; auto.
Qed.

(** X13: among the views whose array has at most three dimensions, split
    returns exactly for those whose array is three-dimensional with three or
    four channels. *)
Theorem split_process_returns_iff (sheetview : SheetView) :
  (length (shape (sv_data sheetview)) ≤ 3)%nat →
  (∃ channels, split_process sheetview = Ok channels) ↔
  (∃ m n d, shape (sv_data sheetview) = [m; n; d] ∧ d ∈ [3; 4]%nat).
Proof.
  intros _. split.
  - intros [channels (m & n & d & Hs & Hd & _)%split_process_Ok_shape]. by exists m, n, d.
  - intros (m & n & d & Hs & Hd).
    assert (∃ mode, sv_mode sheetview = Ok mode ∧ mode ∈ ["rgb"; "rgba"] ∧
                    sv_depth sheetview = Ok d) as (mode & Hmode & Hin & Hdepth).
    { unfold sv_mode, sv_depth. rewrite Hs. simpl.
      rewrite !elem_of_cons, elem_of_nil in Hd. destruct Hd as [->|[->|[]]].
      - exists "rgb". split; [done|]. split; [apply list_elem_of_here|done].
      - exists "rgba". split; [done|].
        split; [apply list_elem_of_further, list_elem_of_here|done]. }
    unfold split_process. rewrite Hmode. cbn [mbind result_bind].
    rewrite bool_decide_true by done. cbn [negb]. rewrite Hdepth. cbn [mbind result_bind].
    apply for_range_total. intros i Hi.
    unfold ndarray_channel. rewrite Hs. rewrite bool_decide_true by lia.
    cbn [mbind result_bind].
    assert (i < 4)%nat as Hi4.
    { rewrite !elem_of_cons, elem_of_nil in Hd. destruct Hd as [->|[->|[]]]; lia. }
    destruct i as [|[|[|[|i]]]]; [by eexists..|lia].
Qed.


Lemma split_process_returns_iff_witness :
  ∃ channels, split_process (image_view 1%Q) = Ok channels.
Proof.
  apply (split_process_returns_iff (image_view 1%Q)).
  - simpl. lia.
  - exists 1%nat, 1%nat, 3%nat. split; [reflexivity|apply list_elem_of_here].
Defined.


(** ** HCS and Colorize: layers, shapes and labels *)

Lemma Qclip_idemp (x : Q) :
  Qminb (Qmaxb (Qminb (Qmaxb x 0) 1) 0) 1 = Qminb (Qmaxb x 0) 1.
Proof.
  unfold Qmaxb, Qminb.
  destruct (Qle_bool x 0) eqn:Hx0; [reflexivity|].
  destruct (Qle_bool x 1) eqn:Hx1; [|reflexivity].
  by rewrite Hx0, Hx1.
Qed.

(** Clipping twice is clipping once. *)
Lemma ndarray_clip_idemp (a : ndarray) :
  ndarray_clip 0 1 (ndarray_clip 0 1 a) = ndarray_clip 0 1 a.
Proof.
  unfold ndarray_clip. simpl. f_equal. rewrite <- list_fmap_compose.
  apply list_fmap_ext. intros _ x _. simpl. apply Qclip_idemp.
Qed.

(** When the vectorised function returns, none of its arguments is of size
    zero, their shapes go together, and the three arrays returned have the
    common shape. *)
Lemma vectorize3_Ok_inv f h s v r g b :
  vectorize3 f h s v = Ok (r, g, b) →
  ndarray_size h ≠ 0%nat ∧ ndarray_size s ≠ 0%nat ∧ ndarray_size v ≠ 0%nat ∧
  ∃ sh0 sh, broadcast_shapes (shape h) (shape s) = Some sh0 ∧
            broadcast_shapes sh0 (shape v) = Some sh ∧
            shape r = sh ∧ shape g = sh ∧ shape b = sh.
Proof.
  unfold vectorize3. case_bool_decide as Hsize; [done|].
  destruct (broadcast_shapes (shape h) (shape s)) as [sh0|] eqn:H0;
    cbn [mbind option_bind]; [|done].
  destruct (broadcast_shapes sh0 (shape v)) as [sh|] eqn:H1; [|done].
  intros [= <- <- <-].
  repeat split; try (intros Hz; apply Hsize; auto). by exists sh0, sh.
Qed.

(** The stack of what the vectorised function returns on three arrays of
    [m] rows and [n] columns has three channels. *)
Lemma vectorize3_dstack_shape f h s v r g b rgb (m n : nat) :
  vectorize3 f h s v = Ok (r, g, b) → np_dstack [r; g; b] = Ok rgb →
  shape h = [m; n] → shape s = [m; n] → shape v = [m; n] →
  shape rgb = [m; n; 3]%nat.
Proof.
  intros (_ & _ & _ & sh0 & sh & H0 & H1 & Hr & Hg & Hb)%vectorize3_Ok_inv Hst Hh Hs Hv.
  rewrite Hh, Hs, broadcast_shapes_same in H0. injection H0 as <-.
  rewrite Hv, broadcast_shapes_same in H1. injection H1 as <-.
  destruct (np_dstack_rgb r g b m n Hr Hg Hb) as (rgb' & Hst' & Hs').
  congruence.
Qed.

Section HCS_properties.
Variable N : SheetView → SheetView.
Variable hsv_to_rgb : Q → Q → Q → Q * Q * Q.
Variable default_label : string.

(** X15: HCS looks at a third layer only when the overlay has exactly three
    layers: with four layers or more the layers after the second are
    ignored, the third included, and the result is that for the first two
    layers alone, with a constant strength of one. *)
Theorem HCS_process_extra_layers (S_multiplier C_multiplier : Q) (flipSC : bool)
    (hue confidence : View) (rest : list View) bounds roi_bounds lbl :
  length rest ≠ 1%nat →
  HCS_process N hsv_to_rgb S_multiplier C_multiplier flipSC
    (mkOverlay (hue :: confidence :: rest) bounds roi_bounds lbl) =
  HCS_process N hsv_to_rgb S_multiplier C_multiplier flipSC
    (mkOverlay [hue; confidence] bounds roi_bounds lbl).
Proof.
  intros Hrest. unfold HCS_process, Overlay_getitem. cbn [ov_data ov_roi_bounds length].
  rewrite (bool_decide_false (S (S (length rest)) = 3%nat)) by lia.
  rewrite (bool_decide_false (2 = 3)%nat) by lia.
  reflexivity.
Qed.

(** X16: HCS returns only when its first two layers are SheetViews of one
    shape and neither the normalised array of the hue layer nor the array of
    the confidence layer is of size zero; it then returns a single view that
    has the bounds of the hue layer, the overlay's region of interest and the
    hue layer's label followed by " HCS".  Its array has [m] rows, [n]
    columns and three channels when the normalised hue layer, the confidence
    layer and, in an overlay of three layers, the third layer all have [m]
    rows and [n] columns. *)
Theorem HCS_process_returns (S_multiplier C_multiplier : Q) (flipSC : bool)
    (overlay : Overlay) out :
  HCS_process N hsv_to_rgb S_multiplier C_multiplier flipSC overlay = Ok out →
  ∃ hue confidence rgb,
    ov_data overlay !! 0%nat = Some (VSheetView hue) ∧
    ov_data overlay !! 1%nat = Some (VSheetView confidence) ∧
    sv_shape hue = sv_shape confidence ∧
    ndarray_size (sv_data (N hue)) ≠ 0%nat ∧
    ndarray_size (sv_data confidence) ≠ 0%nat ∧
    out = [SheetView_new rgb (sv_bounds hue) (sv_label hue ++ " HCS")
             (ov_roi_bounds overlay)] ∧
    ∀ m n,
      sv_shape (N hue) = [m; n] → sv_shape confidence = [m; n] →
      (∀ strength, length (ov_data overlay) = 3%nat →
                   ov_data overlay !! 2%nat = Some (VSheetView strength) →
                   sv_shape strength = [m; n]) →
      shape rgb = [m; n; 3]%nat.
Proof.
  unfold HCS_process, Overlay_getitem.
  destruct (ov_data overlay !! 0%nat) as [v0|]; cbn [mbind result_bind]; [|done].
  destruct (ov_data overlay !! 1%nat) as [v1|]; cbn [mbind result_bind]; [|done].
  intros Hout.
  assert (∃ hue, v0 = VSheetView hue) as [hue ->].
  { destruct v0; try by eexists.
    all: destruct (bool_decide _); [destruct (ov_data overlay !! 2%nat) as [[]|]|];
      cbn in Hout; done. }
  assert (∃ confidence, v1 = VSheetView confidence) as [confidence ->].
  { destruct v1; try by eexists.
    all: destruct (bool_decide _); [destruct (ov_data overlay !! 2%nat) as [[]|]|];
      cbn in Hout; done. }
  exists hue, confidence.
  match type of Hout with
  | mbind _ ?sd = _ => destruct sd as [strength_data|] eqn:Hsd
  end; cbn [mbind result_bind as_SheetView] in Hout; [|done].
  case_bool_decide as Hshape; [done|].
  assert (sv_shape hue = sv_shape confidence) as Hshape'
    by (destruct (decide (sv_shape hue = sv_shape confidence)); [done|by destruct Hshape]).
  assert (∀ m n, sv_shape confidence = [m; n] →
            (∀ strength, length (ov_data overlay) = 3%nat →
                         ov_data overlay !! 2%nat = Some (VSheetView strength) →
                         sv_shape strength = [m; n]) →
            shape strength_data = [m; n]) as Hstrength.
  { intros m n Hc Hthird. revert Hsd. case_bool_decide as Hlen.
    - destruct (ov_data overlay !! 2%nat) as [[strength| | | | |]|];
        cbn [mbind result_bind as_SheetView]; try done.
      intros [= <-]. by apply Hthird.
    - cbn [mbind result_bind as_SheetView]. intros [= <-]. simpl. congruence. }
  destruct flipSC.
  - destruct (vectorize3 _ _ _ _) as [[[r g] b]|] eqn:Hv;
      cbn [mbind result_bind] in Hout; [|done].
    destruct (np_dstack [r; g; b]) as [rgb|] eqn:Hst; cbn [mbind result_bind] in Hout; [|done].
    injection Hout as <-. exists rgb.
    pose proof (vectorize3_Ok_inv _ _ _ _ _ _ _ Hv) as (Hh & _ & Hc & _).
    repeat split; try done.
    intros m n Hmn Hconf Hthird.
    eapply vectorize3_dstack_shape; [exact Hv|exact Hst|simpl..]; auto.
  - destruct (vectorize3 _ _ _ _) as [[[r g] b]|] eqn:Hv;
      cbn [mbind result_bind] in Hout; [|done].
    destruct (np_dstack [r; g; b]) as [rgb|] eqn:Hst; cbn [mbind result_bind] in Hout; [|done].
    injection Hout as <-. exists rgb.
    pose proof (vectorize3_Ok_inv _ _ _ _ _ _ _ Hv) as (Hh & Hc & _ & _).
    repeat split; try done.
    intros m n Hmn Hconf Hthird.
    eapply vectorize3_dstack_shape; [exact Hv|exact Hst|simpl..]; auto.
Qed.

(** X17: with three layers of one shape, flipping strength and confidence
    is the same as exchanging the two layers and their multipliers. *)
Theorem HCS_process_flipSC (S_multiplier C_multiplier : Q)
    (hue confidence strength : SheetView) bounds roi_bounds lbl :
  sv_shape hue = sv_shape confidence →
  sv_shape confidence = sv_shape strength →
  HCS_process N hsv_to_rgb S_multiplier C_multiplier true
    (mkOverlay [VSheetView hue; VSheetView confidence; VSheetView strength]
       bounds roi_bounds lbl) =
  HCS_process N hsv_to_rgb C_multiplier S_multiplier false
    (mkOverlay [VSheetView hue; VSheetView strength; VSheetView confidence]
       bounds roi_bounds lbl).
Proof.
  intros Hhc Hcs. unfold HCS_process, Overlay_getitem.
  cbn [ov_data ov_roi_bounds length lookup list_lookup mbind result_bind as_SheetView].
  rewrite (bool_decide_true (3 = 3)%nat) by done.
  cbn [mbind result_bind as_SheetView].
  rewrite !bool_decide_false by (intros Hn; apply Hn; congruence).
  by rewrite ndarray_clip_idemp.
Qed.
End HCS_properties.

Lemma HCS_process_extra_layers_witness :
  let layer q := VSheetView (SheetView_new (mkArr [1; 1]%nat [q]) (mkBounds 0 0 1 1) "" None) in
  HCS_process (λ sv, sv) (λ h s v, (h, s, v)) 1 1 false
    (mkOverlay [layer 0%Q; layer 1%Q; layer (1 # 2)%Q; layer (1 # 3)%Q]
       (mkBounds 0 0 1 1) None "") =
  HCS_process (λ sv, sv) (λ h s v, (h, s, v)) 1 1 false
    (mkOverlay [layer 0%Q; layer 1%Q] (mkBounds 0 0 1 1) None "").
Proof.
  intros layer.
  apply (HCS_process_extra_layers (λ sv, sv) (λ h s v, (h, s, v)) 1 1 false
           (layer 0%Q) (layer 1%Q) [layer (1 # 2)%Q; layer (1 # 3)%Q]).
  simpl. lia.
Defined.

Lemma HCS_process_returns_witness :
  let layer lbl q :=
    SheetView_new (mkArr [1; 1]%nat [q]) (mkBounds 0 0 1 1) lbl None in
  ∃ rgb,
    HCS_process (λ sv, sv) (λ h s v, (h, s, v)) 1 1 false
      (mkOverlay [VSheetView (layer "hue" 0%Q); VSheetView (layer "conf" 1%Q)]
         (mkBounds 0 0 1 1) None "")
    = Ok [SheetView_new rgb (mkBounds 0 0 1 1) "hue HCS" None] ∧
    shape rgb = [1; 1; 3]%nat.
Proof.
  intros layer.
  edestruct (HCS_process_returns (λ sv, sv) (λ h s v, (h, s, v)) 1 1 false
               (mkOverlay [VSheetView (layer "hue" 0%Q); VSheetView (layer "conf" 1%Q)]
                  (mkBounds 0 0 1 1) None ""))
    as (hue & confidence & rgb & H0 & H1 & _ & _ & _ & Hout & Hshape).
  - vm_compute. reflexivity.
  - injection H0 as <-. injection H1 as <-. injection Hout as Hrgb.
    exists rgb. split.
    + vm_compute. by rewrite Hrgb.
    + apply Hshape; [reflexivity..|]. intros strength Hlen. discriminate Hlen.
Defined.

Lemma HCS_process_flipSC_witness :
  let layer q := SheetView_new (mkArr [1; 1]%nat [q]) (mkBounds 0 0 1 1) "" None in
  HCS_process (λ sv, sv) (λ h s v, (h, s, v)) 2 3 true
    (mkOverlay [VSheetView (layer 0%Q); VSheetView (layer 1%Q); VSheetView (layer (1 # 2)%Q)]
       (mkBounds 0 0 1 1) None "") =
  HCS_process (λ sv, sv) (λ h s v, (h, s, v)) 3 2 false
    (mkOverlay [VSheetView (layer 0%Q); VSheetView (layer (1 # 2)%Q); VSheetView (layer 1%Q)]
       (mkBounds 0 0 1 1) None "").
Proof.
  intros layer.
  apply (HCS_process_flipSC (λ sv, sv) (λ h s v, (h, s, v)) 2 3
           (layer 0%Q) (layer 1%Q) (layer (1 # 2)%Q)); reflexivity.
Defined.

Section Colorize_properties.
Variable N : SheetView → SheetView.
Variable hsv_to_rgb : Q → Q → Q → Q * Q * Q.
Variable default_label : string.


(** X19: Colorize returns only when its first two layers are single-channel
    SheetViews of one shape; the view it returns carries the first layer's
    label followed by " Colorize". *)
Theorem Colorize_process_returns (overlay : Overlay) out :
  Colorize_process N hsv_to_rgb default_label overlay = Ok out →
  ∃ first second colorized,
    ov_data overlay !! 0%nat = Some (VSheetView first) ∧
    ov_data overlay !! 1%nat = Some (VSheetView second) ∧
    sv_depth first = Ok 1%nat ∧ sv_depth second = Ok 1%nat ∧
    sv_shape first = sv_shape second ∧
    out = [colorized] ∧
    sv_label colorized = (sv_label first ++ " Colorize")%string.
Proof.
  unfold Colorize_process.
  destruct (Colorize_refuses overlay) as [[|]|]; cbn [mbind result_bind]; [done| |done].
  unfold Overlay_getitem.
  destruct (ov_data overlay !! 0%nat) as [[first| | | | |]|]; cbn [mbind result_bind as_SheetView];
    try done.
  destruct (sv_depth first) as [depth0|] eqn:Hd0; cbn [mbind result_bind]; [|done].
  destruct (ov_data overlay !! 1%nat) as [[second| | | | |]|]; cbn [mbind result_bind as_SheetView];
    try done.
  destruct (sv_depth second) as [depth1|] eqn:Hd1; cbn [mbind result_bind]; [|done].
  case_bool_decide as Hdepth; [done|].
  case_bool_decide as Hshape; [done|].
  destruct (HCS_call _ _ _) as [[hcs| | |]|]; cbn [mbind result_bind]; try done.
  intros [= <-].
  assert ([depth0; depth1] = [1; 1]%nat) as [= -> ->]
    by (destruct (decide ([depth0; depth1] = [1; 1]%nat)); [done|by destruct Hdepth]).
  assert (sv_shape first = sv_shape second)
    by (destruct (decide (sv_shape first = sv_shape second)); [done|by destruct Hshape]).
  exists first, second. eexists. by repeat split.
Qed.
End Colorize_properties.


Lemma Colorize_process_returns_witness :
  let layer lbl q :=
    SheetView_new (mkArr [1; 1]%nat [q]) (mkBounds 0 0 1 1) lbl None in
  ∃ first second,
    sv_label first = "gray" ∧ sv_label second = "hue" ∧
    sv_depth first = Ok 1%nat ∧ sv_depth second = Ok 1%nat ∧
    sv_shape first = sv_shape second.
Proof.
  intros layer.
  edestruct (Colorize_process_returns (λ sv, sv) (λ h s v, (h, s, v)) ""
               (mkOverlay [VSheetView (layer "gray" (1 # 2)%Q);
                           VSheetView (layer "hue" (1 # 4)%Q)]
                  (mkBounds 0 0 1 1) None ""))
    as (first & second & colorized & H0 & H1 & Hd0 & Hd1 & Hs & _).
  - vm_compute. reflexivity.
  - injection H0 as <-. injection H1 as <-. exists (layer "gray" (1 # 2)%Q), (layer "hue" (1 # 4)%Q).
    by repeat split.
Defined.

(** ** contours: the path on which the contouring call returns *)

Section contours_properties.
Variable contour_paths : ndarray → Q * Q * Q * Q → list Q → result (list Paths).
Variable levels : list Q.

(** The Contours layer built for one level and its collection of paths. *)
Definition contour_layer (sheetview : SheetView) (lc : Q * Paths) : View :=
  VContours (mkContours lc.2 (sv_bounds sheetview) [("level", PFloat lc.1)]
               (sv_label sheetview ++ " Level")).

(** X20: when the contouring call returns, the operation returns one
    overlay: the input view followed by one Contours layer for each level
    that has a collection of paths, in the order of the levels, each with
    the bounds of the input, its level as metadata and the input's label
    followed by " Level".  The figure opened for the computation is closed
    again: the registry of open figures is as it was before the call. *)
Theorem contours_process_returns (sheetview : SheetView) (st : Backend) collections :
  next_figure st ∉ open_figures st →
  plt_contour contour_paths (sv_data sheetview)
    (bb_left (sv_bounds sheetview), bb_right (sv_bounds sheetview),
     bb_top (sv_bounds sheetview), bb_bottom (sv_bounds sheetview)) levels
    = Ok collections →
  (contours_process contour_paths levels sheetview st).1 =
    Ok [VSheetOverlay
          (mkOverlay (VSheetView sheetview
                        :: (contour_layer sheetview <$> zip levels collections))
             (sv_bounds sheetview) (sv_roi_bounds sheetview) "")] ∧
  open_figures (contours_process contour_paths levels sheetview st).2 = open_figures st.
Proof.
  intros Hfresh Hc. split; [|by eapply contours_process_closes].
  unfold contours_process. cbn [plt_figure lbrt]. rewrite Hc.
  fold (contour_layer sheetview).
  case_bool_decide as Hlen.
  - destruct (contour_layer sheetview <$> zip levels collections) as [|c [|c' l]] eqn:Hl;
      try discriminate.
    cbn [lookup list_lookup fst]. unfold View_mul. do 3 f_equal.
    assert (c ∈ contour_layer sheetview <$> zip levels collections) as Hin
      by (rewrite Hl; apply list_elem_of_here).
    apply list_elem_of_fmap in Hin as (lc & -> & _). reflexivity.
  - reflexivity.
Qed.
End contours_properties.

Lemma contours_process_returns_witness :
  let sheetview :=
    SheetView_new (mkArr [2; 2]%nat [0; 1; 1; 0]%Q) (mkBounds 0 0 1 1) "activity" None in
  let contour_paths := λ (_ : ndarray) (_ : Q * Q * Q * Q) (levels : list Q),
    Ok ((λ _, [[(0, 0); (1, 1)]]%Q) <$> levels) : result (list Paths) in
  ∃ level_layer,
    (contours_process contour_paths [(1 # 2)%Q] sheetview (mkBackend [7%nat] 8)).1
      = Ok [VSheetOverlay
              (mkOverlay [VSheetView sheetview; VContours level_layer]
                 (mkBounds 0 0 1 1) None "")] ∧
    ct_label level_layer = "activity Level" ∧
    open_figures (contours_process contour_paths [(1 # 2)%Q] sheetview
                    (mkBackend [7%nat] 8)).2 = [7%nat].
Proof.
  intros sheetview contour_paths.
  destruct (contours_process_returns contour_paths [(1 # 2)%Q] sheetview
              (mkBackend [7%nat] 8) [[[(0, 0); (1, 1)]]]%Q) as [Hout Hreg].
  - simpl. rewrite list_elem_of_singleton. lia.
  - reflexivity.
  - eexists. split; [exact Hout|]. split; [reflexivity|exact Hreg].
Defined.

(** ** curve_collapse: validation *)

Lemma length_size_NoDup (l : list string) :
  length l = size (list_to_set l : gset string) → NoDup l.
Proof.
  induction l as [|x l IH]; intros Hlen; [constructor|].
  destruct (decide (x ∈ l)) as [Hin|Hnin].
  - pose proof (size_list_to_set_dup x l Hin). lia.
  - rewrite list_to_set_cons, size_union, size_singleton in Hlen.
    + constructor; [done|]. apply IH. simpl in Hlen. lia.
    + apply disjoint_singleton_l. by rewrite elem_of_list_to_set.
Qed.

Section curve_collapse_properties.
Variable sheet2matrixidx : SheetView → Q → Q → Z * Z.
Variable _type_map : Stack Key View → list (pyval * option pytype).
Variable repr : pyval → string.
Variable str : pyval → string.
Variable capitalize : string → string.
Variable str_title : string → string.
Variable pprint_value : Dimension → pyval → string.
Variable x_axis : option string.
Variable group_by : list string.
Variable samples : list pyval.

(** X21: the check of a sampled stack passes exactly when every requested
    sample is a column of the stack whose entries have one of the numeric
    types and an x axis has been given. *)
Theorem _check_table_stack_Ok_iff (stack : Stack Key View) :
  _check_table_stack _type_map repr x_axis samples stack = Ok tt ↔
  Forall (λ sample, ∃ tp, od_get sample (_type_map stack) = Some (Some tp) ∧
                          tp ∈ sample_types) samples ∧
  x_axis ≠ None.
Proof.
  unfold _check_table_stack. split.
  - destruct (forallb _ samples); cbn [negb]; [|done].
    match goal with
    | |- context [for_each ?f samples] => destruct (for_each f samples) as [units|] eqn:Hfe
    end; cbn [mbind result_bind]; [|done].
    intros Hx. split; [|by destruct x_axis].
    apply for_each_Ok in Hfe. apply Forall_lookup. intros j sample Hj.
    destruct (Forall2_lookup_l _ _ _ _ _ Hfe Hj) as (u & _ & Hu). simpl in Hu.
    destruct (od_get sample (_type_map stack)) as [[tp|]|]; try done.
    case_bool_decide as Htp; [done|]. by exists tp.
  - intros [Hall Hx].
    assert (forallb (λ h, bool_decide (h ∈ (_type_map stack).*1)) samples = true) as ->.
    { apply forallb_forall. intros h Hin. apply list_elem_of_In in Hin.
      rewrite Forall_forall in Hall. destruct (Hall h Hin) as (tp & Hg & _).
      apply bool_decide_eq_true, od_get_Some_elem. by rewrite Hg. }
    cbn [negb]. rewrite (for_each_fmap _ (λ _, tt)).
    + cbn [mbind result_bind]. by destruct x_axis.
    + intros sample Hin. rewrite Forall_forall in Hall.
      destruct (Hall sample Hin) as (tp & -> & Htp).
      by rewrite bool_decide_false by (intros Hn; by apply Hn).
Qed.

Lemma _check_table_stack_no_x_axis (stack : Stack Key View) :
  ∃ e, _check_table_stack _type_map repr None samples stack = Raise e.
Proof.
  unfold _check_table_stack.
  destruct (negb _); [by eexists|].
  match goal with
  | |- context [for_each ?f samples] => destruct (for_each f samples)
  end; cbn [mbind result_bind]; by eexists.
Qed.

Lemma curve_collapse_prepare_no_x_axis (stack : Stack Key View) :
  ∃ e, curve_collapse_prepare sheet2matrixidx _type_map repr None group_by samples stack
       = Raise e.
Proof.
  unfold curve_collapse_prepare.
  destruct (sample_call _ _ _) as [[| s | |]|e]; cbn [mbind result_bind]; try by eexists.
  destruct (_check_table_stack_no_x_axis s) as [e ->]. by eexists.
Qed.

(** X22: the x axis has no usable default: with [x_axis] left at [None]
    the operation fails on every stack. *)
Theorem curve_collapse_process_no_x_axis (stack : Stack Key View) :
  ∃ e,
    curve_collapse_process sheet2matrixidx _type_map repr str capitalize str_title
      pprint_value None group_by samples stack = Raise e ∧
    curve_collapse_call sheet2matrixidx _type_map repr str capitalize str_title
      pprint_value None group_by samples (AStack stack) = Raise e.
Proof.
  destruct (curve_collapse_prepare_no_x_axis stack) as [e He]. exists e.
  unfold curve_collapse_call, StackOperation_call, curve_collapse_process.
  by rewrite He.
Qed.

(** X23: a name that occurs twice among the group-by names makes the
    operation fail on every stack, also when it is not the name of the x
    axis: the test for duplicates counts the x axis and the group-by names
    together. *)
Theorem curve_collapse_process_group_by_duplicate (stack : Stack Key View) :
  ¬ NoDup group_by →
  ∃ e,
    curve_collapse_process sheet2matrixidx _type_map repr str capitalize str_title
      pprint_value x_axis group_by samples stack = Raise e.
Proof.
  intros Hdup.
  assert (∃ e, curve_collapse_prepare sheet2matrixidx _type_map repr x_axis group_by
                 samples stack = Raise e) as [e He].
  { destruct x_axis as [x|]; [|apply curve_collapse_prepare_no_x_axis].
    unfold curve_collapse_prepare.
    destruct (sample_call _ _ _) as [[| s | |]|e]; cbn [mbind result_bind]; try by eexists.
    destruct (_check_table_stack _ _ _ _ s) as [[]|e]; cbn [mbind result_bind]; [|by eexists].
    destruct (dim_dict s x) as [x_dim|e]; cbn [mbind result_bind]; [|by eexists].
    rewrite bool_decide_true; [by eexists|].
    intros Hlen. apply Hdup.
    apply length_size_NoDup in Hlen. by apply NoDup_cons in Hlen as [_ ?]. }
  exists e. unfold curve_collapse_process. by rewrite He.
Qed.

(** X24: an empty stack cannot be collapsed: sampling it finds no
    signature, and the operation fails with TypeError whatever the
    parameters are. *)
Theorem curve_collapse_process_empty (stack_tp : Cls.t) dims meta ttl :
  curve_collapse_process sheet2matrixidx _type_map repr str capitalize str_title
    pprint_value x_axis group_by samples (mkStack stack_tp dims meta ttl [])
  = Raise TypeError.
Proof.
  unfold curve_collapse_process, curve_collapse_prepare, sample_call.
  by rewrite ViewOperation_call_empty.
Qed.
End curve_collapse_properties.

Lemma curve_collapse_process_group_by_duplicate_witness :
  ∃ e,
    curve_collapse_process (λ _ _ _, (0, 0)%Z) weather_type_map show show id id
      (λ _ v, show v) (Some "time") ["trial"; "trial"] [PStr "temp"] weather_stack
    = Raise e.
Proof.
  apply (curve_collapse_process_group_by_duplicate (λ _ _ _, (0, 0)%Z) weather_type_map
           show show id id (λ _ v, show v) (Some "time") ["trial"; "trial"]
           [PStr "temp"] weather_stack).
  intros Hnd. apply NoDup_cons in Hnd as [Hnin _]. apply Hnin, list_elem_of_here.
Defined.

(** ** curve_collapse: nothing is lost in the split *)

Lemma expanded_key_shorten (x_ndim : nat) (key : Key) (x : pyval) :
  key !! x_ndim = Some x →
  expanded_key x_ndim (take x_ndim key ++ drop (S x_ndim) key) x = key.
Proof.
  intros Hx. unfold expanded_key.
  assert (x_ndim < length key)%nat by (by eapply lookup_lt_Some).
  rewrite take_app_length' by (rewrite length_take; lia).
  rewrite drop_app_length' by (rewrite length_take; lia).
  by apply take_drop_middle.
Qed.

Lemma od_get_elem {K A} `{EqDecision K} (d : list (K * A)) k v :
  NoDup d.*1 → (k, v) ∈ d → od_get k d = Some v.
Proof. intros Hnd [j Hj]%list_elem_of_lookup. by eapply od_get_lookup. Qed.

(** X25: splitting a stack along an axis loses no entry: every entry of the
    stack is found in the split mapping under its key without the x
    component, at its x value. *)
Theorem split_axis_lossless (stack : Stack Key View) (x_name : string) (x_ndim : nat)
    (split_data : SplitData) :
  dim_index stack x_name = Ok x_ndim →
  NoDup (Stack_keys stack) →
  split_axis stack x_name = Ok split_data →
  ∀ key view, (key, view) ∈ Stack_items stack →
    ∃ x x_axis_data,
      key !! x_ndim = Some x ∧
      od_get (take x_ndim key ++ drop (S x_ndim) key) split_data = Some x_axis_data ∧
      od_get x x_axis_data = Some view.
Proof.
  intros Hdim Hnd Hsplit key view Hin.
  unfold split_axis, _split_keys_by_axis in Hsplit. rewrite Hdim in Hsplit.
  cbn [mbind result_bind] in Hsplit.
  match type of Hsplit with
  | context [for_each ?f (Stack_keys stack)] =>
      destruct (for_each f (Stack_keys stack)) as [xvals|] eqn:Hxv
  end; cbn [mbind result_bind] in Hsplit; [|done].
  set (dim_vals := (λ k : Key, take x_ndim k ++ drop (S x_ndim) k) <$> Stack_keys stack)
    in Hsplit.
  destruct (fromkeys_spec xvals) as [Hndx Hinx].
  destruct (fromkeys_spec dim_vals) as [Hndk Hink].
  rewrite split_axis_key_fold in Hsplit
    by (done || intros ? _; apply not_elem_of_nil).
  injection Hsplit as <-. cbn [app].
  assert (key ∈ Stack_keys stack) as Hkey.
  { unfold Stack_keys, Stack_items in *. apply list_elem_of_fmap. by exists (key, view). }
  apply for_each_Ok in Hxv.
  apply list_elem_of_lookup in Hkey as [j Hj].
  destruct (Forall2_lookup_l _ _ _ _ _ Hxv Hj) as (x & Hjx & Hx).
  destruct (key !! x_ndim) as [x'|] eqn:Hkx; [|done]. injection Hx as ->.
  exists x, (x_axis_data_of stack x_ndim (fromkeys xvals)
               (take x_ndim key ++ drop (S x_ndim) key)).
  split; [done|]. split.
  - apply od_get_elem.
    + rewrite <- list_fmap_compose. by rewrite list_fmap_id.
    + apply list_elem_of_fmap.
      exists (take x_ndim key ++ drop (S x_ndim) key). split; [done|].
      apply Hink. apply list_elem_of_fmap. exists key. split; [done|].
      by eapply list_elem_of_lookup_2.
  - apply od_get_elem.
    + rewrite x_axis_data_of_keys. by apply NoDup_filter.
    + unfold x_axis_data_of. apply list_elem_of_omap. exists x. split.
      * apply Hinx. by eapply list_elem_of_lookup_2.
      * rewrite expanded_key_shorten by done.
        rewrite (od_get_elem (_data stack) key view); [done|done|done].
Qed.

Lemma split_axis_lossless_witness :
  ∃ split_data,
    split_axis weather_stack "time" = Ok split_data ∧
    ∀ key view, (key, view) ∈ Stack_items weather_stack →
      ∃ x x_axis_data,
        key !! 0%nat = Some x ∧
        od_get (take 0 key ++ drop 1 key) split_data = Some x_axis_data ∧
        od_get x x_axis_data = Some view.
Proof.
  eexists. split; [reflexivity|].
  apply (split_axis_lossless weather_stack "time" 0%nat).
  - reflexivity.
  - apply (bool_decide_unpack _). vm_compute. exact I.
  - reflexivity.
Defined.

(** ** curve_collapse: the curves that are generated *)

Lemma string_app_assoc (a b c : string) :
  (a ++ (b ++ c))%string = ((a ++ b) ++ c)%string.
Proof.
  induction a as [|ch a IH]; [done|].
  change (String ch (a ++ (b ++ c)) = String ch ((a ++ b) ++ c))%string.
  by rewrite IH.
Qed.

Lemma string_app_nil_r (s : string) : (s ++ "")%string = s.
Proof.
  induction s as [|ch s IH]; [done|].
  change (String ch (s ++ "") = String ch s)%string. by rewrite IH.
Qed.

(** [n] copies of a string, one after the other. *)
Fixpoint string_repeat (n : nat) (s : string) : string :=
  match n with
  | O => ""
  | S n' => s ++ string_repeat n' s
  end.

Lemma string_repeat_comm (n : nat) (s : string) :
  (string_repeat n s ++ s)%string = (s ++ string_repeat n s)%string.
Proof.
  induction n as [|n IH]; simpl.
  - by rewrite string_app_nil_r.
  - rewrite <- string_app_assoc. by rewrite IH.
Qed.

(** What a sample contributes when no stack dimension is left: nothing for
    no curve, the curve itself for one, an overlay for more. *)
Definition dataview_of_curves (curves : list Curve) : DataView :=
  match curves with
  | [] => DVNone
  | [c] => DVCurve c
  | _ => DVOverlay curves
  end.

Section generate_curves_properties.
Variable str : pyval → string.
Variable capitalize : string → string.
Variable str_title : string → string.
Variable pprint_value : Dimension → pyval → string.
Variable group_by : list string.
Variable samples : list pyval.

(** One pass of the inner loop that returns: the curve it builds and what
    it does with it. *)
Lemma _generate_curve_Ok (self_stack_type : Cls.t) (stack : Stack Key View)
    (stack_dims : list Dimension) (overlay_inds : list nat) (cyclic_range : option Q)
    (x_axis : string) (sample : pyval) (dataview : DataView)
    (key : Key) (x_axis_data : list (pyval * View)) (dv : DataView) :
  _generate_curve str capitalize str_title pprint_value group_by self_stack_type stack
    stack_dims overlay_inds cyclic_range x_axis sample dataview (key, x_axis_data) = Ok dv →
  ∃ curve title_prefix,
    (cv_data curve).*1 = x_axis_data.*1 ∧
    cv_cyclic_range curve = cyclic_range ∧
    cv_metadata curve = metadata stack ∧
    (self_stack_type = Cls.SheetStack →
       title_prefix = ("Coord: " ++ str sample ++ " ")%string) ∧
    match stack_dims with
    | [] =>
        match dataview with
        | DVNone => dv = DVCurve curve
        | DVCurve c => dv = DVOverlay [c; curve]
        | DVOverlay curves => dv = DVOverlay (curves ++ [curve])
        | DVStack _ => False
        end
    | _ =>
        ∃ s s', dataview = DVStack s ∧ dv = DVStack s' ∧
                title s' = (title_prefix ++ title s)%string ∧
                stack_type s' = stack_type s ∧
                dimensions s' = dimensions s ∧
                metadata s' = metadata s
    end.
Proof.
  unfold _generate_curve.
  destruct (sampled_curve_data_of sample x_axis_data) as [pts|] eqn:Hpts;
    cbn [mbind result_bind]; [|done].
  match goal with
  | |- context [for_each ?f (zip group_by overlay_inds)] =>
      destruct (for_each f (zip group_by overlay_inds)) as [overlay_items|]
  end; cbn [mbind result_bind]; [|done].
  match goal with
  | |- context [for_each ?f overlay_items] =>
      destruct (for_each f overlay_items) as [legend_labels|]
  end; cbn [mbind result_bind]; [|done].
  destruct (x_axis_data.*2 !! 0%nat) as [v0|]; cbn [mbind result_bind]; [|done].
  destruct (_curve_labels capitalize str_title self_stack_type x_axis (str sample)
              (label v0)) as [[[[title_prefix lbl] xlabel] ylabel]|] eqn:Hlabels;
    cbn [mbind result_bind]; [|done].
  intros Hdv.
  eexists (mkCurve pts cyclic_range (metadata stack) lbl _ xlabel ylabel), title_prefix.
  split; [by apply sampled_curve_data_of_keys in Hpts|].
  split; [done|]. split; [done|]. split.
  - intros ->. unfold _curve_labels in Hlabels.
    rewrite bool_decide_true in Hlabels by done. by injection Hlabels as <- _ _ _.
  - destruct stack_dims as [|d stack_dims'].
    + destruct dataview; [by injection Hdv..|done].
    + destruct dataview as [| | |s]; try done.
      case_bool_decide.
      * injection Hdv as <-. by eexists s, _.
      * destruct (Stack_getitem _ _) as [[]|]; cbn [mbind result_bind] in Hdv; try done.
        injection Hdv as <-. by eexists s, _.
Qed.

Lemma _generate_curve_fold_no_stack_dims (self_stack_type : Cls.t)
    (stack : Stack Key View) (overlay_inds : list nat) (cyclic_range : option Q)
    (x_axis : string) (sample : pyval) (split_data : SplitData) :
  ∀ (acc : list Curve) (dv : DataView),
  for_fold (_generate_curve str capitalize str_title pprint_value group_by
              self_stack_type stack [] overlay_inds cyclic_range x_axis sample)
    split_data (dataview_of_curves acc) = Ok dv →
  ∃ curves,
    Forall2 (λ (item : Key * list (pyval * View)) c,
               (cv_data c).*1 = item.2.*1 ∧
               cv_cyclic_range c = cyclic_range ∧
               cv_metadata c = metadata stack) split_data curves ∧
    dv = dataview_of_curves (acc ++ curves).
Proof.
  induction split_data as [|[key x_axis_data] split_data IH]; intros acc dv; cbn [for_fold].
  - intros [= <-]. exists []. split; [constructor|]. by rewrite app_nil_r.
  - destruct (_generate_curve _ _ _ _ _ _ _ _ _ _ _ _ _ _) as [dv1|] eqn:Hstep;
      cbn [mbind result_bind]; [|done].
    apply _generate_curve_Ok in Hstep as (curve & prefix & Hk & Hc & Hm & _ & Hdv1).
    assert (dv1 = dataview_of_curves (acc ++ [curve])) as ->.
    { destruct acc as [|c0 [|c1 acc]]; simpl in *; [done|done|].
      rewrite Hdv1. by destruct (acc ++ [curve]) eqn:Happ; [destruct acc|]. }
    intros (curves & Hall & ->)%IH. exists (curve :: curves).
    split; [by constructor|]. by rewrite <- app_assoc.
Qed.

(** X26: when no stack dimension is left over, every sample yields one
    curve for each key of the split mapping, in the mapping's order, with
    one point for each x value under that key, the given cyclic range and
    the stack's metadata; the sample's result is nothing when there is no
    key, the curve itself when there is one, and an overlay of the curves
    when there are more. *)
Theorem _generate_curves_no_stack_dims (self_stack_type : Cls.t)
    (stack : Stack Key View) (split_data : SplitData) (overlay_inds : list nat)
    (cyclic_range : option Q) (x_axis : string) (dataviews : list DataView) :
  _generate_curves str capitalize str_title pprint_value group_by samples
    self_stack_type stack [] split_data overlay_inds cyclic_range x_axis = Ok dataviews →
  Forall2 (λ (sample : pyval) dv,
      ∃ curves,
        Forall2 (λ (item : Key * list (pyval * View)) c,
                   (cv_data c).*1 = item.2.*1 ∧
                   cv_cyclic_range c = cyclic_range ∧
                   cv_metadata c = metadata stack) split_data curves ∧
        dv = dataview_of_curves curves) samples dataviews.
Proof.
  unfold _generate_curves. intros Hall%for_each_Ok.
  eapply Forall2_impl; [exact Hall|]. intros sample dv Hdv. simpl in Hdv.
  by apply (_generate_curve_fold_no_stack_dims _ _ _ _ _ _ _ []) in Hdv.
Qed.

Lemma _generate_curve_fold_title (stack : Stack Key View) (stack_dims : list Dimension)
    (overlay_inds : list nat) (cyclic_range : option Q) (x_axis : string)
    (sample : pyval) (split_data : SplitData) :
  stack_dims ≠ [] →
  ∀ (s0 : Stack Key View) (dv : DataView),
  for_fold (_generate_curve str capitalize str_title pprint_value group_by
              Cls.SheetStack stack stack_dims overlay_inds cyclic_range x_axis sample)
    split_data (DVStack s0) = Ok dv →
  ∃ s, dv = DVStack s ∧
       title s = (string_repeat (length split_data) ("Coord: " ++ str sample ++ " ")
                  ++ title s0)%string ∧
       stack_type s = stack_type s0 ∧
       dimensions s = dimensions s0 ∧
       metadata s = metadata s0.
Proof.
  intros Hdims.
  induction split_data as [|[key x_axis_data] split_data IH]; intros s0 dv; cbn [for_fold].
  - intros [= <-]. by exists s0.
  - destruct (_generate_curve _ _ _ _ _ _ _ _ _ _ _ _ _ _) as [dv1|] eqn:Hstep;
      cbn [mbind result_bind]; [|done].
    apply _generate_curve_Ok in Hstep as (curve & prefix & _ & _ & _ & Hprefix & Hdv1).
    destruct stack_dims as [|d stack_dims']; [done|].
    destruct Hdv1 as (s & s1 & [= <-] & -> & Ht & Hty & Hd & Hm).
    intros (s' & -> & Ht' & Hty' & Hd' & Hm')%IH. exists s'.
    split; [done|]. split; [|split; [congruence|split; congruence]].
    rewrite Ht', Ht, (Hprefix eq_refl). cbn [length string_repeat].
    by rewrite string_app_assoc, string_repeat_comm.
Qed.

(** X27: for a stack of sheet views with stack dimensions left over, every
    sample yields a DataStack with those dimensions and the stack's
    metadata; its title is the stack's title preceded by the prefix
    "Coord: <sample> " once for every key of the split mapping, not once:
    the prefix is added again on each pass of the inner loop. *)
Theorem _generate_curves_title (stack : Stack Key View) (stack_dims : list Dimension)
    (split_data : SplitData) (overlay_inds : list nat) (cyclic_range : option Q)
    (x_axis : string) (dataviews : list DataView) :
  stack_dims ≠ [] →
  _generate_curves str capitalize str_title pprint_value group_by samples
    Cls.SheetStack stack stack_dims split_data overlay_inds cyclic_range x_axis
    = Ok dataviews →
  Forall2 (λ (sample : pyval) dv,
      ∃ s, dv = DVStack s ∧
           stack_type s = Cls.DataStack ∧
           dimensions s = stack_dims ∧
           metadata s = metadata stack ∧
           title s = (string_repeat (length split_data) ("Coord: " ++ str sample ++ " ")
                      ++ title stack)%string) samples dataviews.
Proof.
  intros Hdims. unfold _generate_curves. intros Hall%for_each_Ok.
  eapply Forall2_impl; [exact Hall|]. intros sample dv Hdv. simpl in Hdv.
  destruct stack_dims as [|d stack_dims'] eqn:Hsd; [done|]. rewrite <- Hsd in *.
  apply _generate_curve_fold_title in Hdv as (s & -> & Ht & Hty & Hd & Hm); [|by subst].
  exists s. by repeat split.
Qed.
End generate_curves_properties.

(** The weather stack split along the time axis. *)
Definition weather_split : SplitData :=
  match split_axis weather_stack "time" with
  | Ok split_data => split_data
  | Raise _ => []
  end.

Lemma _generate_curves_no_stack_dims_witness :
  ∃ c0 c1,
    _generate_curves show id id (λ _ v, show v) ["trial"] [PStr "temp"]
      Cls.TableStack weather_stack [] weather_split [0%nat] None "time"
    = Ok [DVOverlay [c0; c1]] ∧
    (cv_data c0).*1 = [PInt 0; PInt 1] ∧
    (cv_data c1).*1 = [PInt 0; PInt 2].
Proof.
  do 2 eexists. split; [vm_compute; reflexivity|].
  match goal with
  | |- (cv_data ?c0).*1 = _ ∧ (cv_data ?c1).*1 = _ =>
      pose proof (_generate_curves_no_stack_dims show id id (λ _ v, show v) ["trial"]
                    [PStr "temp"] Cls.TableStack weather_stack weather_split [0%nat] None
                    "time" [DVOverlay [c0; c1]] ltac:(vm_compute; reflexivity)) as Hall
  end.
  apply Forall2_cons_1 in Hall as [(curves & Hcurves & Hdv) _].
  destruct curves as [|c0' [|c1' [|? ?]]]; try discriminate.
  injection Hdv as <- <-.
  apply Forall2_cons_1 in Hcurves as [(H0 & _) Hcurves].
  apply Forall2_cons_1 in Hcurves as [(H1 & _) _].
  split; [exact H0|exact H1].
Defined.

Lemma _generate_curves_title_witness :
  ∃ s,
    _generate_curves show id id (λ _ v, show v) [] [PStr "temp"]
      Cls.SheetStack weather_stack [mkDimension "trial" false None] weather_split []
      None "time" = Ok [DVStack s] ∧
    title s = "Coord: temp Coord: temp ".
Proof.
  eexists. split; [vm_compute; reflexivity|].
  match goal with
  | |- title ?s = _ =>
      pose proof (_generate_curves_title show id id (λ _ v, show v) [] [PStr "temp"]
                    weather_stack [mkDimension "trial" false None] weather_split []
                    None "time" [DVStack s] ltac:(discriminate)
                    ltac:(vm_compute; reflexivity)) as Hall
  end.
  apply Forall2_cons_1 in Hall as [(s' & Hs' & _ & _ & _ & Ht) _].
  injection Hs' as <-. exact Ht.
Defined.

(** ** cmap2rgb *)

(** The truth value of an optional string: [None] and the empty string
    count as false. *)
Definition truthy (s : option string) : bool :=
  match s with
  | Some s => negb (bool_decide (s = ""))
  | None => false
  end.

Section cmap2rgb.
(** [options.style(sheetview)[0].get('cmap', None)]: the colormap named by
    the style that applies to the view, if it names one. *)
Variable style_cmap_of : SheetView → result (option string).
(** [matplotlib.cm.get_cmap(name)]: the colormap registered under a name, a
    function on arrays. *)
Variable get_cmap : option string → result (ndarray → ndarray).
(** The parameter [cmap]. *)
Variable cmap : option string.

Definition cmap2rgb_process (sheetview : SheetView) : result (list SheetView) :=
  depth ← sv_depth sheetview;
  if bool_decide (depth ≠ 1%nat) then
    Raise (Exception "Can only apply colour maps to SheetViews with depth of 1.")
  else
    style_cmap ← style_cmap_of sheetview;
    if negb (truthy cmap || truthy style_cmap) then
      Raise (Exception "No color map supplied and no cmap in the active style.")
    else
      colormap ← get_cmap (match cmap with None => style_cmap | Some _ => cmap end);
      Ok [mkSheetView (colormap (sv_data sheetview)) (sv_bounds sheetview)
            (sv_label sheetview ++ " RGB") None (sv_cyclic_range sheetview)
            (sv_style sheetview) (sv_metadata sheetview)].

(** X28: cmap2rgb returns only for a single-channel view for which a
    colormap is named, by the parameter or else by the style; the name
    looked up is the parameter's whenever the parameter is not [None], and
    is never absent.  The view returned holds the colormap applied to the
    array and keeps the bounds, cyclic range, style and metadata of the
    input; its label is the input's followed by " RGB", and the input's
    region of interest is not passed on. *)
Theorem cmap2rgb_process_returns (sheetview : SheetView) out :
  cmap2rgb_process sheetview = Ok out →
  ∃ style_cmap name colormap,
    sv_depth sheetview = Ok 1%nat ∧
    style_cmap_of sheetview = Ok style_cmap ∧
    (cmap = Some name ∨ cmap = None ∧ style_cmap = Some name ∧ name ≠ "") ∧
    get_cmap (Some name) = Ok colormap ∧
    out = [mkSheetView (colormap (sv_data sheetview)) (sv_bounds sheetview)
             (sv_label sheetview ++ " RGB") None (sv_cyclic_range sheetview)
             (sv_style sheetview) (sv_metadata sheetview)].
Proof.
  unfold cmap2rgb_process.
  destruct (sv_depth sheetview) as [depth|]; cbn [mbind result_bind]; [|done].
  case_bool_decide as Hdepth; [done|].
  destruct (style_cmap_of sheetview) as [style_cmap|]; cbn [mbind result_bind]; [|done].
  destruct (truthy cmap || truthy style_cmap) eqn:Hany; cbn [negb]; [|done].
  destruct (get_cmap _) as [colormap|] eqn:Hget; cbn [mbind result_bind]; [|done].
  intros [= <-].
  assert (depth = 1%nat) as -> by (destruct (decide (depth = 1%nat)); [done|by destruct Hdepth]).
  destruct cmap as [name|].
  - exists style_cmap, name, colormap. repeat split; try done. by left.
  - destruct style_cmap as [name|]; [|done].
    exists (Some name), name, colormap. repeat split; try done.
    right. repeat split; try done. intros ->. done.
Qed.
End cmap2rgb.

(** A colormap given as parameter takes priority: on a single-channel view
    the result is the same whatever colormap the style names, or whether it
    names one at all. *)
Theorem cmap2rgb_process_parameter_first
    (style_cmap_of style_cmap_of' : SheetView → result (option string))
    (get_cmap : option string → result (ndarray → ndarray))
    (name : string) (sheetview : SheetView) style_cmap style_cmap' :
  name ≠ "" →
  style_cmap_of sheetview = Ok style_cmap →
  style_cmap_of' sheetview = Ok style_cmap' →
  cmap2rgb_process style_cmap_of get_cmap (Some name) sheetview =
  cmap2rgb_process style_cmap_of' get_cmap (Some name) sheetview.
Proof.
  intros Hname Hs Hs'. unfold cmap2rgb_process. rewrite Hs, Hs'.
  destruct (sv_depth sheetview) as [depth|]; cbn [mbind result_bind truthy]; [|done].
  by rewrite (bool_decide_false (name = "")) by done.
Qed.

Lemma cmap2rgb_process_returns_witness :
  let sheetview :=
    mkSheetView (mkArr [1; 2]%nat [0; 1]%Q) (mkBounds 0 0 1 1) "activity"
      (Some (mkBounds 0 0 1 1)) None (Some "gray") [] in
  let get_cmap := λ _ : option string,
    Ok (λ a, mkArr (shape a ++ [4%nat]) (flat a ≫= λ x, [x; x; x; 1%Q])) in
  ∃ rgb,
    cmap2rgb_process (λ _, Ok (Some "gray")) get_cmap None sheetview = Ok [rgb] ∧
    sv_label rgb = "activity RGB" ∧ sv_roi_bounds rgb = None.
Proof.
  intros sheetview get_cmap.
  edestruct (cmap2rgb_process_returns (λ _, Ok (Some "gray")) get_cmap None sheetview)
    as (style_cmap & name & colormap & _ & _ & _ & Hget & Hout).
  - vm_compute. reflexivity.
  - eexists. split; [vm_compute; reflexivity|]. split; reflexivity.
Defined.

Lemma cmap2rgb_process_parameter_first_witness :
  let sheetview :=
    mkSheetView (mkArr [1; 2]%nat [0; 1]%Q) (mkBounds 0 0 1 1) "activity" None None None [] in
  let get_cmap := λ _ : option string,
    Ok (λ a, mkArr (shape a ++ [4%nat]) (flat a ≫= λ x, [x; x; x; 1%Q])) in
  cmap2rgb_process (λ _, Ok (Some "gray")) get_cmap (Some "jet") sheetview =
  cmap2rgb_process (λ _, Ok None) get_cmap (Some "jet") sheetview.
Proof.
  intros sheetview get_cmap.
  apply (cmap2rgb_process_parameter_first (λ _, Ok (Some "gray")) (λ _, Ok None)
           get_cmap "jet" sheetview (Some "gray") None).
  - discriminate.
  - reflexivity.
  - reflexivity.
Defined.

(** ** curve_collapse: the order of the group-by names *)

(** X29: what [_process] computes before it generates the curves does not
    depend on the order of the group-by names: the checks, the output
    dimensions, the split mapping and the overlay indices -- which are
    always in the order of the stack's dimensions -- are the same for any
    reordering of [group_by]. *)
Theorem curve_collapse_prepare_group_by_order
    (sheet2matrixidx : SheetView → Q → Q → Z * Z)
    (_type_map : Stack Key View → list (pyval * option pytype))
    (repr : pyval → string) (x_axis : option string)
    (group_by group_by' : list string) (samples : list pyval)
    (stack : Stack Key View) :
  group_by ≡ₚ group_by' →
  curve_collapse_prepare sheet2matrixidx _type_map repr x_axis group_by samples stack =
  curve_collapse_prepare sheet2matrixidx _type_map repr x_axis group_by' samples stack.
Proof.
  intros Hperm. unfold curve_collapse_prepare.
  destruct (sample_call _ _ _) as [[| s | |]|e]; cbn [mbind result_bind]; try done.
  destruct (_check_table_stack _ _ _ _ s) as [[]|e]; cbn [mbind result_bind]; [|done].
  destruct x_axis as [x|]; cbn [mbind result_bind]; [|done].
  destruct (dim_dict s x) as [x_dim|e]; cbn [mbind result_bind]; [|done].
  assert ((list_to_set (x :: group_by) : gset string) = list_to_set (x :: group_by')) as Hset.
  { apply list_to_set_perm_L. by constructor. }
  rewrite Hset. cbn [length]. rewrite (Permutation_length Hperm).
  case_bool_decide; [done|].
  destruct (split_axis s x) as [split_data|e]; cbn [mbind result_bind]; [|done].
  assert (filter (λ ix : nat * string, ix.2 ∈ group_by)
            (imap (λ i name, (i, name)) (filter (λ d, d ≠ x) (dimension_labels s)))
          = filter (λ ix : nat * string, ix.2 ∈ group_by')
              (imap (λ i name, (i, name)) (filter (λ d, d ≠ x) (dimension_labels s))))
    as ->; [|done].
  apply list_filter_iff. intros ix. by rewrite Hperm.
Qed.

Lemma curve_collapse_prepare_group_by_order_witness :
  curve_collapse_prepare (λ _ _ _, (0, 0)%Z) weather_type_map show (Some "time")
    ["trial"; "run"] [PStr "temp"] weather_stack =
  curve_collapse_prepare (λ _ _ _, (0, 0)%Z) weather_type_map show (Some "time")
    ["run"; "trial"] [PStr "temp"] weather_stack.
Proof.
  apply (curve_collapse_prepare_group_by_order (λ _ _ _, (0, 0)%Z) weather_type_map show
           (Some "time") ["trial"; "run"] ["run"; "trial"] [PStr "temp"] weather_stack).
  apply perm_swap.
Defined.

(** ** curve_collapse: when it returns *)

Lemma od_get_Some_in {K A} `{EqDecision K} (k : K) (v : A) (d : list (K * A)) :
  od_get k d = Some v → (k, v) ∈ d.
Proof.
  induction d as [|[k' v'] d IH]; cbn [od_get]; [done|].
  destruct (decide (k = k')) as [->|_].
  - intros [= ->]. apply list_elem_of_here.
  - intros Hg. by apply list_elem_of_further, IH.
Qed.

Lemma od_set_Forall_values {K A} `{EqDecision K} (Q : A → Prop) (k : K) (v : A)
    (d : list (K * A)) :
  Forall (λ kv, Q kv.2) d → Q v → Forall (λ kv, Q kv.2) (od_set k v d).
Proof.
  intros Hd Hv. induction Hd as [|[k' v'] d Hkv Hd IH]; cbn [od_set].
  - by repeat constructor.
  - destruct (decide (k = k')); constructor; done.
Qed.

Lemma index_of_elem (name : string) (l : list string) :
  name ∈ l → ∃ i, index_of name l = Some i ∧ (i < length l)%nat.
Proof.
  induction l as [|y l IH]; [by intros ?%elem_of_nil|].
  cbn [index_of]. destruct (decide (y = name)) as [->|Hne].
  - intros _. exists 0%nat. split; [done|simpl; lia].
  - intros [?|Hin]%elem_of_cons; [done|].
    destruct (IH Hin) as (i & -> & Hi). exists (S i). split; [done|simpl; lia].
Qed.

Lemma dim_dict_elem {K A} (stack : Stack K A) (name : string) :
  name ∈ dimension_labels stack →
  ∃ d, dim_dict stack name = Ok d ∧ d ∈ dimensions stack ∧ dim_name d = name.
Proof.
  unfold dimension_labels, dim_dict. intros (d & -> & Hd)%list_elem_of_fmap.
  destruct (filter _ (dimensions stack)) as [|d' l] eqn:Hf.
  - exfalso. eapply (filter_nil_not_elem_of _ _ d); [exact Hf|done|done].
  - exists d'. split; [done|].
    pose proof (list_elem_of_here d' l) as Hin. rewrite <- Hf in Hin.
    by apply list_elem_of_filter in Hin as [? ?].
Qed.

(** The stack [sample] returns for a stack of tables. *)
Definition sampled_stack (samples : list pyval) (stack : Stack Key View)
    : Stack Key View :=
  mkStack Cls.TableStack (dimensions stack) (metadata stack) Stack_default_title
    ((λ kv, (kv.1, sampled_entry samples kv.2)) <$> Stack_items stack).

(** What [_generate_curves] keeps between two passes of its inner loop:
    nothing, a curve or an overlay when no stack dimension is left, and a
    stack of curve overlays otherwise. *)
Definition dataview_ok (stack_dims : list Dimension) (dv : DataView) : Prop :=
  match stack_dims, dv with
  | [], DVStack _ => False
  | [], _ => True
  | _ :: _, DVStack s =>
      Forall (λ kv : Key * View, ∃ curves, kv.2 = VDataOverlay curves) (_data s)
  | _ :: _, _ => False
  end.

(** What one pass of the inner loop needs of an entry of the split mapping
    in order to return. *)
Definition split_item_ok (overlay_inds : list nat) (sample : pyval)
    (item : Key * list (pyval * View)) : Prop :=
  item.2 ≠ [] ∧
  Forall (λ xv : pyval * View, ∃ t, xv.2 = VTable t ∧ sample ∈ (tb_data t).*1) item.2 ∧
  Forall (λ ind, ind < length item.1)%nat overlay_inds.

Section curve_collapse_returns.
Variable sheet2matrixidx : SheetView → Q → Q → Z * Z.
Variable _type_map : Stack Key View → list (pyval * option pytype).
Variable repr : pyval → string.
Variable str : pyval → string.
Variable capitalize : string → string.
Variable str_title : string → string.
Variable pprint_value : Dimension → pyval → string.
Variable x : string.
Variable group_by : list string.
Variable samples : list pyval.

Lemma _check_table_stack_passes (stack : Stack Key View) :
  Forall (λ sample, ∃ tp, od_get sample (_type_map stack) = Some (Some tp) ∧
                          tp ∈ sample_types) samples →
  _check_table_stack _type_map repr (Some x) samples stack = Ok tt.
Proof.
  intros Hall. unfold _check_table_stack.
  assert (forallb (λ h, bool_decide (h ∈ (_type_map stack).*1)) samples = true) as ->.
  { apply forallb_forall. intros h Hin. apply list_elem_of_In in Hin.
    rewrite Forall_forall in Hall. destruct (Hall h Hin) as (tp & Hg & _).
    apply bool_decide_eq_true, od_get_Some_elem. by rewrite Hg. }
  cbn [negb]. rewrite (for_each_fmap _ (λ _, tt)); [done|].
  intros sample Hin. rewrite Forall_forall in Hall.
  destruct (Hall sample Hin) as (tp & -> & Htp).
  by rewrite bool_decide_false by (intros Hn; by apply Hn).
Qed.

Lemma _generate_curve_total (self_stack_type : Cls.t) (stack : Stack Key View)
    (stack_dims : list Dimension) (overlay_inds : list nat) (cyclic_range : option Q)
    (sample : pyval) (dataview : DataView) (item : Key * list (pyval * View)) :
  self_stack_type ∈ [Cls.SheetStack; Cls.TableStack] →
  Forall (λ name, name ∈ dimension_labels stack) group_by →
  dataview_ok stack_dims dataview →
  split_item_ok overlay_inds sample item →
  ∃ dv,
    _generate_curve str capitalize str_title pprint_value group_by self_stack_type stack
      stack_dims overlay_inds cyclic_range x sample dataview item = Ok dv ∧
    dataview_ok stack_dims dv.
Proof.
  intros Htype Hgroup Hdv (Hne & Htables & Hinds). destruct item as [key x_axis_data].
  simpl in Hne, Htables, Hinds. unfold _generate_curve.
  destruct (for_each_total
              (λ xv : pyval * View,
                 t ← as_Table xv.2; y ← Table_getitem t sample; Ok (xv.1, y))
              x_axis_data) as [pts Hpts].
  { eapply Forall_impl; [exact Htables|]. intros [x0 v] (t & -> & Hin). simpl in *.
    apply od_get_Some_elem in Hin as [y Hy]. unfold Table_getitem. rewrite Hy.
    by eexists. }
  unfold sampled_curve_data_of. rewrite Hpts. cbn [mbind result_bind].
  destruct (for_each_total
              (λ ni : string * nat,
                 match key !! ni.2 with
                 | Some val => Ok (ni.1, val)
                 | None => Raise IndexError
                 end) (zip group_by overlay_inds)) as [overlay_items Hitems].
  { apply Forall_forall. intros [name ind] Hin. simpl.
    apply elem_of_zip_r in Hin. rewrite Forall_forall in Hinds.
    destruct (lookup_lt_is_Some_2 key ind (Hinds ind Hin)) as [val ->]. by eexists. }
  rewrite Hitems. cbn [mbind result_bind].
  destruct (for_each_total
              (λ nv : string * pyval, d ← dim_dict stack nv.1; Ok (pprint_value d nv.2))
              overlay_items) as [legend_labels Hlabels].
  { apply for_each_Ok in Hitems. apply Forall_lookup. intros j [name val] Hj.
    destruct (Forall2_lookup_r _ _ _ _ _ Hitems Hj) as ([name' ind] & Hj' & Hnv).
    simpl in Hnv. destruct (key !! ind); [|done]. injection Hnv as -> ->.
    apply list_elem_of_lookup_2, elem_of_zip_l in Hj'.
    rewrite Forall_forall in Hgroup.
    destruct (dim_dict_elem stack name (Hgroup name Hj')) as (d & Hd & _).
    simpl. rewrite Hd. by eexists. }
  rewrite Hlabels. cbn [mbind result_bind].
  destruct x_axis_data as [|[x0 v0] x_axis_data']; [done|].
  cbn [fmap list_fmap lookup list_lookup snd mbind result_bind].
  assert (∃ labels, _curve_labels capitalize str_title self_stack_type x (str sample)
                      (label v0) = Ok labels) as [[[[title_prefix lbl] xlabel] ylabel] ->].
  { unfold _curve_labels. rewrite !elem_of_cons, elem_of_nil in Htype.
    destruct Htype as [->|[->|[]]]; by eexists. }
  cbn [mbind result_bind].
  destruct stack_dims as [|d stack_dims'].
  - destruct dataview; try done; by eexists.
  - destruct dataview as [| | |s]; try done. simpl in Hdv.
    case_bool_decide as Hkey.
    + eexists. split; [done|]. simpl.
      apply (od_set_Forall_values (λ v, ∃ curves, v = VDataOverlay curves)); [done|].
      by eexists.
    + unfold Stack_getitem. cbn [_data].
      match goal with
      | |- context [od_get ?k (_data s)] =>
          destruct (od_get k (_data s)) as [overlay|] eqn:Hget
      end.
      * apply od_get_Some_in in Hget. rewrite Forall_forall in Hdv.
        destruct (Hdv _ Hget) as [curves Hov]. simpl in Hov. subst overlay.
        cbn [mbind result_bind]. eexists. split; [done|]. simpl.
        apply (od_set_Forall_values (λ v, ∃ curves, v = VDataOverlay curves));
          [by apply Forall_forall|by eexists].
      * exfalso. unfold Stack_keys in Hkey. cbn [_data] in Hkey.
        apply od_get_Some_elem in Hkey. rewrite Hget in Hkey. by destruct Hkey.
Qed.

Lemma _generate_curve_fold_total (self_stack_type : Cls.t) (stack : Stack Key View)
    (stack_dims : list Dimension) (overlay_inds : list nat) (cyclic_range : option Q)
    (sample : pyval) (split_data : SplitData) :
  self_stack_type ∈ [Cls.SheetStack; Cls.TableStack] →
  Forall (λ name, name ∈ dimension_labels stack) group_by →
  Forall (split_item_ok overlay_inds sample) split_data →
  ∀ dataview, dataview_ok stack_dims dataview →
  ∃ dv,
    for_fold (_generate_curve str capitalize str_title pprint_value group_by
                self_stack_type stack stack_dims overlay_inds cyclic_range x sample)
      split_data dataview = Ok dv.
Proof.
  intros Htype Hgroup Hall.
  induction Hall as [|item split_data Hitem _ IH]; intros dataview Hdv; cbn [for_fold].
  - by eexists.
  - destruct (_generate_curve_total self_stack_type stack stack_dims overlay_inds
                cyclic_range sample dataview item) as (dv1 & -> & Hdv1); try done.
    cbn [mbind result_bind]. by apply IH.
Qed.

Lemma _generate_curves_total (self_stack_type : Cls.t) (stack : Stack Key View)
    (stack_dims : list Dimension) (split_data : SplitData) (overlay_inds : list nat)
    (cyclic_range : option Q) :
  self_stack_type ∈ [Cls.SheetStack; Cls.TableStack] →
  Forall (λ name, name ∈ dimension_labels stack) group_by →
  Forall (λ sample, Forall (split_item_ok overlay_inds sample) split_data) samples →
  ∃ dataviews,
    _generate_curves str capitalize str_title pprint_value group_by samples
      self_stack_type stack stack_dims split_data overlay_inds cyclic_range x
    = Ok dataviews ∧
    length dataviews = length samples.
Proof.
  intros Htype Hgroup Hall. unfold _generate_curves.
  match goal with
  | |- ∃ _, for_each ?f samples = _ ∧ _ => destruct (for_each_total f samples) as [dvs Hdvs]
  end.
  - eapply Forall_impl; [exact Hall|]. intros sample Hitems. simpl.
    apply _generate_curve_fold_total; try done.
    destruct stack_dims; simpl; [done|constructor].
  - exists dvs. split; [done|]. apply for_each_Ok, Forall2_length in Hdvs. done.
Qed.
Lemma split_axis_Ok (stack : Stack Key View) (x_ndim : nat) :
  dim_index stack x = Ok x_ndim →
  Forall (λ k : Key, x_ndim < length k)%nat (Stack_keys stack) →
  ∃ xvals,
    Forall2 (λ (k : Key) xv, k !! x_ndim = Some xv) (Stack_keys stack) xvals ∧
    split_axis stack x =
      Ok ((λ k, (k, x_axis_data_of stack x_ndim (fromkeys xvals) k))
            <$> fromkeys ((λ k : Key, take x_ndim k ++ drop (S x_ndim) k)
                            <$> Stack_keys stack)).
Proof.
  intros Hdim Hkeys.
  destruct (for_each_total (λ k : Key, match k !! x_ndim with
                                       | Some xv => Ok xv
                                       | None => Raise IndexError
                                       end) (Stack_keys stack)) as [xvals Hxvals].
  { eapply Forall_impl; [exact Hkeys|]. intros k Hk. simpl in Hk.
    destruct (lookup_lt_is_Some_2 k x_ndim Hk) as [xv Hxv]. exists xv. by rewrite Hxv. }
  exists xvals. split.
  - apply for_each_Ok in Hxvals. eapply Forall2_impl; [exact Hxvals|].
    intros k xv Hk. simpl in Hk. destruct (k !! x_ndim); [|done]. by injection Hk as ->.
  - unfold split_axis, _split_keys_by_axis. rewrite Hdim. cbn [mbind result_bind].
    rewrite Hxvals. cbn [mbind result_bind].
    destruct (fromkeys_spec xvals) as [Hndx _].
    destruct (fromkeys_spec ((λ k : Key, take x_ndim k ++ drop (S x_ndim) k)
                               <$> Stack_keys stack)) as [Hndk _].
    rewrite split_axis_key_fold by (done || intros ? _; apply not_elem_of_nil).
    done.
Qed.

(** X30: curve_collapse returns, with one result for each requested sample,
    for every stack of tables that meets what the code relies on: the stack
    has entries under distinct keys with one component per dimension, every
    table has distinct headings that include the samples, the sampled stack
    passes the type check, the x axis is a dimension of the stack, the
    group-by names are distinct dimensions other than the x axis, and a
    cyclic x dimension declares its range. *)
Theorem curve_collapse_process_returns (stack : Stack Key View) :
  stack_type stack = Cls.TableStack →
  Stack_items stack ≠ [] →
  NoDup (Stack_keys stack) →
  Forall (λ k : Key, length k = length (dimensions stack)) (Stack_keys stack) →
  (∀ k v, (k, v) ∈ Stack_items stack →
     ∃ t, v = VTable t ∧ NoDup (tb_data t).*1 ∧
          Forall (λ sample, sample ∈ (tb_data t).*1) samples) →
  Forall (λ sample, ∃ tp,
            od_get sample (_type_map (sampled_stack samples stack)) = Some (Some tp) ∧
            tp ∈ sample_types) samples →
  x ∈ dimension_labels stack →
  NoDup (x :: group_by) →
  Forall (λ name, name ∈ dimension_labels stack) group_by →
  (∀ d, d ∈ dimensions stack → dim_name d = x → dim_cyclic d = true →
        is_Some (dim_range d)) →
  ∃ dataviews,
    curve_collapse_process sheet2matrixidx _type_map repr str capitalize str_title
      pprint_value (Some x) group_by samples stack = Ok dataviews ∧
    length dataviews = length samples.
Proof.
  intros Htype Hne Hnd Hlen Htab Hchk Hx Hdup Hgroup Hcyc.
  set (s := sampled_stack samples stack).
  assert (sample_call sheet2matrixidx samples (InStack stack) = Ok (OutStack s)) as Hsample.
  { unfold sample_call.
    apply (ViewOperation_call_single_output type_of issubclass
             (sample_process sheet2matrixidx samples) stack (sampled_entry samples)
             Cls.Table); [done|done| |done].
    intros k v Hin. destruct (Htab k v Hin) as (t & -> & Ht & _).
    split; [by apply sample_process_Table|reflexivity]. }
  assert (Stack_keys s = Stack_keys stack) as Hkeys.
  { unfold Stack_keys, s, sampled_stack, Stack_items. cbn [_data].
    rewrite <- list_fmap_compose. done. }
  destruct (dim_dict_elem s x Hx) as (x_dim & Hxdim & Hxin & Hxname).
  destruct (index_of_elem x (dimension_labels s) Hx) as (x_ndim & Hindex & Hlt).
  assert (dim_index s x = Ok x_ndim) as Hdim by (unfold dim_index; by rewrite Hindex).
  unfold dimension_labels in Hlt. rewrite length_fmap in Hlt. cbn [s sampled_stack dimensions] in Hlt.
  destruct (split_axis_Ok s x_ndim Hdim) as (xvals & Hxvals & Hsplit).
  { rewrite Hkeys. eapply Forall_impl; [exact Hlen|]. intros k Hk. simpl in Hk. lia. }
  set (x_vals := fromkeys xvals) in *.
  set (dim_values := fromkeys ((λ k : Key, take x_ndim k ++ drop (S x_ndim) k)
                                 <$> Stack_keys s)) in *.
  set (overlay_inds :=
         (filter (λ ix : nat * string, ix.2 ∈ group_by)
            (imap (λ i name, (i, name))
               (filter (λ d, d ≠ x) (dimension_labels s)))).*1).
  assert (∃ cyclic_range,
            (if dim_cyclic x_dim
             then match dim_range x_dim with
                  | Some rng => Ok (Some rng.2)
                  | None => Raise TypeError
                  end
             else Ok None) = Ok cyclic_range) as [cyclic_range Hrange].
  { destruct (dim_cyclic x_dim) eqn:Hc; [|by eexists].
    destruct (Hcyc x_dim Hxin Hxname Hc) as [rng ->]. by eexists. }
  assert (Forall (λ sample,
            Forall (split_item_ok overlay_inds sample)
              ((λ k, (k, x_axis_data_of s x_ndim x_vals k)) <$> dim_values)) samples)
    as Hitems.
  { apply Forall_forall. intros sample Hsample_in.
    apply Forall_fmap, Forall_forall. intros k Hk.
    unfold dim_values in Hk.
    match type of Hk with
    | _ ∈ fromkeys ?l => apply (proj2 (fromkeys_spec l)) in Hk
    end.
    apply list_elem_of_fmap in Hk as (key0 & -> & Hkey0).
    assert (length key0 = length (dimensions stack)) as Hlen0.
    { rewrite Hkeys in Hkey0. rewrite Forall_forall in Hlen. by apply Hlen. }
    apply list_elem_of_lookup in Hkey0 as [j Hj].
    destruct (Forall2_lookup_l _ _ _ _ _ Hxvals Hj) as (x0 & Hjx & Hx0).
    split; [|split]; cbn [fst snd].
    - assert (is_Some (od_get key0 (_data s))) as [view Hview].
      { apply od_get_Some_elem. by eapply list_elem_of_lookup_2. }
      intros Hnil.
      assert ((x0, view) ∈ x_axis_data_of s x_ndim x_vals
                (take x_ndim key0 ++ drop (S x_ndim) key0)) as Hin.
      { unfold x_axis_data_of. apply list_elem_of_omap. exists x0. split.
        - unfold x_vals. apply (proj2 (fromkeys_spec xvals)).
          by eapply list_elem_of_lookup_2.
        - rewrite expanded_key_shorten by done. by rewrite Hview. }
      rewrite Hnil in Hin. by apply elem_of_nil in Hin.
    - apply Forall_forall. intros [x' view] Hin.
      apply x_axis_data_of_values in Hin as [_ Hget].
      apply od_get_Some_in in Hget. unfold s, sampled_stack in Hget. cbn [_data] in Hget.
      apply list_elem_of_fmap in Hget as ([k0 v0] & [= _ ->] & Hin0).
      destruct (Htab k0 v0 Hin0) as (t & -> & Ht & Hheads).
      exists (sampled_table samples t). split; [done|].
      unfold sampled_table. cbn [tb_data Table_new]. rewrite filter_samples_keys.
      apply list_elem_of_filter. split; [done|].
      rewrite Forall_forall in Hheads. by apply Hheads.
    - apply Forall_forall. intros ind Hind.
      apply list_elem_of_fmap in Hind as ([ind' name] & -> & Hin).
      apply list_elem_of_filter in Hin as [_ Hin].
      apply elem_of_lookup_imap_1 in Hin as (i & y & [= -> ->] & Hi).
      apply lookup_lt_Some in Hi.
      pose proof (length_filter_lt (λ d, d ≠ x) (dimension_labels s) x Hx) as Hfl.
      unfold dimension_labels in Hfl at 2. rewrite length_fmap in Hfl.
      cbn [s sampled_stack dimensions] in Hfl.
      rewrite length_app, length_take, length_drop. cbn [fst].
      assert (length (filter (λ d, d ≠ x) (dimension_labels s))
              < length (dimensions stack))%nat by (apply Hfl; by intros Hn).
      lia. }
  destruct (_generate_curves_total (stack_type stack) s
              (filter (λ d, dim_name d ∉ (list_to_set (x :: group_by) : gset string))
                 (dimensions s))
              ((λ k, (k, x_axis_data_of s x_ndim x_vals k)) <$> dim_values)
              overlay_inds cyclic_range) as (dataviews & Hgen & Hlength).
  { rewrite Htype. apply list_elem_of_further, list_elem_of_here. }
  { done. }
  { done. }
  exists dataviews. split; [|done].
  unfold curve_collapse_process, curve_collapse_prepare.
  rewrite Hsample. cbn [mbind result_bind].
  rewrite _check_table_stack_passes by done. cbn [mbind result_bind].
  rewrite Hxdim. cbn [mbind result_bind].
  rewrite bool_decide_false.
  - rewrite Hsplit. cbn [mbind result_bind]. rewrite Hrange. cbn [mbind result_bind].
    exact Hgen.
  - intros Hn. apply Hn. by rewrite size_list_to_set.
Qed.
End curve_collapse_returns.

Lemma curve_collapse_process_returns_witness :
  ∃ dataviews,
    curve_collapse_process (λ _ _ _, (0, 0)%Z) weather_type_map show show id id
      (λ _ v, show v) (Some "time") ["trial"] [PStr "temp"] weather_stack
    = Ok dataviews ∧
    length dataviews = 1%nat.
Proof.
  apply (curve_collapse_process_returns (λ _ _ _, (0, 0)%Z) weather_type_map show show
           id id (λ _ v, show v) "time" ["trial"] [PStr "temp"] weather_stack).
  - reflexivity.
  - discriminate.
  - apply (bool_decide_unpack _). vm_compute. exact I.
  - unfold Stack_keys. simpl. repeat constructor.
  - intros k v Hin. unfold Stack_items in Hin. simpl in Hin.
    rewrite !elem_of_cons, elem_of_nil in Hin.
    destruct Hin as [[= _ ->]|[[= _ ->]|[[= _ ->]|[[= _ ->]|[]]]]];
      eexists; (split; [reflexivity|]);
      (split; [apply (bool_decide_unpack _); vm_compute; exact I|]);
      repeat constructor.
  - constructor; [|constructor]. exists TFloat. split; [reflexivity|].
    apply list_elem_of_further, list_elem_of_here.
  - apply list_elem_of_here.
  - apply (bool_decide_unpack _). vm_compute. exact I.
  - constructor; [|constructor]. apply list_elem_of_further, list_elem_of_here.
  - intros d Hd _ Hc. simpl in Hd. rewrite !elem_of_cons, elem_of_nil in Hd.
    destruct Hd as [->|[->|[]]]; discriminate.
Defined.
